(** * HuBMAP program-manager report: the data pipeline of [app.py]

    A shallow embedding of the Streamlit script [src/app.py]: the fetcher
    [get_data], the classifier [determine_type], the filter to primary
    datasets, the three pivot tables handed to the charts, and the helper
    [get_list_of_unique_status].  Python exceptions are values of [exn] in
    an error monad, a pandas [DataFrame] is a header with positional rows,
    and the frame [df] that the script renames in place is threaded through
    the views as explicit state. *)

From Stdlib Require Import String Ascii List ZArith Bool Arith Lia.
From Stdlib Require Import Permutation Sorted OrderedTypeEx.
Import ListNotations.

Open Scope string_scope.
Open Scope list_scope.

(* ================================================================== *)
(** ** Python exceptions and results *)

Module Py.

(** The exception classes that can reach the handlers of [get_data] or
    escape from the script. *)
Inductive exn : Type :=
| ConnectionError            (* requests.get could not obtain a response *)
| HTTPError                  (* response.raise_for_status() *)
| JSONDecodeError            (* response.json() on a body that is not JSON *)
| KeyError (key : string)
| TypeError
| ValueError.

(** [isinstance(e, (ValueError, KeyError))]: [JSONDecodeError] derives
    from [ValueError]. *)
Definition is_ValueError_or_KeyError (e : exn) : bool :=
  match e with
  | JSONDecodeError | KeyError _ | ValueError => true
  | ConnectionError | HTTPError | TypeError => false
  end.

(** [isinstance(e, requests.RequestException)]. *)
Definition is_RequestException (e : exn) : bool :=
  match e with
  | ConnectionError | HTTPError | JSONDecodeError => true
  | KeyError _ | TypeError | ValueError => false
  end.

Inductive result (A : Type) : Type :=
| Ok (a : A)
| Raise (e : exn).
Arguments Ok {A} a.
Arguments Raise {A} e.

Definition bind {A B} (m : result A) (k : A -> result B) : result B :=
  match m with
  | Ok a => k a
  | Raise e => Raise e
  end.

(** [try: m  except C1: h1  except C2: h2 ...]: the first clause whose
    class test accepts the exception handles it; with none, it escapes. *)
Fixpoint handle {A} (e : exn)
         (clauses : list ((exn -> bool) * (exn -> result A))) : result A :=
  match clauses with
  | [] => Raise e
  | (accepts, handler) :: rest =>
      if accepts e then handler e else handle e rest
  end.

Definition try_except {A} (m : result A)
           (clauses : list ((exn -> bool) * (exn -> result A))) : result A :=
  match m with
  | Ok a => Ok a
  | Raise e => handle e clauses
  end.

Fixpoint mapM {A B} (f : A -> result B) (l : list A) : result (list B) :=
  match l with
  | [] => Ok []
  | x :: t => bind (f x) (fun y => bind (mapM f t) (fun ys => Ok (y :: ys)))
  end.

Definition raises {A} (m : result A) : Prop := exists e, m = Raise e.

End Py.

Import Py.

Notation "x <- m ;; k" := (Py.bind m (fun x => k))
  (at level 61, m at next level, right associativity).

(* ================================================================== *)
(** ** Values *)

(** What a cell of the fetched table can hold.  The fields this program
    reads are strings, JSON [null], or the [status_history] array of flat
    objects; [NaN] is what pandas stores where a record has no such key. *)
Inductive cell : Type :=
| NaN
| Null
| Str (s : string)
| Hist (h : list (list (string * string))).

(** A parsed JSON object of the records array: an insertion-ordered
    dictionary, the first binding of a key being the one looked up. *)
Definition record : Type := list (string * cell).

(** [str.__contains__]: [needle in hay] is a substring test. *)
Fixpoint str_in (needle hay : string) : bool :=
  if String.prefix needle hay then true
  else match hay with
       | EmptyString => false
       | String _ rest => str_in needle rest
       end.

(* ================================================================== *)
(** ** The classifier (app.py, lines 9-13) *)

Definition determine_type (dataset_type : string) : string :=
  if str_in "[" dataset_type && str_in "]" dataset_type
  then "Derived"
  else "Primary".

(** The call [determine_type(x)] as [Series.apply] makes it, on whatever
    the column holds: [in] on a float or on [None] is a [TypeError]; on a
    list it is element membership, and a list of dictionaries has no
    element equal to the string ["["], so the [and] stops at its first
    operand. *)
Definition call_determine_type (x : cell) : result string :=
  match x with
  | Str s => Ok (determine_type s)
  | NaN | Null => Raise TypeError
  | Hist _ => Ok "Primary"
  end.

(* ================================================================== *)
(** ** Data frames *)

Record DataFrame : Type := mkFrame {
  columns : list string;
  rows : list (list cell)
}.

(** [pd.DataFrame()]. *)
Definition empty_frame : DataFrame := mkFrame [] [].

(** First occurrences, in order. *)
Fixpoint uniq (l : list string) : list string :=
  match l with
  | [] => []
  | x :: t => x :: filter (fun y => negb (x =? y)) (uniq t)
  end.

(** [r.get(k, nan)]. *)
Definition field (k : string) (r : record) : cell :=
  match find (fun kv => fst kv =? k) r with
  | Some kv => snd kv
  | None => NaN
  end.

(** [pd.DataFrame(list_of_dicts)]: the columns are the keys in order of
    first appearance, and a row holds [NaN] where its record lacks a key. *)
Definition DataFrame_of (recs : list record) : DataFrame :=
  let cols := uniq (flat_map (map fst) recs) in
  mkFrame cols (map (fun r => map (fun k => field k r) cols) recs).

(** The cells of one row that stand under the label [name]. *)
Definition select {C} (name : string) (cols : list string) (row : list C)
  : list C :=
  map snd (filter (fun p => fst p =? name) (combine cols row)).

Definition count_label (name : string) (cols : list string) : nat :=
  length (filter (fun c => c =? name) cols).

(** [df[name]] where a single column is needed: a missing label is a
    [KeyError]; a label carried by several columns selects a frame, which
    [groupby] rejects with a [ValueError] (the other uses in this script
    are on frames whose labels are distinct). *)
Definition getitem (d : DataFrame) (name : string) : result (list cell) :=
  match count_label name (columns d) with
  | O => Raise (KeyError name)
  | S O => Ok (map (fun row => hd NaN (select name (columns d) row)) (rows d))
  | _ => Raise ValueError
  end.

Definition set_in_row {C} (name : string) (cols : list string)
           (row : list C) (v : C) : list C :=
  if existsb (fun c => c =? name) cols
  then map (fun p => if fst p =? name then v else snd p) (combine cols row)
  else row ++ [v].

(** [df[name] = values]: overwrite the column if the label exists, append
    it otherwise; a length mismatch is a [ValueError]. *)
Definition setitem (d : DataFrame) (name : string) (values : list cell)
  : result DataFrame :=
  if Nat.eqb (length values) (length (rows d)) then
    Ok (mkFrame
          (if existsb (fun c => c =? name) (columns d)
           then columns d else columns d ++ [name])
          (map (fun rv => set_in_row name (columns d) (fst rv) (snd rv))
               (combine (rows d) values)))
  else Raise ValueError.

(** [series == scalar], elementwise. *)
Definition series_eq (s : list cell) (scalar : string) : list bool :=
  map (fun c => match c with Str x => x =? scalar | _ => false end) s.

(** [df[mask].copy()]. *)
Definition mask_rows (d : DataFrame) (mask : list bool) : DataFrame :=
  mkFrame (columns d) (map fst (filter snd (combine (rows d) mask))).

Definition rename_label (mapping : list (string * string)) (c : string)
  : string :=
  match find (fun kv => fst kv =? c) mapping with
  | Some kv => snd kv
  | None => c
  end.

(** [df.rename(columns=mapping, inplace=True)]: only the header changes;
    labels absent from the frame are ignored. *)
Definition rename (mapping : list (string * string)) (d : DataFrame)
  : DataFrame :=
  mkFrame (map (rename_label mapping) (columns d)) (rows d).

(* ================================================================== *)
(** ** The fetcher (app.py, lines 16-49) *)

(** What [requests.get(url)] yields.  [json = None] stands for a body that
    is not valid JSON.  A body that parses is a JSON object whose members
    are arrays of records, the shape the endpoint documents. *)
Record Response : Type := mkResponse {
  status_code : Z;
  json : option (list (string * list record))
}.

Inductive fetched : Type :=
| NoResponse
| Got (r : Response).

Definition requests_get (net : fetched) : result Response :=
  match net with
  | NoResponse => Raise ConnectionError
  | Got r => Ok r
  end.

(** [Response.raise_for_status]: client and server error codes raise. *)
Definition raise_for_status (r : Response) : result unit :=
  if ((400 <=? status_code r) && (status_code r <? 600))%Z
  then Raise HTTPError else Ok tt.

Definition response_json (r : Response)
  : result (list (string * list record)) :=
  match json r with
  | Some j => Ok j
  | None => Raise JSONDecodeError
  end.

Definition dict_get {V} (k : string) (d : list (string * V)) : option V :=
  option_map snd (find (fun kv => fst kv =? k) d).

(** The body of the [try] block. *)
Definition get_data_try (net : fetched) : result DataFrame :=
  response <- requests_get net ;;
  _ <- raise_for_status response ;;
  json_data <- response_json response ;;
  match dict_get "data" json_data with
  | Some payload =>
      let df := DataFrame_of payload in
      col <- getitem df "dataset_type" ;;
      status <- mapM call_determine_type col ;;
      setitem df "dataset_status" (map Str status)
  | None => Raise (KeyError "data")
  end.

(** [get_data()]: both handlers return [pd.DataFrame()]. *)
Definition get_data (net : fetched) : result DataFrame :=
  try_except (get_data_try net)
    [ (is_ValueError_or_KeyError, fun _ => Ok empty_frame);
      (is_RequestException, fun _ => Ok empty_frame) ].

(* ================================================================== *)
(** ** Count tables: what [groupby(...).size().unstack(fill_value=0)] builds *)

(** A pivot: column labels, and per row its index label and its counts. *)
Record Table : Type := mkTable {
  tcolumns : list string;
  trows : list (string * list Z)
}.

(** Insertion into a list kept ascending in [String.compare], the order
    of Python's [str] comparison. *)
Fixpoint insert_label (s : string) (l : list string) : list string :=
  match l with
  | [] => [s]
  | h :: t => match String.compare s h with
              | Gt => h :: insert_label s t
              | _ => s :: l
              end
  end.

Definition sort_labels (l : list string) : list string :=
  fold_right insert_label [] l.

(** A list cannot be a group key. *)
Definition hashable (c : cell) : bool :=
  match c with Hist _ => false | _ => true end.

(** [groupby] has [dropna=True]: only rows whose two keys are both present
    form a group. *)
Definition observed (keys : list (cell * cell)) : list (string * string) :=
  flat_map (fun k => match k with
                     | (Str a, Str b) => [(a, b)]
                     | _ => []
                     end) keys.

Definition count_pair (r c : string) (pairs : list (string * string)) : Z :=
  Z.of_nat (length (filter (fun p => (fst p =? r) && (snd p =? c)) pairs)).

(** [.size().unstack(fill_value=0)] on the groups: one row per first key
    and one column per second key, both in ascending order (group keys are
    sorted), each cell the size of its group, 0 where there is none. *)
Definition unstack_counts (pairs : list (string * string)) : Table :=
  let rlabels := sort_labels (uniq (map fst pairs)) in
  let clabels := sort_labels (uniq (map snd pairs)) in
  mkTable clabels
    (map (fun r => (r, map (fun c => count_pair r c pairs) clabels)) rlabels).

Definition has_label (name : string) (cols : list string) : bool :=
  existsb (fun c => c =? name) cols.

(** How [groupby] reads a list of keys that is as long as the frame has
    rows: unless every key is a column label, pandas takes the list for one
    array of group values, one per row. *)
Definition keys_read_as_values (d : DataFrame) (rk ck : string) : bool :=
  Nat.eqb (length (rows d)) 2
  && negb (has_label rk (columns d) && has_label ck (columns d)).

(** [df.groupby([rk, ck]).size().unstack(fill_value=0)].  When the two
    keys are read as group values the sizes have a plain index, which
    [unstack] refuses with a [ValueError]. *)
Definition groupby_size_unstack (d : DataFrame) (rk ck : string)
  : result Table :=
  if keys_read_as_values d rk ck then Raise ValueError
  else
    kr <- getitem d rk ;;
    kc <- getitem d ck ;;
    if forallb hashable kr && forallb hashable kc
    then Ok (unstack_counts (observed (combine kr kc)))
    else Raise TypeError.

Definition sum_cells (cs : list Z) : Z := fold_right Z.add 0%Z cs.

(** [agg_df.sum(axis=1)]. *)
Definition row_sums (t : Table) : list Z :=
  map (fun r => sum_cells (snd r)) (trows t).

(** [agg_df[name] = values]. *)
Definition set_column (t : Table) (name : string) (values : list Z) : Table :=
  mkTable
    (if existsb (fun c => c =? name) (tcolumns t)
     then tcolumns t else tcolumns t ++ [name])
    (map (fun rv => (fst (fst rv),
                     set_in_row name (tcolumns t) (snd (fst rv)) (snd rv)))
         (combine (trows t) values)).

(** The cell of a row under a label. *)
Definition cell_at (cols : list string) (name : string) (cs : list Z) : Z :=
  hd 0%Z (select name cols cs).

(** [agg_df.drop(columns=name)]. *)
Definition drop_columns (t : Table) (name : string) : Table :=
  mkTable
    (filter (fun c => negb (c =? name)) (tcolumns t))
    (map (fun r => (fst r,
                    map snd (filter (fun p => negb (fst p =? name))
                                    (combine (tcolumns t) (snd r)))))
         (trows t)).

(** [agg_df.sort_index(axis=1)]: the columns reordered by ascending label
    (the labels of a pivot are distinct). *)
Definition sort_index_columns (t : Table) : Table :=
  let cols := sort_labels (tcolumns t) in
  mkTable cols
    (map (fun r => (fst r, map (fun c => cell_at (tcolumns t) c (snd r)) cols))
         (trows t)).

(** [sort_values(by=..., ascending=False)] is called with the default
    [kind='quicksort'], for which pandas promises the rows in descending
    order of the key and nothing about rows with equal keys.  The script
    is therefore read against any row sort with that contract. *)
Class RowSort : Type := {
  sort_desc : (string * list Z -> Z) -> list (string * list Z)
              -> list (string * list Z);
  sort_desc_perm : forall key l, Permutation (sort_desc key l) l;
  sort_desc_sorted : forall key l,
      StronglySorted (fun a b => (key b <= key a)%Z) (sort_desc key l)
}.

Section Report.

Context {sorter : RowSort}.

(** [agg_df.sort_values(by=name, ascending=False)]. *)
Definition sort_values_desc (t : Table) (name : string) : Table :=
  mkTable (tcolumns t)
          (sort_desc (fun r => cell_at (tcolumns t) name (snd r)) (trows t)).

(** Lines 88-90 and 157-159: add ["Total"], sort on it, drop it. *)
Definition rank_by_total (agg_df : Table) : Table :=
  let agg_df := set_column agg_df "Total" (row_sums agg_df) in
  let agg_df := sort_values_desc agg_df "Total" in
  drop_columns agg_df "Total".

(** The [columns=] mapping of the [rename] calls at lines 80-82 and 108. *)
Definition names_1 : list (string * string) :=
  [("dataset_type", "Dataset Type"); ("group_name", "Group Name")].

(** The mapping of the [rename] call at lines 144-151. *)
Definition names_3 : list (string * string) :=
  [("dataset_type", "Dataset Type"); ("group_name", "Group Name");
   ("status", "Status")].

(** A view renames the shared frame [df] in place and builds its table:
    it returns the frame as it leaves it, and the table or the
    exception. *)
Definition view := DataFrame -> DataFrame * result Table.

(** Lines 80-93: Group Name x Dataset Type. *)
Definition view_group_by_type : view := fun df =>
  let df := rename names_1 df in
  (df,
   agg_df <- groupby_size_unstack df "Group Name" "Dataset Type" ;;
   Ok (sort_index_columns (rank_by_total agg_df))).

(** Lines 108-114: Dataset Type x Group Name. *)
Definition view_type_by_group : view := fun df =>
  let df := rename names_1 df in
  (df,
   agg_df <- groupby_size_unstack df "Dataset Type" "Group Name" ;;
   Ok (sort_index_columns agg_df)).

(** Lines 144-162: Dataset Type x Status. *)
Definition view_type_by_status : view := fun df =>
  let df := rename names_3 df in
  (df,
   agg_df <- groupby_size_unstack df "Dataset Type" "Status" ;;
   Ok (sort_index_columns (rank_by_total agg_df))).

(** Line 61: [data[data["dataset_status"] == "Primary"].copy()]. *)
Definition primary (data : DataFrame) : result DataFrame :=
  status <- getitem data "dataset_status" ;;
  Ok (mask_rows data (series_eq status "Primary")).

(** The script from line 60 to line 162: the three tables given to the
    charts, or the exception that ends the run.  (Lines 190-203 filter
    [data] once more into a frame that is not displayed.) *)
Definition report (net : fetched) : result (Table * Table * Table) :=
  data <- get_data net ;;
  df <- primary data ;;
  let (df, r1) := view_group_by_type df in
  t1 <- r1 ;;
  let (df, r2) := view_type_by_group df in
  t2 <- r2 ;;
  let (df, r3) := view_type_by_status df in
  t3 <- r3 ;;
  Ok (t1, t2, t3).

(** Lines 88-93 on a pivot. *)
Definition ranked (agg_df : Table) : Table :=
  sort_index_columns (rank_by_total agg_df).

(** The three views of the report. *)
Definition report_views : list view :=
  [view_group_by_type; view_type_by_group; view_type_by_status].

End Report.

(** A stable row sort: straight insertion from the right, each row going
    in front of the rows already placed whose key is not larger, so rows of
    equal key keep the order they had. *)
Fixpoint insert_desc {A} (key : A -> Z) (x : A) (l : list A) : list A :=
  match l with
  | [] => [x]
  | h :: t => if (key h <=? key x)%Z then x :: l else h :: insert_desc key x t
  end.

Definition insertion_sort_desc {A} (key : A -> Z) (l : list A) : list A :=
  fold_right (insert_desc key) [] l.

(** Stable insertion of the rows taken in reverse: rows of equal key
    come out in the opposite order. *)
Definition mirror_sort_desc (key : string * list Z -> Z)
           (l : list (string * list Z)) : list (string * list Z) :=
  insertion_sort_desc key (rev l).

(* ================================================================== *)
(** ** get_list_of_unique_status (app.py, lines 52-57) *)

(** What the helper can hand back to its caller. *)
Inductive pyvalue : Type :=
| PyNone
| PyList (l : list string).

(** [l.insert(i, x)] changes the list it is called on and evaluates to
    [None]: the pair is the list afterwards and the value of the call. *)
Definition list_insert (l : list string) (i : nat) (x : string)
  : list string * pyvalue :=
  (firstn i l ++ x :: skipn i l, PyNone).

(** [[d["status"] for d in x]]: on a string, [d] is a one-character string
    and the subscript is a [TypeError]; a float or [None] is not
    iterable. *)
Definition statuses_of (x : cell) : result (list string) :=
  match x with
  | Hist h =>
      mapM (fun d => match dict_get "status" d with
                     | Some st => Ok st
                     | None => Raise (KeyError "status")
                     end) h
  | Str EmptyString => Ok []
  | Str _ | NaN | Null => Raise TypeError
  end.

(** The local list after the insertion, and the value returned.  (The
    order in which [list(set(...))] yields the statuses is not fixed by
    Python; first-occurrence order stands for it.) *)
Definition get_list_of_unique_status_run (df : DataFrame)
  : result (list string * pyvalue) :=
  col <- getitem df "status_history" ;;
  all_statuses <- mapM statuses_of col ;;
  let unique_statuses := uniq (concat all_statuses) in
  Ok (list_insert unique_statuses 0 "HuBMAP ID").

Definition get_list_of_unique_status (df : DataFrame) : result pyvalue :=
  run <- get_list_of_unique_status_run df ;;
  Ok (snd run).

(** A [status_history] cell as the endpoint documents it: an array of
    objects that each have a "status". *)
Definition is_history (x : cell) : bool :=
  match x with
  | Hist h => forallb (fun d => match dict_get "status" d with
                                | Some _ => true
                                | None => false
                                end) h
  | _ => false
  end.

(* ================================================================== *)
(** ** Vocabulary of the statements *)

(** A response with status 200 whose body is [{"data": recs}]. *)
Definition fetch_ok (recs : list record) : fetched :=
  Got (mkResponse 200 (Some [("data", recs)])).

(** The status codes [raise_for_status] rejects: 4xx and 5xx. *)
Definition error_status (r : Response) : Prop :=
  (400 <= status_code r < 600)%Z.

Definition has_char (c : ascii) (s : string) : Prop :=
  In c (list_ascii_of_string s).

Definition has_key (k : string) (r : record) : bool :=
  existsb (fun kv => fst kv =? k) r.

Definition is_str (c : cell) : bool :=
  match c with Str _ => true | _ => false end.

(** The string in a field, for a field that holds one. *)
Definition text (k : string) (r : record) : string :=
  match field k r with Str s => s | _ => EmptyString end.

(** A Dataset Record of the documented shape: [dataset_type], [group_name]
    and [status] are strings, and no key already bears one of the display
    names the report renames these columns to. *)
Definition dataset_record (r : record) : bool :=
  is_str (field "dataset_type" r) && is_str (field "group_name" r)
  && is_str (field "status" r)
  && negb (has_key "Dataset Type" r) && negb (has_key "Group Name" r)
  && negb (has_key "Status" r).

(** The record is one the classifier labels "Primary". *)
Definition is_primary (r : record) : bool :=
  determine_type (text "dataset_type" r) =? "Primary".

(** Lines 60-61: the fetched frame filtered to primary datasets. *)
Definition filtered (net : fetched) : result DataFrame :=
  data <- get_data net ;;
  primary data.

(** The number of records with [rk = r] and [ck = c]. *)
Definition matching (rk ck r c : string) (recs : list record) : Z :=
  Z.of_nat (length (filter (fun x => (text rk x =? r) && (text ck x =? c))
                           recs)).

(** The cell of a table in the row labelled [r] under the column [c]. *)
Definition lookup_cell (t : Table) (r c : string) : option Z :=
  match find (fun row => fst row =? r) (trows t) with
  | Some row =>
      if existsb (fun x => x =? c) (tcolumns t)
      then Some (cell_at (tcolumns t) c (snd row))
      else None
  | None => None
  end.

Definition index (t : Table) : list string := map fst (trows t).

(** Every row has a cell under every column. *)
Definition dense (t : Table) : Prop :=
  Forall (fun row => length (snd row) = length (tcolumns t)) (trows t).

(** The sum of all the cells of a table. *)
Definition grand_total (t : Table) : Z := sum_cells (row_sums t).

Definition label_lt (a b : string) : Prop := String.ltb a b = true.

Definition columns_ascending (t : Table) : Prop :=
  StronglySorted label_lt (tcolumns t).

Definition index_ascending (t : Table) : Prop :=
  StronglySorted label_lt (index t).

(** Rows in descending order of the sum of their cells. *)
Definition rows_by_total_desc (t : Table) : Prop :=
  StronglySorted (fun a b => (sum_cells (snd b) <= sum_cells (snd a))%Z)
                 (trows t).

(** The frame [df] after a sequence of views has run on it. *)
Definition after (views : list (DataFrame -> DataFrame * result Table))
           (df : DataFrame) : DataFrame :=
  fold_left (fun d v => fst (v d)) views df.

(** A record with the three fields the report reads. *)
Definition dataset (dataset_type group_name status : string) : record :=
  [("dataset_type", Str dataset_type); ("group_name", Str group_name);
   ("status", Str status)].

(** The records of the example scenario of the specification. *)
Definition example_records : list record :=
  [dataset "RNAseq" "TMC" "Published"; dataset "RNAseq[QA]" "TMC" "New";
   dataset "RNAseq" "CODCC" "Published"].

(* ================================================================== *)
(** ** Vocabulary of the proofs *)

(** The order of labels: [String.compare] is that of Python on [str]. *)
Definition label_le (a b : string) : Prop := String.compare a b <> Gt.

(** The rows of a frame whose cell under [k], in the row of record [r], is
    [F r k]. *)
Definition tabulate {X} (cols : list string) (F : X -> string -> cell)
           (xs : list X) : list (list cell) :=
  map (fun x => map (F x) cols) xs.

(** A value [determine_type] accepts: text or a list. *)
Definition classifiable (c : cell) : bool :=
  match c with NaN | Null => false | Str _ | Hist _ => true end.

(** The label [Series.apply] then stores for it. *)
Definition label_of (c : cell) : string :=
  match c with Str s => determine_type s | _ => "Primary" end.

(** The row with its total appended, and that row with the column
    "Total" taken away again. *)
Definition with_total (row : string * list Z) : string * list Z :=
  (fst row, snd row ++ [sum_cells (snd row)]).

Definition without_total (cols : list string) (row : string * list Z)
  : string * list Z :=
  (fst row,
   map snd (filter (fun p => negb (fst p =? "Total")) (combine cols (snd row)))).

(** The header of the frame [get_data] returns. *)
Definition data_columns (recs : list record) : list string :=
  if existsb (fun c => c =? "dataset_status") (uniq (flat_map (map fst) recs))
  then uniq (flat_map (map fst) recs)
  else uniq (flat_map (map fst) recs) ++ ["dataset_status"].

(** Its cell in the row of [r] under [k]. *)
Definition data_cell (r : record) (k : string) : cell :=
  if k =? "dataset_status" then Str (label_of (field "dataset_type" r))
  else field k r.

(** The one original column that bears [name] once renamed by [R]. *)
Definition the_column (R : string -> string) (name : string)
           (cols : list string) : result string :=
  match filter (fun c => R c =? name) cols with
  | [] => Raise (KeyError name)
  | [k] => Ok k
  | _ => Raise ValueError
  end.

(** The tables as [groupby(...).size().unstack(fill_value=0)] leaves them
    at lines 85, 111 and 154, on the frame as the renamings before each of
    them have left it. *)
Definition pivots (net : fetched) : result (Table * Table * Table) :=
  df <- filtered net ;;
  let df := rename names_1 df in
  p1 <- groupby_size_unstack df "Group Name" "Dataset Type" ;;
  let df := rename names_1 df in
  p2 <- groupby_size_unstack df "Dataset Type" "Group Name" ;;
  let df := rename names_3 df in
  p3 <- groupby_size_unstack df "Dataset Type" "Status" ;;
  Ok (p1, p2, p3).

(** The (row, column) values of the primary records. *)
Definition groups (rk ck : string) (recs : list record)
  : list (string * string) :=
  map (fun r => (text rk r, text ck r)) (filter is_primary recs).

(** [t] is the dense count matrix of [input] over the fields [rk] and
    [ck]: one row per distinct value of [rk], one column per distinct value
    of [ck], and in each cell the number of records with that pair. *)
Definition exact_counts (t : Table) (rk ck : string) (input : list record)
  : Prop :=
  dense t /\
  NoDup (index t) /\
  NoDup (tcolumns t) /\
  (forall r, In r (index t) <-> exists x, In x input /\ text rk x = r) /\
  (forall c, In c (tcolumns t) <-> exists x, In x input /\ text ck x = c) /\
  (forall r c, In r (index t) -> In c (tcolumns t) ->
               lookup_cell t r c = Some (matching rk ck r c input) /\
               (0 <= matching rk ck r c input)%Z).

(** No primary record has the text "Total" in field [k]: the column the
    script adds for sorting then clashes with no column of the pivot. *)
Definition never_total (k : string) (recs : list record) : Prop :=
  forall r, In r recs -> is_primary r = true -> text k r <> "Total".

(* ================================================================== *)
(** ** The last block of the script (app.py, lines 189-203) *)

(** The [columns=] mapping of the [rename] call at lines 191-200, key by
    key as the dictionary display is written (it names "hubmap_id"
    twice, with the same value). *)
Definition names_4 : list (string * string) :=
  [("hubmap_id", "HuBMAP ID"); ("dataset_type", "Dataset Type");
   ("group_name", "Group Name"); ("hubmap_id", "HuBMAP ID");
   ("uuid", "UUID")].

(** Lines 190-203: [data] is filtered again, renamed, and given a column
    "Status Change" holding [None] in every row.  [df.reset_index(drop=True)]
    returns a new frame that the script drops, so it changes nothing. *)
Definition status_change (data : DataFrame) : result DataFrame :=
  df <- primary data ;;
  let df := rename names_4 df in
  setitem df "Status Change" (repeat Null (length (rows df))).

(** The whole script: the three tables of the charts, then the frame of
    lines 190-203 (the cached [data] is the one fetched at line 60). *)
Definition script {sorter : RowSort} (net : fetched)
  : result (Table * Table * Table * DataFrame) :=
  tables <- report net ;;
  data <- get_data net ;;
  df <- status_change data ;;
  Ok (tables, df).

(** The test line 61 applies to a row: its cell under "dataset_status"
    is the text "Primary". *)
Definition primary_row (cols : list string) (row : list cell) : bool :=
  match hd NaN (select "dataset_status" cols row) with
  | Str x => x =? "Primary"
  | _ => false
  end.

(** A [status_history] cell the comprehension of line 53 gets through: a
    history, or the empty string (which has no element to subscript). *)
Definition readable (x : cell) : bool :=
  match x with
  | Hist _ => is_history x
  | Str EmptyString => true
  | _ => false
  end.

(** The sum of the cells of the row labelled [r]. *)
Definition row_total (t : Table) (r : string) : option Z :=
  option_map (fun row => sum_cells (snd row))
             (find (fun row => fst row =? r) (trows t)).

(** Every row has a cell under every column. *)
Definition well_formed (d : DataFrame) : Prop :=
  Forall (fun row => length row = length (columns d)) (rows d).

(** A table none of whose rows and none of whose columns is all zeros. *)
Definition no_empty_line (t : Table) : Prop :=
  (forall r, In r (index t) ->
     exists c n, In c (tcolumns t) /\
                 lookup_cell t r c = Some n /\ (1 <= n)%Z) /\
  (forall c, In c (tcolumns t) ->
     exists r n, In r (index t) /\
                 lookup_cell t r c = Some n /\ (1 <= n)%Z).

(* ================================================================== *)
(** ** The tables against the fetched records *)

(** The key of the records whose column bears the display label [new] when
    a view groups on it: [old], which the view renames to [new], if some
    record has it; the label itself otherwise. *)
Definition key_of (old new : string) (recs : list record) : string :=
  if existsb (has_key old) recs then old else new.

(** What each record holds under the two keys grouped on. *)
Definition key_cells (rk ck : string) (xs : list record)
  : list (cell * cell) :=
  map (fun x => (field rk x, field ck x)) xs.

(** The cell holds the text [s]. *)
Definition cell_is (s : string) (x : cell) : bool :=
  match x with Str y => y =? s | _ => false end.

(** Both values are text: the records [groupby] puts in a group. *)
Definition both_text (k : cell * cell) : bool :=
  is_str (fst k) && is_str (snd k).

(** The number of records whose two values are the texts [r] and [c]. *)
Definition pair_count (r c : string) (keys : list (cell * cell)) : Z :=
  Z.of_nat (length (filter (fun k => cell_is r (fst k) && cell_is c (snd k))
                           keys)).

(** The number of grouped records whose first value is the text [r]. *)
Definition row_count (r : string) (keys : list (cell * cell)) : Z :=
  Z.of_nat (length (filter (fun k => cell_is r (fst k) && is_str (snd k))
                           keys)).

(** [t] is the dense count matrix of [keys]: its row labels are the first
    values of the pairs of texts, its column labels the second values of
    the pairs of texts that [kept] lets through, and each cell is the
    number of pairs with those two texts. *)
Definition count_matrix (t : Table) (keys : list (cell * cell))
           (kept : string -> Prop) : Prop :=
  dense t /\
  NoDup (index t) /\
  NoDup (tcolumns t) /\
  (forall r, In r (index t) <-> exists c, In (Str r, Str c) keys) /\
  (forall c, In c (tcolumns t)
             <-> kept c /\ exists r, In (Str r, Str c) keys) /\
  (forall r c, In r (index t) -> In c (tcolumns t) ->
               lookup_cell t r c = Some (pair_count r c keys) /\
               (0 <= pair_count r c keys)%Z).

(** Every label is let through; every label but "Total" is. *)
Definition any_label (c : string) : Prop := True.

Definition not_total (c : string) : Prop := c <> "Total".

(** The rows of [t] are in descending order of the number of grouped
    records they stand for. *)
Definition rows_by_count_desc (t : Table) (keys : list (cell * cell)) : Prop :=
  StronglySorted (fun a b => (row_count b keys <= row_count a keys)%Z)
                 (index t).

(** No grouped record has the text "Total" as its second value. *)
Definition no_total_column (keys : list (cell * cell)) : Prop :=
  forall r, ~ In (Str r, Str "Total") keys.

(** The grouped records a table of lines 88-93 keeps a cell for. *)
Definition kept_pair (k : cell * cell) : bool :=
  both_text k && negb (cell_is "Total" (snd k)).

(** The total of line 88 for the row labelled [r] of the pivot [p]. *)
Definition pivot_total (p : Table) (r : string) : Z :=
  match row_total p r with Some z => z | None => 0%Z end.

(** The count matrix of [pairs] over given row and column labels. *)
Definition grid (rl cl : list string) (pairs : list (string * string))
  : Table :=
  mkTable cl (map (fun r => (r, map (fun c => count_pair r c pairs) cl)) rl).

(** What lines 88-90 make of a row of the pivot, apart from its place. *)
Definition total_dropped (cols : list string) (row : string * list Z)
  : string * list Z :=
  (fst row,
   map snd
     (filter (fun p => negb (fst p =? "Total"))
        (combine (if existsb (fun c => c =? "Total") cols
                  then cols else cols ++ ["Total"])
                 (set_in_row "Total" cols (snd row) (sum_cells (snd row)))))).

Definition total_set (cols : list string) (row : string * list Z)
  : string * list Z :=
  (fst row, set_in_row "Total" cols (snd row) (sum_cells (snd row))).

(** A record the views can group: [dataset_type] is text, [group_name]
    and [status] are text, null or missing, and no key already bears one of
    the display names the columns are renamed to. *)
Definition groupable_record (r : record) : bool :=
  is_str (field "dataset_type" r)
  && hashable (field "group_name" r) && hashable (field "status" r)
  && negb (has_key "Dataset Type" r) && negb (has_key "Group Name" r)
  && negb (has_key "Status" r).

(** Records the views can group, of which at least one has a [group_name]
    key and at least one a [status] key (so that the frame has the two
    columns). *)
Definition groupable (recs : list record) : bool :=
  forallb groupable_record recs
  && existsb (has_key "group_name") recs
  && existsb (has_key "status") recs.

(** Every primary record holds text under [group_name] and [status]. *)
Definition primary_grouped (recs : list record) : bool :=
  forallb (fun r => is_str (field "group_name" r)
                    && is_str (field "status" r))
          (filter is_primary recs).

(** Four datasets, of which lines 88-90 move the larger rows up. *)
Definition ranking_records : list record :=
  [dataset "ATAC" "TMC" "New"; dataset "RNAseq" "TMC" "Published";
   dataset "RNAseq" "CODCC" "New"; dataset "RNAseq" "TMC" "New"].

(** Three primary datasets, one of them without a [group_name]. *)
Definition records_with_a_gap : list record :=
  [dataset "RNAseq" "TMC" "New";
   [("dataset_type", Str "ATAC"); ("status", Str "New")];
   dataset "RNAseq" "CODCC" "New"].

(** Two primary datasets, one of them with [group_name] null. *)
Definition records_with_a_null : list record :=
  [dataset "RNAseq" "TMC" "New";
   [("dataset_type", Str "ATAC"); ("group_name", Null);
    ("status", Str "New")]].

(* ================================================================== *)
(** * Properties *)

(** ** Strings *)

Lemma str_in_char (c : ascii) (s : string) :
  str_in (String c EmptyString) s = true <-> has_char c s.
Proof.
  unfold has_char.
  induction s as [|a rest IH]; simpl.
  - split; [discriminate | tauto].
  - destruct (ascii_dec c a) as [->|Hne].
    + destruct rest; simpl; tauto.
    + rewrite IH. split; [tauto|]. intros [Heq|Hin]; [congruence | exact Hin].
Qed.

Lemma determine_type_cases (s : string) :
  determine_type s = "Derived" \/ determine_type s = "Primary".
Proof.
  unfold determine_type.
  destruct (str_in "[" s && str_in "]" s); [left | right]; reflexivity.
Qed.

(** C1. The classifier answers "Derived" exactly when the dataset type
    holds a '[' somewhere and a ']' somewhere, whatever their order, and
    "Primary" in every other case; so "]foo[" is derived. *)
Theorem determine_type_brackets :
  forall dataset_type : string,
    (determine_type dataset_type = "Derived" <->
       has_char "["%char dataset_type /\ has_char "]"%char dataset_type) /\
    (determine_type dataset_type = "Primary" <->
       ~ (has_char "["%char dataset_type /\ has_char "]"%char dataset_type)) /\
    call_determine_type (Str dataset_type) = Ok (determine_type dataset_type) /\
    determine_type "]foo[" = "Derived".
Proof.
  intro s.
  assert (Hb : str_in "[" s && str_in "]" s = true <->
               has_char "["%char s /\ has_char "]"%char s).
  { rewrite andb_true_iff, !str_in_char. tauto. }
  simpl call_determine_type. unfold determine_type.
  destruct (str_in "[" s && str_in "]" s) eqn:E.
  - assert (P : has_char "["%char s /\ has_char "]"%char s)
      by (apply Hb; reflexivity).
    split; [tauto|]. split; [|split; reflexivity].
    split; [discriminate | tauto].
  - assert (P : ~ (has_char "["%char s /\ has_char "]"%char s)).
    { intro H. apply Hb in H. discriminate. }
    split; [|split; [tauto | split; reflexivity]].
    split; [discriminate | tauto].
Qed.

(* ------------------------------------------------------------------ *)
(** ** The fetcher *)

Lemma get_data_no_response : get_data NoResponse = Ok empty_frame.
Proof. reflexivity. Qed.

Lemma get_data_error_status (r : Response) :
  error_status r -> get_data (Got r) = Ok empty_frame.
Proof.
  intros [Hlo Hhi].
  unfold get_data, get_data_try, requests_get, raise_for_status. simpl.
  apply Z.leb_le in Hlo. apply Z.ltb_lt in Hhi.
  rewrite Hlo, Hhi. reflexivity.
Qed.

Lemma get_data_malformed_body (r : Response) :
  json r = None -> get_data (Got r) = Ok empty_frame.
Proof.
  intros Hj.
  unfold get_data, get_data_try, requests_get, raise_for_status, response_json.
  simpl. rewrite Hj.
  destruct ((400 <=? status_code r)%Z && (status_code r <? 600)%Z);
    reflexivity.
Qed.

Lemma get_data_missing_data_key (r : Response) j :
  json r = Some j -> dict_get "data" j = None ->
  get_data (Got r) = Ok empty_frame.
Proof.
  intros Hj Hd.
  unfold get_data, get_data_try, requests_get, raise_for_status, response_json.
  simpl. rewrite Hj.
  destruct ((400 <=? status_code r)%Z && (status_code r <? 600)%Z);
    simpl; [reflexivity|].
  rewrite Hd. reflexivity.
Qed.

(** C2. In each failure scenario of the fetcher - an HTTP error status, a
    body that is not JSON, a JSON object without the "data" key -
    [get_data] returns the empty frame; no exception leaves it. *)
Theorem get_data_failure_is_empty :
  forall r : Response,
    error_status r \/
    json r = None \/
    (exists j, json r = Some j /\ dict_get "data" j = None) ->
    get_data (Got r) = Ok empty_frame /\ ~ raises (get_data (Got r)).
Proof.
  intros r H.
  assert (E : get_data (Got r) = Ok empty_frame).
  { destruct H as [H | [H | [j [Hj Hd]]]].
    - apply get_data_error_status; exact H.
    - apply get_data_malformed_body; exact H.
    - eapply get_data_missing_data_key; eassumption. }
  split; [exact E|].
  intros [e He]. rewrite E in He. discriminate.
Qed.

Lemma get_data_failure_is_empty_witness :
  (error_status (mkResponse 500 None) \/
   json (mkResponse 500 None) = None \/
   (exists j, json (mkResponse 500 None) = Some j /\ dict_get "data" j = None))
  /\ get_data (Got (mkResponse 500 None)) = Ok empty_frame
  /\ get_data (Got (mkResponse 200 None)) = Ok empty_frame
  /\ get_data (Got (mkResponse 200 (Some [("error", [])]))) = Ok empty_frame.
Proof.
  split; [left; unfold error_status; simpl; lia|].
  split; [apply (get_data_failure_is_empty (mkResponse 500 None));
          left; unfold error_status; simpl; lia|].
  split; [apply (get_data_failure_is_empty (mkResponse 200 None));
          right; left; reflexivity|].
  apply (get_data_failure_is_empty (mkResponse 200 (Some [("error", [])]))).
  right; right. exists [("error", [])]. split; reflexivity.
Defined.

(* ------------------------------------------------------------------ *)
(** ** Lists of labels *)

Lemma uniq_In (x : string) (l : list string) : In x (uniq l) <-> In x l.
Proof.
  induction l as [|a t IH]; simpl; [tauto|].
  rewrite filter_In, IH, negb_true_iff, String.eqb_neq.
  destruct (string_dec a x) as [->|Hne]; tauto.
Qed.

Lemma uniq_NoDup (l : list string) : NoDup (uniq l).
Proof.
  induction l as [|a t IH]; simpl; constructor.
  - rewrite filter_In, String.eqb_refl. simpl. intros [_ H]. discriminate.
  - apply NoDup_filter. exact IH.
Qed.

Lemma count_label_notin (x : string) (l : list string) :
  ~ In x l -> count_label x l = 0.
Proof.
  unfold count_label. induction l as [|a t IH]; simpl; intros H; [reflexivity|].
  destruct (String.eqb_spec a x) as [->|Hne]; [tauto|]. apply IH. tauto.
Qed.

Lemma count_label_NoDup (x : string) (l : list string) :
  NoDup l -> In x l -> count_label x l = 1.
Proof.
  induction 1 as [|a t Hnin Hnd IH]; simpl; [tauto|].
  intros [->|Hin]; unfold count_label in *; simpl.
  - rewrite String.eqb_refl. simpl. f_equal.
    apply (count_label_notin x t Hnin).
  - destruct (String.eqb_spec a x) as [->|Hne]; [tauto|]. apply IH. exact Hin.
Qed.

Lemma filter_label_NoDup (x : string) (l : list string) :
  NoDup l -> In x l -> filter (fun c => c =? x) l = [x].
Proof.
  induction 1 as [|a t Hnin Hnd IH]; simpl; [tauto|].
  intros [->|Hin].
  - rewrite String.eqb_refl. f_equal.
    generalize (count_label_notin x t Hnin). unfold count_label.
    destruct (filter _ t); [reflexivity | discriminate].
  - destruct (String.eqb_spec a x) as [->|Hne]; [tauto|]. apply IH. exact Hin.
Qed.

(* ------------------------------------------------------------------ *)
(** ** Frames given by a function of the record *)

Lemma select_map {C} (R : string -> string) (g : string -> C) name cols :
  select name (map R cols) (map g cols)
  = map g (filter (fun c => R c =? name) cols).
Proof.
  unfold select. induction cols as [|c t IH]; simpl; [reflexivity|].
  destruct (R c =? name); simpl; rewrite IH; reflexivity.
Qed.

Lemma count_label_map (R : string -> string) name cols :
  count_label name (map R cols)
  = length (filter (fun c => R c =? name) cols).
Proof.
  unfold count_label. induction cols as [|c t IH]; simpl; [reflexivity|].
  destruct (R c =? name); simpl; rewrite IH; reflexivity.
Qed.

(** Reading a column of a renamed, tabulated frame: the label must come
    from exactly one original column. *)
Lemma getitem_tabulate {X} (R : string -> string) cols
      (F : X -> string -> cell) xs name :
  getitem (mkFrame (map R cols) (tabulate cols F xs)) name
  = match filter (fun c => R c =? name) cols with
    | [] => Raise (KeyError name)
    | [k] => Ok (map (fun x => F x k) xs)
    | _ => Raise ValueError
    end.
Proof.
  unfold getitem. simpl. rewrite count_label_map.
  destruct (filter (fun c => R c =? name) cols) as [|k [|k' rest]] eqn:E;
    simpl; try reflexivity.
  f_equal. unfold tabulate. rewrite map_map. apply map_ext. intro x.
  rewrite select_map, E. reflexivity.
Qed.

Lemma map_id_eq {A} (l : list A) : map (fun x => x) l = l.
Proof. apply map_id. Qed.

Lemma DataFrame_of_tabulate (recs : list record) :
  DataFrame_of recs
  = mkFrame (map (fun c => c) (uniq (flat_map (map fst) recs)))
            (tabulate (uniq (flat_map (map fst) recs))
                      (fun r k => field k r) recs).
Proof. unfold DataFrame_of, tabulate. rewrite map_id_eq. reflexivity. Qed.

Lemma has_key_In (k : string) (r : record) :
  has_key k r = true <-> In k (map fst r).
Proof.
  unfold has_key. rewrite existsb_exists, in_map_iff.
  split; intros [kv [H1 H2]]; exists kv.
  - apply String.eqb_eq in H2. tauto.
  - rewrite String.eqb_eq. tauto.
Qed.

Lemma field_absent (k : string) (r : record) :
  has_key k r = false -> field k r = NaN.
Proof.
  unfold has_key, field. induction r as [|kv t IH]; simpl; [reflexivity|].
  destruct (fst kv =? k); simpl; [discriminate | exact IH].
Qed.

Lemma field_present (k : string) (r : record) :
  field k r <> NaN -> has_key k r = true.
Proof.
  intros H. destruct (has_key k r) eqn:E; [reflexivity|].
  apply field_absent in E. contradiction.
Qed.

Lemma key_in_columns (k : string) (recs : list record) :
  In k (uniq (flat_map (map fst) recs))
  <-> existsb (has_key k) recs = true.
Proof.
  rewrite uniq_In, in_flat_map, existsb_exists.
  split; intros [r [H1 H2]]; exists r; split; try assumption;
    apply has_key_In; assumption.
Qed.

(** The column [k] of the frame built from the records. *)
Lemma getitem_DataFrame_of (recs : list record) (k : string) :
  getitem (DataFrame_of recs) k
  = if existsb (has_key k) recs
    then Ok (map (fun r => field k r) recs)
    else Raise (KeyError k).
Proof.
  rewrite DataFrame_of_tabulate, getitem_tabulate.
  destruct (existsb (has_key k) recs) eqn:E.
  - rewrite filter_label_NoDup; [reflexivity | apply uniq_NoDup |].
    apply key_in_columns. exact E.
  - generalize (count_label_notin k (uniq (flat_map (map fst) recs))).
    unfold count_label.
    destruct (filter _ _); [reflexivity|].
    intros H. exfalso.
    assert (Hn : ~ In k (uniq (flat_map (map fst) recs))).
    { rewrite key_in_columns, E. discriminate. }
    specialize (H Hn). discriminate.
Qed.

(** [apply(determine_type)] over a column: the labels, or the
    [TypeError] of the first cell that is neither text nor a list. *)
Lemma apply_determine_type (col : list cell) :
  mapM call_determine_type col
  = if forallb classifiable col then Ok (map label_of col)
    else Raise TypeError.
Proof.
  induction col as [|c t IH]; simpl; [reflexivity|].
  destruct c; simpl; try reflexivity; rewrite IH;
    destruct (forallb classifiable t); reflexivity.
Qed.

(* ------------------------------------------------------------------ *)
(** ** Records without a dataset type *)

Lemma get_data_fetch_ok (recs : list record) :
  get_data (fetch_ok recs)
  = try_except
      (col <- getitem (DataFrame_of recs) "dataset_type" ;;
       status <- mapM call_determine_type col ;;
       setitem (DataFrame_of recs) "dataset_status" (map Str status))
      [ (is_ValueError_or_KeyError, fun _ => Ok empty_frame);
        (is_RequestException, fun _ => Ok empty_frame) ].
Proof. reflexivity. Qed.

Lemma no_record_has_key (k : string) (recs : list record) :
  forallb (fun r => negb (has_key k r)) recs = true ->
  existsb (has_key k) recs = false.
Proof.
  induction recs as [|r t IH]; simpl; [reflexivity|].
  rewrite andb_true_iff, negb_true_iff. intros [H1 H2].
  rewrite H1, (IH H2). reflexivity.
Qed.

Lemma some_field_missing (k : string) (recs : list record) :
  existsb (fun r => negb (has_key k r)) recs = true ->
  forallb classifiable (map (fun r => field k r) recs) = false.
Proof.
  induction recs as [|r t IH]; simpl; [discriminate|].
  rewrite orb_true_iff, negb_true_iff. intros [H|H].
  - rewrite (field_absent _ _ H). reflexivity.
  - rewrite (IH H). apply andb_false_r.
Qed.

(** C7 (as the code has it). When no fetched record carries
    [dataset_type], the [KeyError] of [df["dataset_type"]] is caught by the
    [except (ValueError, KeyError)] clause of [get_data], which returns the
    empty frame.  When some records carry it and others do not, the
    classifier is applied to the missing value and its [TypeError] is
    caught by neither clause: it leaves [get_data]. *)
Theorem get_data_without_dataset_type :
  forall recs : list record,
    (forallb (fun r => negb (has_key "dataset_type" r)) recs = true ->
     get_data (fetch_ok recs) = Ok empty_frame) /\
    (existsb (has_key "dataset_type") recs = true ->
     existsb (fun r => negb (has_key "dataset_type" r)) recs = true ->
     get_data (fetch_ok recs) = Raise TypeError).
Proof.
  intro recs. split.
  - intro H. rewrite get_data_fetch_ok, getitem_DataFrame_of.
    rewrite (no_record_has_key _ _ H). reflexivity.
  - intros Hsome Hmiss.
    rewrite get_data_fetch_ok, getitem_DataFrame_of, Hsome.
    simpl Py.bind. rewrite apply_determine_type.
    rewrite (some_field_missing _ _ Hmiss). reflexivity.
Qed.

Lemma get_data_without_dataset_type_witness :
  (forallb (fun r => negb (has_key "dataset_type" r))
           [[("group_name", Str "TMC")]] = true /\
   get_data (fetch_ok [[("group_name", Str "TMC")]]) = Ok empty_frame) /\
  (existsb (has_key "dataset_type")
           [[("dataset_type", Str "RNAseq")]; [("group_name", Str "TMC")]]
   = true /\
   existsb (fun r => negb (has_key "dataset_type" r))
           [[("dataset_type", Str "RNAseq")]; [("group_name", Str "TMC")]]
   = true /\
   get_data (fetch_ok [[("dataset_type", Str "RNAseq")];
                       [("group_name", Str "TMC")]]) = Raise TypeError).
Proof.
  split.
  - split; [reflexivity|].
    apply (proj1 (get_data_without_dataset_type [[("group_name", Str "TMC")]])).
    reflexivity.
  - split; [reflexivity|]. split; [reflexivity|].
    apply (proj2 (get_data_without_dataset_type
                    [[("dataset_type", Str "RNAseq")];
                     [("group_name", Str "TMC")]])); reflexivity.
Defined.

(** C7 as stated fails: records that all lack [dataset_type] do not make
    [get_data] raise; the error is turned into the empty frame. *)
Lemma missing_dataset_type_is_swallowed :
  forallb (fun r => negb (has_key "dataset_type" r))
          [[("group_name", Str "TMC"); ("status", Str "New")]] = true /\
  get_data (fetch_ok [[("group_name", Str "TMC"); ("status", Str "New")]])
  = Ok empty_frame /\
  ~ raises (get_data (fetch_ok [[("group_name", Str "TMC");
                                 ("status", Str "New")]])).
Proof.
  split; [reflexivity|]. split; [reflexivity|].
  intros [e He]. vm_compute in He. discriminate.
Qed.

(* ------------------------------------------------------------------ *)
(** ** The report on the empty frame *)

(** C3 (what the script does). Whenever [get_data] has degraded to the
    empty frame, line 61 looks up the column "dataset_status" in a frame
    without columns: the script ends on an uncaught [KeyError] and no table
    is built. *)
Theorem report_on_empty_frame :
  forall (sorter : RowSort) (net : fetched),
    get_data net = Ok empty_frame ->
    report net = Raise (KeyError "dataset_status").
Proof.
  intros sorter net H. unfold report. rewrite H. reflexivity.
Qed.

(* ------------------------------------------------------------------ *)
(** ** The order of labels *)

Lemma compare_refl (a : string) : String.compare a a = Eq.
Proof. apply String_as_OT.cmp_eq. reflexivity. Qed.

Lemma compare_Lt_trans (a b c : string) :
  String.compare a b = Lt -> String.compare b c = Lt ->
  String.compare a c = Lt.
Proof.
  intros H1 H2. apply String_as_OT.cmp_lt.
  apply String_as_OT.lt_trans with b; apply String_as_OT.cmp_lt; assumption.
Qed.

Lemma compare_Gt_Lt (a b : string) :
  String.compare a b = Gt <-> String.compare b a = Lt.
Proof.
  rewrite (String.compare_antisym a b).
  destruct (String.compare b a); simpl; split; congruence.
Qed.

Lemma label_lt_iff (a b : string) : label_lt a b <-> String.compare a b = Lt.
Proof.
  unfold label_lt, String.ltb.
  destruct (String.compare a b); split; congruence.
Qed.

Lemma label_lt_trans (a b c : string) :
  label_lt a b -> label_lt b c -> label_lt a c.
Proof. rewrite !label_lt_iff. apply compare_Lt_trans. Qed.

Lemma label_lt_irrefl (a : string) : ~ label_lt a a.
Proof. rewrite label_lt_iff, compare_refl. discriminate. Qed.

Lemma label_le_cases (a b : string) : label_le a b <-> label_lt a b \/ a = b.
Proof.
  unfold label_le. rewrite label_lt_iff.
  destruct (String.compare a b) eqn:E.
  - apply String.compare_eq_iff in E. split; [tauto | discriminate].
  - split; [tauto | discriminate].
  - split; [congruence|]. intros [H | ->]; [discriminate|].
    rewrite compare_refl in E. discriminate.
Qed.

Lemma label_le_trans (a b c : string) :
  label_le a b -> label_le b c -> label_le a c.
Proof.
  rewrite !label_le_cases.
  intros [H1 | ->] [H2 | ->]; auto.
  left. eapply label_lt_trans; eassumption.
Qed.

Lemma label_le_antisym (a b : string) : label_le a b -> label_le b a -> a = b.
Proof.
  rewrite !label_le_cases. intros [H1 | ->] [H2 | H2]; auto.
  exfalso. apply (label_lt_irrefl a). eapply label_lt_trans; eassumption.
Qed.

Lemma insert_label_perm (s : string) (l : list string) :
  Permutation (insert_label s l) (s :: l).
Proof.
  induction l as [|h t IH]; simpl; [reflexivity|].
  destruct (String.compare s h); try reflexivity.
  rewrite IH. apply perm_swap.
Qed.

Lemma sort_labels_perm (l : list string) : Permutation (sort_labels l) l.
Proof.
  induction l as [|a t IH]; simpl; [reflexivity|].
  rewrite insert_label_perm. constructor. exact IH.
Qed.

Lemma sort_labels_In (x : string) (l : list string) :
  In x (sort_labels l) <-> In x l.
Proof.
  split; apply Permutation_in;
    [apply sort_labels_perm | symmetry; apply sort_labels_perm].
Qed.

Lemma insert_label_sorted (s : string) (l : list string) :
  StronglySorted label_le l -> StronglySorted label_le (insert_label s l).
Proof.
  induction 1 as [|h t Hs IH Hall]; simpl.
  - repeat constructor.
  - destruct (String.compare s h) eqn:E.
    + assert (Hle : label_le s h) by (unfold label_le; congruence).
      constructor; [constructor; assumption|].
      constructor; [exact Hle|].
      eapply Forall_impl; [|exact Hall].
      intros x Hx. eapply label_le_trans; eassumption.
    + assert (Hle : label_le s h) by (unfold label_le; congruence).
      constructor; [constructor; assumption|].
      constructor; [exact Hle|].
      eapply Forall_impl; [|exact Hall].
      intros x Hx. eapply label_le_trans; eassumption.
    + constructor; [exact IH|].
      apply Forall_forall. intros x Hx.
      apply (Permutation_in _ (insert_label_perm s t)) in Hx.
      destruct Hx as [<- | Hx].
      * apply label_le_cases. left. apply label_lt_iff.
        apply compare_Gt_Lt. exact E.
      * rewrite Forall_forall in Hall. apply Hall. exact Hx.
Qed.

Lemma sort_labels_sorted (l : list string) :
  StronglySorted label_le (sort_labels l).
Proof.
  induction l as [|a t IH]; simpl; [constructor|].
  apply insert_label_sorted. exact IH.
Qed.

Lemma sorted_le_NoDup_lt (l : list string) :
  StronglySorted label_le l -> NoDup l -> StronglySorted label_lt l.
Proof.
  induction 1 as [|h t Hs IH Hall]; intros Hnd; constructor.
  - apply IH. inversion Hnd; assumption.
  - inversion Hnd as [|? ? Hnin Hnd']; subst.
    rewrite Forall_forall in *. intros x Hx.
    destruct (proj1 (label_le_cases h x) (Hall x Hx)) as [H | ->];
      [exact H | contradiction].
Qed.

Lemma sorted_lt_NoDup (l : list string) :
  StronglySorted label_lt l -> NoDup l.
Proof.
  induction 1 as [|h t Hs IH Hall]; constructor; [|exact IH].
  intro Hin. rewrite Forall_forall in Hall.
  apply (label_lt_irrefl h). apply Hall. exact Hin.
Qed.

Lemma sort_labels_NoDup (l : list string) : NoDup l -> NoDup (sort_labels l).
Proof.
  intro H. eapply Permutation_NoDup; [|exact H].
  symmetry. apply sort_labels_perm.
Qed.

Lemma sort_uniq_ascending (l : list string) :
  StronglySorted label_lt (sort_labels (uniq l)).
Proof.
  apply sorted_le_NoDup_lt; [apply sort_labels_sorted|].
  apply sort_labels_NoDup, uniq_NoDup.
Qed.

(** An ascending list is determined by its elements. *)
Lemma ascending_unique (l1 l2 : list string) :
  StronglySorted label_lt l1 -> StronglySorted label_lt l2 ->
  (forall x, In x l1 <-> In x l2) -> l1 = l2.
Proof.
  intros H1. revert l2.
  induction H1 as [|a t1 Hs1 IH Hall1]; intros l2 H2 Heq.
  - destruct l2 as [|b t2]; [reflexivity|].
    exfalso. apply (proj2 (Heq b)). left; reflexivity.
  - destruct H2 as [|b t2 Hs2 Hall2].
    + exfalso. apply (proj1 (Heq a)). left; reflexivity.
    + rewrite Forall_forall in Hall1, Hall2.
      assert (Hab : a = b).
      { destruct (proj1 (Heq a) (or_introl eq_refl)) as [E | Hin];
          [congruence|].
        destruct (proj2 (Heq b) (or_introl eq_refl)) as [E | Hin'];
          [congruence|].
        exfalso. apply (label_lt_irrefl a).
        eapply label_lt_trans; [apply Hall1; exact Hin' |].
        apply Hall2; exact Hin. }
      subst b. f_equal. apply IH; [exact Hs2|].
      intro x. split; intro Hx.
      * destruct (proj1 (Heq x) (or_intror Hx)) as [E | Hin]; [|exact Hin].
        subst x. exfalso. apply (label_lt_irrefl a). apply Hall1. exact Hx.
      * destruct (proj2 (Heq x) (or_intror Hx)) as [E | Hin]; [|exact Hin].
        subst x. exfalso. apply (label_lt_irrefl a). apply Hall2. exact Hx.
Qed.

Lemma sort_uniq_perm (l1 l2 : list string) :
  Permutation l1 l2 -> sort_labels (uniq l1) = sort_labels (uniq l2).
Proof.
  intro P. apply ascending_unique; try apply sort_uniq_ascending.
  intro x. rewrite !sort_labels_In, !uniq_In.
  split; apply Permutation_in; [exact P | symmetry; exact P].
Qed.

Lemma sort_labels_ascending_id (l : list string) :
  StronglySorted label_lt l -> sort_labels l = l.
Proof.
  intro H. apply ascending_unique;
    [|exact H|intro x; apply sort_labels_In].
  apply sorted_le_NoDup_lt; [apply sort_labels_sorted|].
  apply sort_labels_NoDup. apply sorted_lt_NoDup. exact H.
Qed.

(* ------------------------------------------------------------------ *)
(** ** Pivot tables *)

Lemma select_same {C} (g : string -> C) name cols :
  select name cols (map g cols) = map g (filter (fun c => c =? name) cols).
Proof.
  rewrite <- (map_id_eq cols) at 1. apply (select_map (fun c => c)).
Qed.

Lemma cell_at_tabulated (g : string -> Z) cols c :
  NoDup cols -> In c cols -> cell_at cols c (map g cols) = g c.
Proof.
  intros Hnd Hin. unfold cell_at.
  rewrite select_same, (filter_label_NoDup c cols Hnd Hin). reflexivity.
Qed.

Lemma find_row {B} (f : string -> B) (r : string) (labels : list string) :
  In r labels ->
  find (fun row => fst row =? r) (map (fun x => (x, f x)) labels)
  = Some (r, f r).
Proof.
  induction labels as [|a t IH]; simpl; [tauto|].
  destruct (String.eqb_spec a r) as [->|Hne]; [reflexivity|].
  intros [E | Hin]; [contradiction | exact (IH Hin)].
Qed.

Lemma unstack_counts_columns pairs :
  tcolumns (unstack_counts pairs) = sort_labels (uniq (map snd pairs)).
Proof. reflexivity. Qed.

Lemma unstack_counts_index pairs :
  index (unstack_counts pairs) = sort_labels (uniq (map fst pairs)).
Proof.
  unfold index, unstack_counts. simpl. rewrite map_map. simpl. apply map_id.
Qed.

Lemma unstack_counts_dense pairs : dense (unstack_counts pairs).
Proof.
  unfold dense, unstack_counts. simpl. apply Forall_forall.
  intros row Hin. apply in_map_iff in Hin. destruct Hin as [r [<- _]].
  simpl. apply length_map.
Qed.

Lemma unstack_counts_lookup pairs r c :
  In r (index (unstack_counts pairs)) ->
  In c (tcolumns (unstack_counts pairs)) ->
  lookup_cell (unstack_counts pairs) r c = Some (count_pair r c pairs).
Proof.
  rewrite unstack_counts_index. intros Hr Hc.
  unfold lookup_cell. simpl tcolumns in *. simpl trows.
  rewrite (find_row _ r _ Hr). simpl.
  assert (E : existsb (fun x => x =? c)
                      (sort_labels (uniq (map snd pairs))) = true).
  { apply existsb_exists. exists c. split; [exact Hc | apply String.eqb_refl]. }
  rewrite E. f_equal.
  apply cell_at_tabulated; [|exact Hc].
  apply sort_labels_NoDup, uniq_NoDup.
Qed.

Lemma filter_perm {A} (p : A -> bool) (l l' : list A) :
  Permutation l l' -> Permutation (filter p l) (filter p l').
Proof.
  induction 1 as [|x l l' P IH|x y l|l l' l'' P1 IH1 P2 IH2]; simpl.
  - constructor.
  - destruct (p x); [constructor|]; exact IH.
  - destruct (p x), (p y); try reflexivity. apply perm_swap.
  - etransitivity; eassumption.
Qed.

(** Invariance of the pivot under reordering of the groups' members. *)
Lemma count_pair_perm r c pairs pairs' :
  Permutation pairs pairs' -> count_pair r c pairs = count_pair r c pairs'.
Proof.
  intro P. unfold count_pair. f_equal.
  apply Permutation_length. apply filter_perm. exact P.
Qed.

Lemma unstack_counts_perm pairs pairs' :
  Permutation pairs pairs' -> unstack_counts pairs = unstack_counts pairs'.
Proof.
  intro P. unfold unstack_counts.
  rewrite (sort_uniq_perm (map fst pairs) (map fst pairs'))
    by (apply Permutation_map; exact P).
  rewrite (sort_uniq_perm (map snd pairs) (map snd pairs'))
    by (apply Permutation_map; exact P).
  f_equal. apply map_ext. intro r. f_equal.
  apply map_ext. intro c. apply count_pair_perm. exact P.
Qed.

(** *** Summing the grid *)

Lemma sum_cells_app l1 l2 : sum_cells (l1 ++ l2) = (sum_cells l1 + sum_cells l2)%Z.
Proof.
  unfold sum_cells. induction l1 as [|a t IH]; simpl; [reflexivity|].
  fold (sum_cells (t ++ l2)) in *. rewrite IH. unfold sum_cells. lia.
Qed.

Lemma sum_cells_plus {A} (f g : A -> Z) (l : list A) :
  sum_cells (map (fun x => (f x + g x)%Z) l)
  = (sum_cells (map f l) + sum_cells (map g l))%Z.
Proof.
  unfold sum_cells. induction l as [|a t IH]; simpl; [reflexivity|].
  rewrite IH. lia.
Qed.

Lemma sum_cells_zero {A} (l : list A) :
  sum_cells (map (fun _ => 0%Z) l) = 0%Z.
Proof. unfold sum_cells. induction l; simpl; [reflexivity | exact IHl]. Qed.

Lemma sum_cells_ext {A} (f g : A -> Z) (l : list A) :
  (forall x, In x l -> f x = g x) ->
  sum_cells (map f l) = sum_cells (map g l).
Proof. intro H. f_equal. apply map_ext_in. exact H. Qed.

Lemma sum_cells_perm l1 l2 :
  Permutation l1 l2 -> sum_cells l1 = sum_cells l2.
Proof.
  unfold sum_cells. induction 1; simpl; lia.
Qed.

Lemma sum_indicator (a : string) (l : list string) :
  NoDup l -> In a l ->
  sum_cells (map (fun x => if a =? x then 1%Z else 0%Z) l) = 1%Z.
Proof.
  induction 1 as [|h t Hnin Hnd IH]; [simpl; tauto|].
  intros [-> | Hin]; unfold sum_cells in *; simpl.
  - rewrite String.eqb_refl.
    assert (E : map (fun x => if a =? x then 1%Z else 0%Z) t
                = map (fun _ => 0%Z) t).
    { apply map_ext_in. intros x Hx.
      destruct (String.eqb_spec a x) as [->|]; [contradiction | reflexivity]. }
    rewrite E. fold (sum_cells (map (fun _ : string => 0%Z) t)).
    rewrite sum_cells_zero. reflexivity.
  - destruct (String.eqb_spec h a) as [->|Hne]; [contradiction|].
    destruct (String.eqb_spec a h) as [->|_]; [contradiction|].
    rewrite (IH Hin). reflexivity.
Qed.

Lemma count_pair_cons r c p pairs :
  count_pair r c (p :: pairs)
  = ((if ((fst p =? r) && (snd p =? c))%string then 1 else 0)
     + count_pair r c pairs)%Z.
Proof.
  unfold count_pair. simpl.
  destruct ((fst p =? r) && (snd p =? c)); simpl length; lia.
Qed.

Lemma count_pair_nonneg r c pairs : (0 <= count_pair r c pairs)%Z.
Proof. unfold count_pair. lia. Qed.

(** Every group falls in exactly one cell of the grid. *)
Lemma grid_sum (rl cl : list string) (pairs : list (string * string)) :
  NoDup rl -> NoDup cl ->
  (forall p, In p pairs -> In (fst p) rl /\ In (snd p) cl) ->
  sum_cells (map (fun r => sum_cells (map (fun c => count_pair r c pairs) cl))
                 rl)
  = Z.of_nat (length pairs).
Proof.
  intros Hr Hc. induction pairs as [|p ps IH]; intros Hin.
  - transitivity (sum_cells (map (fun _ : string => 0%Z) rl));
      [|apply sum_cells_zero].
    apply sum_cells_ext. intros r _. apply (sum_cells_zero cl).
  - assert (E : forall r,
        sum_cells (map (fun c => count_pair r c (p :: ps)) cl)
        = ((if (fst p =? r)%string then 1 else 0)
           + sum_cells (map (fun c => count_pair r c ps) cl))%Z).
    { intro r.
      rewrite (sum_cells_ext _
                 (fun c => ((if ((fst p =? r) && (snd p =? c))%string
                             then 1 else 0)
                            + count_pair r c ps)%Z))
        by (intros; apply count_pair_cons).
      rewrite sum_cells_plus. f_equal.
      destruct (fst p =? r); simpl.
      - apply sum_indicator; [exact Hc|]. apply Hin. left; reflexivity.
      - apply sum_cells_zero. }
    rewrite (sum_cells_ext _ _ rl (fun r _ => E r)).
    rewrite sum_cells_plus.
    rewrite sum_indicator; [|exact Hr | apply Hin; left; reflexivity].
    rewrite IH by (intros q Hq; apply Hin; right; exact Hq).
    simpl length. lia.
Qed.

Lemma unstack_counts_grand_total pairs :
  grand_total (unstack_counts pairs) = Z.of_nat (length pairs).
Proof.
  unfold grand_total, row_sums, unstack_counts. simpl trows.
  rewrite map_map. simpl.
  apply grid_sum.
  - apply sort_labels_NoDup, uniq_NoDup.
  - apply sort_labels_NoDup, uniq_NoDup.
  - intros p Hp. rewrite !sort_labels_In, !uniq_In.
    split; apply in_map; exact Hp.
Qed.

(* ------------------------------------------------------------------ *)
(** ** Row sorts *)

Lemma insert_desc_perm {A} (key : A -> Z) (x : A) (l : list A) :
  Permutation (insert_desc key x l) (x :: l).
Proof.
  induction l as [|h t IH]; simpl; [reflexivity|].
  destruct (key h <=? key x)%Z; [reflexivity|].
  rewrite IH. apply perm_swap.
Qed.

Lemma insertion_sort_desc_perm {A} (key : A -> Z) (l : list A) :
  Permutation (insertion_sort_desc key l) l.
Proof.
  induction l as [|a t IH]; simpl; [reflexivity|].
  rewrite insert_desc_perm. constructor. exact IH.
Qed.

Lemma insert_desc_sorted {A} (key : A -> Z) (x : A) (l : list A) :
  StronglySorted (fun a b => (key b <= key a)%Z) l ->
  StronglySorted (fun a b => (key b <= key a)%Z) (insert_desc key x l).
Proof.
  induction 1 as [|h t Hs IH Hall]; simpl.
  - repeat constructor.
  - destruct (Z.leb_spec (key h) (key x)) as [Hle | Hgt].
    + constructor; [constructor; assumption|].
      constructor; [exact Hle|].
      eapply Forall_impl; [|exact Hall]. simpl. intros; lia.
    + constructor; [exact IH|].
      apply Forall_forall. intros y Hy.
      apply (Permutation_in _ (insert_desc_perm key x t)) in Hy.
      destruct Hy as [<- | Hy]; [lia|].
      rewrite Forall_forall in Hall. apply Hall. exact Hy.
Qed.

Lemma insertion_sort_desc_sorted {A} (key : A -> Z) (l : list A) :
  StronglySorted (fun a b => (key b <= key a)%Z) (insertion_sort_desc key l).
Proof.
  induction l as [|a t IH]; simpl; [constructor|].
  apply insert_desc_sorted. exact IH.
Qed.

(** The stable sort meets the contract of [sort_values]. *)
#[export] Instance stable_sort : RowSort := {
  sort_desc := insertion_sort_desc;
  sort_desc_perm := insertion_sort_desc_perm;
  sort_desc_sorted := insertion_sort_desc_sorted
}.

Lemma mirror_sort_desc_perm key l : Permutation (mirror_sort_desc key l) l.
Proof.
  unfold mirror_sort_desc. rewrite insertion_sort_desc_perm.
  symmetry. apply Permutation_rev.
Qed.

(** So does the sort that returns rows of equal key in the opposite
    order. *)
#[export] Instance mirror_sort : RowSort := {
  sort_desc := mirror_sort_desc;
  sort_desc_perm := mirror_sort_desc_perm;
  sort_desc_sorted := fun key l => insertion_sort_desc_sorted key (rev l)
}.

Lemma StronglySorted_map_in {A B} (R : A -> A -> Prop) (R' : B -> B -> Prop)
      (f : A -> B) (l : list A) :
  (forall a b, In a l -> In b l -> R a b -> R' (f a) (f b)) ->
  StronglySorted R l -> StronglySorted R' (map f l).
Proof.
  intros H Hs. induction Hs as [|a t Hs IH Hall]; simpl; constructor.
  - apply IH. intros x y Hx Hy. apply H; right; assumption.
  - rewrite Forall_forall in *. intros y Hy.
    apply in_map_iff in Hy. destruct Hy as [x [<- Hx]].
    apply H; [left; reflexivity | right; exact Hx | apply Hall; exact Hx].
Qed.

Lemma StronglySorted_filter {A} (R : A -> A -> Prop) (p : A -> bool) l :
  StronglySorted R l -> StronglySorted R (filter p l).
Proof.
  induction 1 as [|a t Hs IH Hall]; simpl; [constructor|].
  destruct (p a); [|exact IH].
  constructor; [exact IH|].
  rewrite Forall_forall in *. intros y Hy.
  apply filter_In in Hy. apply Hall. tauto.
Qed.

(* ------------------------------------------------------------------ *)
(** ** Ranking by total and ordering the columns *)

Lemma existsb_label (name : string) (cols : list string) :
  existsb (fun c => c =? name) cols = true <-> In name cols.
Proof.
  rewrite existsb_exists. split.
  - intros [c [Hin E]]. apply String.eqb_eq in E. subst. exact Hin.
  - intro Hin. exists name. split; [exact Hin | apply String.eqb_refl].
Qed.

Lemma existsb_label_false (name : string) (cols : list string) :
  ~ In name cols -> existsb (fun c => c =? name) cols = false.
Proof.
  intro H. destruct (existsb _ cols) eqn:E; [|reflexivity].
  apply existsb_label in E. contradiction.
Qed.

Lemma combine_map_r {A B} (f : A -> B) (l : list A) :
  combine l (map f l) = map (fun x => (x, f x)) l.
Proof. induction l; simpl; congruence. Qed.

Lemma combine_append {A B} (l1 l2 : list A) (m1 m2 : list B) :
  length l1 = length m1 ->
  combine (l1 ++ l2) (m1 ++ m2) = combine l1 m1 ++ combine l2 m2.
Proof.
  revert m1. induction l1 as [|a t IH]; intros [|b m1] H; simpl in *;
    try discriminate; [reflexivity|].
  f_equal. apply IH. lia.
Qed.

Lemma map_snd_combine {A B} (l : list A) (m : list B) :
  length l = length m -> map snd (combine l m) = m.
Proof.
  revert m. induction l as [|a t IH]; intros [|b m] H; simpl in *;
    try discriminate; [reflexivity|].
  f_equal. apply IH. lia.
Qed.

Lemma filter_all {A} (p : A -> bool) (l : list A) :
  (forall x, In x l -> p x = true) -> filter p l = l.
Proof.
  induction l as [|a t IH]; simpl; intro H; [reflexivity|].
  rewrite (H a (or_introl eq_refl)). f_equal. apply IH.
  intros x Hx. apply H. right; exact Hx.
Qed.

Lemma filter_none {A} (p : A -> bool) (l : list A) :
  (forall x, In x l -> p x = false) -> filter p l = [].
Proof.
  induction l as [|a t IH]; simpl; intro H; [reflexivity|].
  rewrite (H a (or_introl eq_refl)). apply IH.
  intros x Hx. apply H. right; exact Hx.
Qed.

Lemma fst_in_combine {A B} (l : list A) (m : list B) p :
  In p (combine l m) -> In (fst p) l.
Proof. destruct p as [a b]. apply in_combine_l. Qed.

Lemma total_of_with_total cols row :
  ~ In "Total" cols -> length (snd row) = length cols ->
  cell_at (cols ++ ["Total"]) "Total" (snd (with_total row))
  = sum_cells (snd row).
Proof.
  intros Hn Hlen. unfold cell_at, select, with_total. simpl snd.
  rewrite combine_append by (symmetry; exact Hlen).
  rewrite filter_app, filter_none; [reflexivity|].
  intros p Hp. apply String.eqb_neq. intro E.
  apply Hn. rewrite <- E. eapply fst_in_combine. exact Hp.
Qed.

Lemma without_with_total cols row :
  ~ In "Total" cols -> length (snd row) = length cols ->
  without_total (cols ++ ["Total"]) (with_total row) = row.
Proof.
  intros Hn Hlen. unfold without_total, with_total. simpl fst. simpl snd.
  rewrite combine_append by (symmetry; exact Hlen).
  rewrite filter_app. simpl. rewrite app_nil_r.
  rewrite filter_all.
  - rewrite map_snd_combine by (symmetry; exact Hlen). destruct row; reflexivity.
  - intros p Hp. apply negb_true_iff, String.eqb_neq. intro E.
    apply Hn. rewrite <- E. eapply fst_in_combine. exact Hp.
Qed.

Lemma set_column_total (t : Table) :
  ~ In "Total" (tcolumns t) ->
  set_column t "Total" (row_sums t)
  = mkTable (tcolumns t ++ ["Total"]) (map with_total (trows t)).
Proof.
  intro Hn. unfold set_column, row_sums.
  rewrite (existsb_label_false _ _ Hn), combine_map_r, map_map.
  f_equal. apply map_ext. intro row. simpl.
  unfold set_in_row. rewrite (existsb_label_false _ _ Hn). reflexivity.
Qed.

Section Ranking.

Context {sorter : RowSort}.

Lemma rank_by_total_columns (t : Table) :
  tcolumns (rank_by_total t)
  = filter (fun c => negb (c =? "Total")) (tcolumns t).
Proof.
  unfold rank_by_total, drop_columns, sort_values_desc, set_column. simpl.
  destruct (existsb (fun c => c =? "Total") (tcolumns t)); [reflexivity|].
  rewrite filter_app. simpl. apply app_nil_r.
Qed.

(** Without a column that is itself labelled "Total", ranking keeps the
    columns and the rows and puts the rows in descending order of their
    sum. *)
Lemma rank_by_total_spec (t : Table) :
  ~ In "Total" (tcolumns t) -> dense t ->
  tcolumns (rank_by_total t) = tcolumns t /\
  Permutation (trows (rank_by_total t)) (trows t) /\
  rows_by_total_desc (rank_by_total t).
Proof.
  intros Hn Hd. unfold dense in Hd. rewrite Forall_forall in Hd.
  unfold rank_by_total. rewrite (set_column_total t Hn).
  unfold sort_values_desc, drop_columns. simpl tcolumns. simpl trows.
  set (key := fun r : string * list Z =>
                cell_at (tcolumns t ++ ["Total"]) "Total" (snd r)).
  set (sorted := sort_desc key (map with_total (trows t))).
  assert (P : Permutation sorted (map with_total (trows t)))
    by apply sort_desc_perm.
  assert (Hsrc : forall x, In x sorted ->
                           exists row, In row (trows t) /\ x = with_total row).
  { intros x Hx. apply (Permutation_in _ P) in Hx.
    apply in_map_iff in Hx. destruct Hx as [row [E Hrow]].
    exists row. split; [exact Hrow | symmetry; exact E]. }
  fold (without_total (tcolumns t ++ ["Total"])).
  split; [|split].
  - rewrite filter_app. simpl. rewrite app_nil_r. apply filter_all.
    intros c Hc. apply negb_true_iff, String.eqb_neq. congruence.
  - change (Permutation
              (map (without_total (tcolumns t ++ ["Total"])) sorted) (trows t)).
    rewrite P, map_map.
    rewrite (map_ext_in _ (fun x => x)); [rewrite map_id; reflexivity|].
    intros row Hrow. apply without_with_total; [exact Hn | apply Hd; exact Hrow].
  - unfold rows_by_total_desc. simpl trows.
    change (StronglySorted
              (fun a b => (sum_cells (snd b) <= sum_cells (snd a))%Z)
              (map (without_total (tcolumns t ++ ["Total"])) sorted)).
    apply StronglySorted_map_in
      with (R := fun a b => (key b <= key a)%Z); [|apply sort_desc_sorted].
    intros a b Ha Hb Hab.
    destruct (Hsrc a Ha) as [ra [Hra ->]].
    destruct (Hsrc b Hb) as [rb [Hrb ->]].
    rewrite !without_with_total by (try exact Hn; apply Hd; assumption).
    unfold key in Hab.
    rewrite !total_of_with_total in Hab
      by (try exact Hn; apply Hd; assumption).
    exact Hab.
Qed.

End Ranking.

Lemma cell_at_self (cols : list string) (cells : list Z) :
  NoDup cols -> length cells = length cols ->
  map (fun c => cell_at cols c cells) cols = cells.
Proof.
  intros Hnd. revert cells.
  induction Hnd as [|a t Hnin Hnd IH]; intros [|x cells] Hlen;
    simpl in *; try discriminate; [reflexivity|].
  f_equal.
  - unfold cell_at, select. simpl. rewrite String.eqb_refl. reflexivity.
  - transitivity (map (fun c => cell_at t c cells) t); [|apply IH; lia].
    apply map_ext_in. intros c Hc. unfold cell_at, select. simpl.
    destruct (String.eqb_spec a c) as [->|_]; [contradiction | reflexivity].
Qed.

(** On a dense table whose columns already ascend, ordering the columns
    changes nothing. *)
Lemma sort_index_columns_ascending (t : Table) :
  columns_ascending t -> dense t -> sort_index_columns t = t.
Proof.
  intros Ha Hd. unfold sort_index_columns.
  rewrite (sort_labels_ascending_id _ Ha).
  destruct t as [cols rws]. simpl in *. f_equal.
  rewrite <- (map_id rws) at 2. apply map_ext_in.
  intros [lbl cells] Hin. simpl. f_equal.
  apply cell_at_self; [apply sorted_lt_NoDup; exact Ha|].
  unfold dense in Hd. rewrite Forall_forall in Hd. apply (Hd _ Hin).
Qed.

Lemma sort_index_columns_sorted (t : Table) :
  NoDup (tcolumns t) -> columns_ascending (sort_index_columns t).
Proof.
  intro H. unfold columns_ascending, sort_index_columns. simpl.
  apply sorted_le_NoDup_lt; [apply sort_labels_sorted|].
  apply sort_labels_NoDup. exact H.
Qed.

Lemma sort_index_columns_index (t : Table) :
  index (sort_index_columns t) = index t.
Proof.
  unfold index, sort_index_columns. simpl. rewrite map_map. reflexivity.
Qed.

(* ------------------------------------------------------------------ *)
(** ** What a view reads of the frame *)

(** A column is found through the tests of the header against its label
    and nothing else. *)
Lemma select_congr {C} (name : string) (h h' : list string) (row : list C) :
  map (fun c => c =? name) h = map (fun c => c =? name) h' ->
  select name h row = select name h' row.
Proof.
  unfold select. revert h' row.
  induction h as [|a t IH]; intros [|a' t'] row H; simpl in H;
    try discriminate; [reflexivity|].
  injection H as Ha Ht. destruct row as [|x row]; [reflexivity|].
  simpl. rewrite Ha.
  destruct (a' =? name); simpl; [f_equal|]; apply IH; exact Ht.
Qed.

Lemma count_label_congr (name : string) (h h' : list string) :
  map (fun c => c =? name) h = map (fun c => c =? name) h' ->
  count_label name h = count_label name h'.
Proof.
  unfold count_label. revert h'.
  induction h as [|a t IH]; intros [|a' t'] H; simpl in H;
    try discriminate; [reflexivity|].
  injection H as Ha Ht. simpl. rewrite Ha.
  destruct (a' =? name); simpl; [f_equal|]; apply IH; exact Ht.
Qed.

Lemma getitem_congr (name : string) (h h' : list string) rws :
  map (fun c => c =? name) h = map (fun c => c =? name) h' ->
  getitem (mkFrame h rws) name = getitem (mkFrame h' rws) name.
Proof.
  intro H. unfold getitem. simpl.
  rewrite (count_label_congr name h h' H).
  destruct (count_label name h') as [|[|n]]; try reflexivity.
  f_equal. apply map_ext. intro row.
  rewrite (select_congr name h h' row H). reflexivity.
Qed.

Lemma has_label_congr (name : string) (h h' : list string) :
  map (fun c => c =? name) h = map (fun c => c =? name) h' ->
  has_label name h = has_label name h'.
Proof.
  unfold has_label. revert h'.
  induction h as [|a t IH]; intros [|a' t'] H; simpl in H;
    try discriminate; [reflexivity|].
  injection H as Ha Ht. simpl. rewrite Ha, (IH t' Ht). reflexivity.
Qed.

Lemma groupby_congr (rk ck : string) (h h' : list string) rws :
  map (fun c => c =? rk) h = map (fun c => c =? rk) h' ->
  map (fun c => c =? ck) h = map (fun c => c =? ck) h' ->
  groupby_size_unstack (mkFrame h rws) rk ck
  = groupby_size_unstack (mkFrame h' rws) rk ck.
Proof.
  intros Hr Hc. unfold groupby_size_unstack, keys_read_as_values.
  cbn [columns rows].
  rewrite (has_label_congr rk h h' Hr), (has_label_congr ck h h' Hc).
  rewrite (getitem_congr rk h h' rws Hr), (getitem_congr ck h h' rws Hc).
  reflexivity.
Qed.

(** Case analysis of a label against the three names the report renames. *)
Ltac label_cases c :=
  unfold rename_label, names_1, names_3; cbn [find fst snd];
  (destruct (String.eqb_spec "dataset_type" c);
   [subst c
   |destruct (String.eqb_spec "group_name" c);
    [subst c
    |destruct (String.eqb_spec "status" c); [subst c|]]]);
  cbn [find fst snd];
  repeat match goal with
         | |- context [String.eqb ?a ?b] =>
             destruct (String.eqb_spec a b); cbn [find fst snd];
             try discriminate; try congruence
         end;
  try reflexivity.

Lemma names_3_absorbs_1 (c : string) :
  rename_label names_3 (rename_label names_1 c) = rename_label names_3 c.
Proof. label_cases c. Qed.

Lemma names_3_idempotent (c : string) :
  rename_label names_3 (rename_label names_3 c) = rename_label names_3 c.
Proof. label_cases c. Qed.

Lemma names_1_dataset_type (c : string) :
  (rename_label names_1 c =? "Dataset Type")
  = (rename_label names_3 c =? "Dataset Type").
Proof. label_cases c. Qed.

Lemma names_1_group_name (c : string) :
  (rename_label names_1 c =? "Group Name")
  = (rename_label names_3 c =? "Group Name").
Proof. label_cases c. Qed.

Lemma tests_after_names_1 (name : string) (h : list string) :
  (forall c, (rename_label names_1 c =? name)
             = (rename_label names_3 c =? name)) ->
  map (fun c => c =? name) (map (rename_label names_1) h)
  = map (fun c => c =? name) (map (rename_label names_3) h).
Proof. intro H. rewrite !map_map. apply map_ext. exact H. Qed.

Lemma groupby_names_1 (rk ck : string) (d d' : DataFrame) :
  (forall c, (rename_label names_1 c =? rk) = (rename_label names_3 c =? rk)) ->
  (forall c, (rename_label names_1 c =? ck) = (rename_label names_3 c =? ck)) ->
  rows d = rows d' ->
  map (rename_label names_3) (columns d)
  = map (rename_label names_3) (columns d') ->
  groupby_size_unstack (rename names_1 d) rk ck
  = groupby_size_unstack (rename names_1 d') rk ck.
Proof.
  intros Hr Hc Hrows Hcols. unfold rename. rewrite Hrows.
  apply groupby_congr; rewrite !tests_after_names_1 by assumption;
    rewrite Hcols; reflexivity.
Qed.

Lemma groupby_names_3 (rk ck : string) (d d' : DataFrame) :
  rows d = rows d' ->
  map (rename_label names_3) (columns d)
  = map (rename_label names_3) (columns d') ->
  groupby_size_unstack (rename names_3 d) rk ck
  = groupby_size_unstack (rename names_3 d') rk ck.
Proof.
  intros Hrows Hcols. unfold rename. rewrite Hrows, Hcols. reflexivity.
Qed.

Section Views.

Context {sorter : RowSort}.

(** The table of a view is settled by the rows of the frame and by its
    header read through the full renaming. *)
Lemma view_result_congr (v : view) (d d' : DataFrame) :
  In v report_views ->
  rows d = rows d' ->
  map (rename_label names_3) (columns d)
  = map (rename_label names_3) (columns d') ->
  snd (v d) = snd (v d').
Proof.
  intros Hv Hrows Hcols.
  destruct Hv as [<- | [<- | [<- | []]]]; simpl.
  - rewrite (groupby_names_1 "Group Name" "Dataset Type" d d'
               names_1_group_name names_1_dataset_type Hrows Hcols).
    reflexivity.
  - rewrite (groupby_names_1 "Dataset Type" "Group Name" d d'
               names_1_dataset_type names_1_group_name Hrows Hcols).
    reflexivity.
  - rewrite (groupby_names_3 "Dataset Type" "Status" d d' Hrows Hcols).
    reflexivity.
Qed.

Lemma view_effect (v : view) (d : DataFrame) :
  In v report_views ->
  rows (fst (v d)) = rows d /\
  map (rename_label names_3) (columns (fst (v d)))
  = map (rename_label names_3) (columns d).
Proof.
  intros Hv.
  destruct Hv as [<- | [<- | [<- | []]]]; simpl; split; try reflexivity;
    rewrite map_map; apply map_ext; intro c;
    first [apply names_3_absorbs_1 | apply names_3_idempotent].
Qed.

Lemma after_effect (prevs : list view) (d : DataFrame) :
  Forall (fun w => In w report_views) prevs ->
  rows (after prevs d) = rows d /\
  map (rename_label names_3) (columns (after prevs d))
  = map (rename_label names_3) (columns d).
Proof.
  intro H. revert d. induction H as [|w ws Hw Hws IH]; intro d; simpl.
  - split; reflexivity.
  - destruct (IH (fst (w d))) as [E1 E2].
    destruct (view_effect w d Hw) as [F1 F2].
    split; congruence.
Qed.

(** After any of the views, a view builds the table it builds on the
    frame they started from. *)
Lemma view_after (prevs : list view) (v : view) (d : DataFrame) :
  Forall (fun w => In w report_views) prevs ->
  In v report_views ->
  snd (v (after prevs d)) = snd (v d).
Proof.
  intros Hprevs Hv.
  destruct (after_effect prevs d Hprevs) as [Hrows Hcols].
  apply view_result_congr; assumption.
Qed.

End Views.

(** C8 (as the code has it). The views share the frame [df] and each one
    renames its columns in place, so the frame a view receives depends on
    the views before it; but only the header changes, and the table a view
    builds is the one it would build on the frame as first filtered,
    whichever views ran before. *)
Theorem views_do_not_interfere :
  forall (sorter : RowSort) (prevs : list view) (v : view) (df : DataFrame),
    Forall (fun w => In w report_views) prevs ->
    In v report_views ->
    rows (after prevs df) = rows df /\
    snd (v (after prevs df)) = snd (v df).
Proof.
  intros sorter prevs v df Hprevs Hv.
  split; [apply after_effect; exact Hprevs | apply view_after; assumption].
Qed.

Lemma views_do_not_interfere_witness :
  Forall (fun w => In w (@report_views stable_sort))
         [@view_group_by_type stable_sort; view_type_by_group] /\
  In (@view_type_by_status stable_sort) (@report_views stable_sort) /\
  snd (@view_type_by_status stable_sort
         (after [@view_group_by_type stable_sort; view_type_by_group]
                (mkFrame ["dataset_type"; "group_name"; "status"]
                         [[Str "RNAseq"; Str "TMC"; Str "New"]])))
  = snd (@view_type_by_status stable_sort
           (mkFrame ["dataset_type"; "group_name"; "status"]
                    [[Str "RNAseq"; Str "TMC"; Str "New"]])).
Proof.
  assert (H1 : Forall (fun w => In w (@report_views stable_sort))
                      [@view_group_by_type stable_sort; view_type_by_group]).
  { constructor; [left; reflexivity|].
    constructor; [right; left; reflexivity | constructor]. }
  assert (H2 : In (@view_type_by_status stable_sort)
                  (@report_views stable_sort)).
  { right; right; left; reflexivity. }
  split; [exact H1|]. split; [exact H2|].
  exact (proj2 (views_do_not_interfere stable_sort _ _
                  (mkFrame ["dataset_type"; "group_name"; "status"]
                           [[Str "RNAseq"; Str "TMC"; Str "New"]]) H1 H2)).
Defined.

(** C8 as stated fails: a view does change the frame the next view is
    given. *)
Lemma views_rename_shared_frame :
  fst (@view_group_by_type stable_sort
         (mkFrame ["dataset_type"; "group_name"; "status"]
                  [[Str "RNAseq"; Str "TMC"; Str "New"]]))
  <> mkFrame ["dataset_type"; "group_name"; "status"]
             [[Str "RNAseq"; Str "TMC"; Str "New"]] /\
  columns (fst (@view_group_by_type stable_sort
                  (mkFrame ["dataset_type"; "group_name"; "status"]
                           [[Str "RNAseq"; Str "TMC"; Str "New"]])))
  = ["Dataset Type"; "Group Name"; "status"].
Proof.
  split; [|reflexivity].
  intro H. apply (f_equal columns) in H. vm_compute in H. discriminate.
Qed.

(* ------------------------------------------------------------------ *)
(** ** Reordering the rows *)

Lemma forallb_perm {A} (p : A -> bool) (l l' : list A) :
  Permutation l l' -> forallb p l = forallb p l'.
Proof.
  induction 1 as [|x l l' P IH|x y l|l l' l'' P1 IH1 P2 IH2]; simpl.
  - reflexivity.
  - rewrite IH. reflexivity.
  - destruct (p x), (p y); reflexivity.
  - congruence.
Qed.

Lemma existsb_perm {A} (p : A -> bool) (l l' : list A) :
  Permutation l l' -> existsb p l = existsb p l'.
Proof.
  induction 1 as [|x l l' P IH|x y l|l l' l'' P1 IH1 P2 IH2]; simpl.
  - reflexivity.
  - rewrite IH. reflexivity.
  - destruct (p x), (p y); reflexivity.
  - congruence.
Qed.

Lemma combine_map_map {A B C} (f : A -> B) (g : A -> C) (l : list A) :
  combine (map f l) (map g l) = map (fun x => (f x, g x)) l.
Proof. induction l; simpl; congruence. Qed.

Lemma observed_perm (k k' : list (cell * cell)) :
  Permutation k k' -> Permutation (observed k) (observed k').
Proof. intro P. unfold observed. apply Permutation_flat_map. exact P. Qed.

(** The groups of two columns read row by row. *)
Lemma groups_perm {X} (f g : X -> cell) (xs xs' : list X) :
  Permutation xs xs' ->
  (if forallb hashable (map f xs) && forallb hashable (map g xs)
   then Ok (unstack_counts (observed (combine (map f xs) (map g xs))))
   else Raise TypeError)
  = (if forallb hashable (map f xs') && forallb hashable (map g xs')
     then Ok (unstack_counts (observed (combine (map f xs') (map g xs'))))
     else Raise TypeError).
Proof.
  intro P.
  rewrite (forallb_perm hashable (map f xs) (map f xs'))
    by (apply Permutation_map; exact P).
  rewrite (forallb_perm hashable (map g xs) (map g xs'))
    by (apply Permutation_map; exact P).
  rewrite !combine_map_map.
  rewrite (unstack_counts_perm
             (observed (map (fun x => (f x, g x)) xs))
             (observed (map (fun x => (f x, g x)) xs'))); [reflexivity|].
  apply observed_perm, Permutation_map. exact P.
Qed.

Lemma groupby_rows_perm (h : list string) (rws rws' : list (list cell))
      (rk ck : string) :
  Permutation rws rws' ->
  groupby_size_unstack (mkFrame h rws) rk ck
  = groupby_size_unstack (mkFrame h rws') rk ck.
Proof.
  intro P. unfold groupby_size_unstack, keys_read_as_values, getitem.
  cbn [columns rows]. rewrite (Permutation_length P).
  destruct (Nat.eqb (length rws') 2
            && negb (has_label rk h && has_label ck h)); [reflexivity|].
  destruct (count_label rk h) as [|[|n]]; try reflexivity.
  destruct (count_label ck h) as [|[|m]]; try reflexivity.
  cbn [Py.bind]. apply groups_perm. exact P.
Qed.

Section RowOrder.

Context {sorter : RowSort}.

(** The table of a view does not depend on the order of the rows it is
    given. *)
Lemma view_rows_perm (v : view) (d d' : DataFrame) :
  In v report_views ->
  columns d = columns d' -> Permutation (rows d) (rows d') ->
  snd (v d) = snd (v d').
Proof.
  intros Hv Hc P. destruct d as [h rws], d' as [h' rws']. simpl in *.
  subst h'.
  destruct Hv as [<- | [<- | [<- | []]]]; simpl; unfold rename; simpl;
    rewrite (groupby_rows_perm _ rws rws' _ _ P); reflexivity.
Qed.

End RowOrder.

(* ------------------------------------------------------------------ *)
(** ** The fetched frame as a function of the records *)

Lemma getitem_the_column {X} (R : string -> string) cols
      (F : X -> string -> cell) xs name :
  getitem (mkFrame (map R cols) (tabulate cols F xs)) name
  = (k <- the_column R name cols ;; Ok (map (fun x => F x k) xs)).
Proof.
  rewrite getitem_tabulate. unfold the_column.
  destruct (filter (fun c => R c =? name) cols) as [|k [|k' rest]];
    reflexivity.
Qed.

Lemma the_column_perm (R : string -> string) name cols cols' :
  Permutation cols cols' -> the_column R name cols = the_column R name cols'.
Proof.
  intro P. unfold the_column.
  assert (Q := filter_perm (fun c => R c =? name) cols cols' P).
  destruct (filter (fun c => R c =? name) cols) as [|k [|k2 rest]].
  - apply Permutation_nil in Q. rewrite Q. reflexivity.
  - apply Permutation_length_1_inv in Q. rewrite Q. reflexivity.
  - destruct (filter (fun c => R c =? name) cols') as [|k' [|k2' rest']].
    + apply Permutation_length in Q. discriminate.
    + apply Permutation_length in Q. discriminate.
    + reflexivity.
Qed.

Lemma the_column_unique (R : string -> string) name cols k :
  NoDup cols -> In k cols -> R k = name ->
  (forall c, In c cols -> R c = name -> c = k) ->
  the_column R name cols = Ok k.
Proof.
  intros Hnd Hin Hk Huniq. unfold the_column.
  assert (E : filter (fun c => R c =? name) cols
              = filter (fun c => c =? k) cols).
  { apply filter_ext_in. intros c Hc.
    destruct (String.eqb_spec (R c) name) as [E|N];
      destruct (String.eqb_spec c k) as [E'|N']; try reflexivity.
    - exfalso. apply N'. apply Huniq; assumption.
    - exfalso. apply N. congruence. }
  rewrite E, (filter_label_NoDup k cols Hnd Hin). reflexivity.
Qed.

Lemma set_in_row_tabulate (g : string -> cell) name cols v :
  set_in_row name cols (map g cols) v
  = map (fun k => if k =? name then v else g k)
        (if existsb (fun c => c =? name) cols then cols else cols ++ [name]).
Proof.
  unfold set_in_row.
  destruct (existsb (fun c => c =? name) cols) eqn:E.
  - rewrite combine_map_r, map_map. reflexivity.
  - rewrite map_app. simpl. rewrite String.eqb_refl. f_equal.
    apply map_ext_in. intros k Hk.
    destruct (String.eqb_spec k name) as [->|_]; [|reflexivity].
    exfalso. apply existsb_label in Hk. congruence.
Qed.

Lemma label_of_field (k : string) (r : record) :
  label_of (field k r) = determine_type (text k r).
Proof. unfold text. destruct (field k r); reflexivity. Qed.

(** When some record has a [dataset_type] and every value under it can be
    classified, [get_data] returns the records with their label. *)
Lemma get_data_ok (recs : list record) :
  existsb (has_key "dataset_type") recs = true ->
  forallb classifiable (map (fun r => field "dataset_type" r) recs) = true ->
  get_data (fetch_ok recs)
  = Ok (mkFrame (data_columns recs)
                (tabulate (data_columns recs) data_cell recs)).
Proof.
  intros Hkey Hcls.
  rewrite get_data_fetch_ok, getitem_DataFrame_of, Hkey.
  simpl Py.bind. rewrite apply_determine_type, Hcls. simpl Py.bind.
  unfold setitem, DataFrame_of. simpl rows. simpl columns.
  rewrite !length_map, Nat.eqb_refl. simpl try_except.
  f_equal. unfold data_columns, tabulate. f_equal.
  rewrite !map_map, combine_map_map, map_map. simpl.
  apply map_ext. intro r. rewrite set_in_row_tabulate. reflexivity.
Qed.

Lemma data_columns_NoDup (recs : list record) : NoDup (data_columns recs).
Proof.
  unfold data_columns.
  destruct (existsb _ (uniq (flat_map (map fst) recs))) eqn:E.
  - apply uniq_NoDup.
  - apply NoDup_app; [apply uniq_NoDup | repeat constructor; simpl; tauto |].
    intros x Hx [<- | []].
    apply existsb_label in Hx. congruence.
Qed.

Lemma data_columns_In (k : string) (recs : list record) :
  In k (data_columns recs)
  <-> k = "dataset_status" \/ existsb (has_key k) recs = true.
Proof.
  unfold data_columns.
  destruct (existsb _ (uniq (flat_map (map fst) recs))) eqn:E.
  - rewrite key_in_columns. split; [tauto|].
    intros [-> | H]; [|exact H].
    apply key_in_columns, existsb_label. exact E.
  - rewrite in_app_iff, key_in_columns. simpl. intuition congruence.
Qed.

Lemma data_columns_perm (recs recs' : list record) :
  Permutation recs recs' ->
  Permutation (data_columns recs) (data_columns recs').
Proof.
  intro P. apply NoDup_Permutation; try apply data_columns_NoDup.
  intro k. rewrite !data_columns_In.
  rewrite (existsb_perm (has_key k) recs recs' P). tauto.
Qed.

Lemma mask_filter {A B} (f : A -> B) (p : A -> bool) (l : list A) :
  map fst (filter snd (combine (map f l) (map p l))) = map f (filter p l).
Proof.
  induction l as [|a t IH]; simpl; [reflexivity|].
  destruct (p a); simpl; rewrite IH; reflexivity.
Qed.

Lemma is_primary_label (r : record) :
  match data_cell r "dataset_status" with
  | Str x => x =? "Primary"
  | _ => false
  end = is_primary r.
Proof.
  unfold data_cell, is_primary. rewrite String.eqb_refl, label_of_field.
  reflexivity.
Qed.

(** Line 61 on the frame of [get_data]: the rows of the primary records. *)
Lemma primary_tabulate (recs : list record) :
  primary (mkFrame (data_columns recs)
                   (tabulate (data_columns recs) data_cell recs))
  = Ok (mkFrame (data_columns recs)
                (tabulate (data_columns recs) data_cell
                          (filter is_primary recs))).
Proof.
  unfold primary.
  rewrite <- (map_id_eq (data_columns recs)) at 1.
  rewrite getitem_the_column.
  rewrite (the_column_unique (fun c => c) "dataset_status"
             (data_columns recs) "dataset_status");
    [| apply data_columns_NoDup
     | apply data_columns_In; left; reflexivity
     | reflexivity
     | intros c _ E; exact E].
  simpl Py.bind. unfold mask_rows. simpl columns.
  f_equal. f_equal. simpl rows. unfold series_eq. rewrite map_map.
  rewrite (map_ext _ is_primary) by apply is_primary_label.
  unfold tabulate. apply mask_filter.
Qed.

Lemma filtered_ok (recs : list record) :
  existsb (has_key "dataset_type") recs = true ->
  forallb classifiable (map (fun r => field "dataset_type" r) recs) = true ->
  filtered (fetch_ok recs)
  = Ok (mkFrame (data_columns recs)
                (tabulate (data_columns recs) data_cell
                          (filter is_primary recs))).
Proof.
  intros Hkey Hcls. unfold filtered.
  rewrite (get_data_ok recs Hkey Hcls). simpl Py.bind.
  apply primary_tabulate.
Qed.

(** The pivot of a renamed, tabulated frame. *)
Lemma groupby_tabulate {X} (R : string -> string) cols
      (F : X -> string -> cell) xs rk ck :
  groupby_size_unstack (mkFrame (map R cols) (tabulate cols F xs)) rk ck
  = if Nat.eqb (length xs) 2
       && negb (has_label rk (map R cols) && has_label ck (map R cols))
    then Raise ValueError
    else
      (k1 <- the_column R rk cols ;;
       k2 <- the_column R ck cols ;;
       if forallb hashable (map (fun x => F x k1) xs)
          && forallb hashable (map (fun x => F x k2) xs)
       then Ok (unstack_counts
                  (observed (combine (map (fun x => F x k1) xs)
                                     (map (fun x => F x k2) xs))))
       else Raise TypeError).
Proof.
  unfold groupby_size_unstack, keys_read_as_values. cbn [columns rows].
  unfold tabulate at 1. rewrite length_map.
  destruct (Nat.eqb (length xs) 2
            && negb (has_label rk (map R cols) && has_label ck (map R cols)));
    [reflexivity|].
  rewrite !getitem_the_column.
  destruct (the_column R rk cols); simpl; [|reflexivity].
  destruct (the_column R ck cols); reflexivity.
Qed.

Lemma has_label_perm (name : string) (cols cols' : list string) :
  Permutation cols cols' -> has_label name cols = has_label name cols'.
Proof. apply existsb_perm. Qed.

Lemma has_label_image (R : string -> string) (k : string) cols :
  In k cols -> has_label (R k) (map R cols) = true.
Proof. intro H. apply existsb_label, in_map. exact H. Qed.

Lemma groupby_tabulate_perm {X} (R : string -> string) cols cols'
      (F : X -> string -> cell) xs xs' rk ck :
  Permutation cols cols' -> Permutation xs xs' ->
  groupby_size_unstack (mkFrame (map R cols) (tabulate cols F xs)) rk ck
  = groupby_size_unstack (mkFrame (map R cols') (tabulate cols' F xs')) rk ck.
Proof.
  intros Pc Px. rewrite !groupby_tabulate.
  rewrite (Permutation_length Px).
  rewrite (has_label_perm rk (map R cols) (map R cols'))
    by (apply Permutation_map; exact Pc).
  rewrite (has_label_perm ck (map R cols) (map R cols'))
    by (apply Permutation_map; exact Pc).
  destruct (Nat.eqb (length xs') 2
            && negb (has_label rk (map R cols') && has_label ck (map R cols')));
    [reflexivity|].
  rewrite (the_column_perm R rk cols cols' Pc).
  rewrite (the_column_perm R ck cols cols' Pc).
  destruct (the_column R rk cols'); simpl; [|reflexivity].
  destruct (the_column R ck cols'); simpl; [|reflexivity].
  apply groups_perm. exact Px.
Qed.

Section Pipeline.

Context {sorter : RowSort}.

(** The report never looks at the frame a view leaves behind otherwise
    than through the next view, so each table is the one its view builds
    on the filtered frame. *)
Lemma report_by_views (net : fetched) :
  report net
  = (df <- filtered net ;;
     t1 <- snd (view_group_by_type df) ;;
     t2 <- snd (view_type_by_group df) ;;
     t3 <- snd (view_type_by_status df) ;;
     Ok (t1, t2, t3)).
Proof.
  unfold report, filtered.
  destruct (get_data net) as [data|e]; cbn [Py.bind]; [|reflexivity].
  destruct (primary data) as [df|e]; cbn [Py.bind]; [|reflexivity].
  assert (V1 : In view_group_by_type report_views) by (left; reflexivity).
  assert (V2 : In view_type_by_group report_views)
    by (right; left; reflexivity).
  assert (V3 : In view_type_by_status report_views)
    by (right; right; left; reflexivity).
  assert (P1 : Forall (fun w => In w report_views) [view_group_by_type])
    by (constructor; [exact V1 | constructor]).
  assert (P2 : Forall (fun w => In w report_views)
                      [view_group_by_type; view_type_by_group])
    by (constructor; [exact V1 | constructor; [exact V2 | constructor]]).
  assert (E2 := view_after [view_group_by_type] view_type_by_group df P1 V2).
  assert (E3 := view_after [view_group_by_type; view_type_by_group]
                           view_type_by_status df P2 V3).
  unfold after in E2, E3. cbn [fold_left] in E2, E3.
  destruct (view_group_by_type df) as [d1 r1] eqn:V.
  cbn [fst snd] in *.
  destruct r1 as [t1|e]; cbn [Py.bind]; [|reflexivity].
  destruct (view_type_by_group d1) as [d2 r2] eqn:W.
  cbn [fst snd] in *. subst r2.
  destruct (snd (view_type_by_group df)) as [t2|e]; cbn [Py.bind];
    [|reflexivity].
  destruct (view_type_by_status d2) as [d3 r3] eqn:U.
  cbn [fst snd] in *. subst r3. reflexivity.
Qed.

End Pipeline.

(* ------------------------------------------------------------------ *)
(** ** The report on dataset records *)

Lemma names_1_idempotent (c : string) :
  rename_label names_1 (rename_label names_1 c) = rename_label names_1 c.
Proof. label_cases c. Qed.

Lemma rename_1_1 (d : DataFrame) :
  rename names_1 (rename names_1 d) = rename names_1 d.
Proof.
  unfold rename. simpl. f_equal. rewrite map_map.
  apply map_ext, names_1_idempotent.
Qed.

Lemma rename_3_1 (d : DataFrame) :
  rename names_3 (rename names_1 d) = rename names_3 d.
Proof.
  unfold rename. simpl. f_equal. rewrite map_map.
  apply map_ext, names_3_absorbs_1.
Qed.

Lemma names_1_dataset_type_inv (c : string) :
  rename_label names_1 c = "Dataset Type" ->
  c = "dataset_type" \/ c = "Dataset Type".
Proof. label_cases c; intros; auto; discriminate. Qed.

Lemma names_1_group_name_inv (c : string) :
  rename_label names_1 c = "Group Name" ->
  c = "group_name" \/ c = "Group Name".
Proof. label_cases c; intros; auto; discriminate. Qed.

Lemma names_3_dataset_type_inv (c : string) :
  rename_label names_3 c = "Dataset Type" ->
  c = "dataset_type" \/ c = "Dataset Type".
Proof. label_cases c; intros; auto; discriminate. Qed.

Lemma names_3_status_inv (c : string) :
  rename_label names_3 c = "Status" -> c = "status" \/ c = "Status".
Proof. label_cases c; intros; auto; discriminate. Qed.

Lemma is_str_field (k : string) (r : record) :
  is_str (field k r) = true -> field k r = Str (text k r).
Proof. unfold text. destruct (field k r); simpl; congruence. Qed.

Lemma dataset_record_fields (r : record) :
  dataset_record r = true ->
  field "dataset_type" r = Str (text "dataset_type" r) /\
  field "group_name" r = Str (text "group_name" r) /\
  field "status" r = Str (text "status" r) /\
  has_key "Dataset Type" r = false /\
  has_key "Group Name" r = false /\
  has_key "Status" r = false.
Proof.
  unfold dataset_record. rewrite !andb_true_iff, !negb_true_iff.
  intros [[[[[H1 H2] H3] H4] H5] H6].
  repeat split; try assumption; apply is_str_field; assumption.
Qed.

Lemma no_key_anywhere (k : string) (recs : list record) :
  (forall r, In r recs -> has_key k r = false) ->
  existsb (has_key k) recs = false.
Proof.
  intro H. destruct (existsb (has_key k) recs) eqn:E; [|reflexivity].
  apply existsb_exists in E. destruct E as [r [Hin Hk]].
  rewrite (H r Hin) in Hk. discriminate.
Qed.

Lemma key_somewhere (k : string) (recs : list record) :
  recs <> [] ->
  (forall r, In r recs -> is_str (field k r) = true) ->
  existsb (has_key k) recs = true.
Proof.
  intros Hne H. destruct recs as [|r t]; [contradiction|].
  simpl. rewrite (field_present k r); [reflexivity|].
  specialize (H r (or_introl eq_refl)).
  destruct (field k r); simpl in H; congruence.
Qed.

Section Records.

Variable recs : list record.
Hypothesis nonempty : recs <> [].
Hypothesis shape : forallb dataset_record recs = true.

Lemma shape_each (r : record) : In r recs -> dataset_record r = true.
Proof. intro H. rewrite forallb_forall in shape. apply shape. exact H. Qed.

Lemma shape_is_str (k : string) :
  k = "dataset_type" \/ k = "group_name" \/ k = "status" ->
  forall r, In r recs -> field k r = Str (text k r).
Proof.
  intros Hk r Hr.
  destruct (dataset_record_fields r (shape_each r Hr)) as [A [B [C _]]].
  destruct Hk as [-> | [-> | ->]]; assumption.
Qed.

Lemma shape_has_column (k : string) :
  k = "dataset_type" \/ k = "group_name" \/ k = "status" ->
  In k (data_columns recs).
Proof.
  intro Hk. apply data_columns_In. right.
  apply key_somewhere; [exact nonempty|].
  intros r Hr. rewrite (shape_is_str k Hk r Hr). reflexivity.
Qed.

Lemma shape_no_column (k : string) :
  k = "Dataset Type" \/ k = "Group Name" \/ k = "Status" ->
  ~ In k (data_columns recs).
Proof.
  intros Hk Hin. apply data_columns_In in Hin.
  destruct Hin as [E | E].
  - destruct Hk as [-> | [-> | ->]]; discriminate.
  - rewrite no_key_anywhere in E; [discriminate|].
    intros r Hr.
    destruct (dataset_record_fields r (shape_each r Hr)) as [_ [_ [_ [A [B C]]]]].
    destruct Hk as [-> | [-> | ->]]; assumption.
Qed.

Lemma shape_filtered :
  filtered (fetch_ok recs)
  = Ok (mkFrame (data_columns recs)
                (tabulate (data_columns recs) data_cell
                          (filter is_primary recs))).
Proof.
  apply filtered_ok.
  - apply key_somewhere; [exact nonempty|].
    intros r Hr. rewrite (shape_is_str "dataset_type") by auto. reflexivity.
  - apply forallb_forall. intros c Hc. apply in_map_iff in Hc.
    destruct Hc as [r [<- Hr]].
    rewrite (shape_is_str "dataset_type") by auto. reflexivity.
Qed.

(** A pivot of the filtered frame, under a renaming that sends exactly
    the fields [k1] and [k2] to the labels grouped on. *)
Lemma shape_pivot (R : string -> string) (rk ck k1 k2 : string) :
  k1 = "dataset_type" \/ k1 = "group_name" \/ k1 = "status" ->
  k2 = "dataset_type" \/ k2 = "group_name" \/ k2 = "status" ->
  R k1 = rk -> R k2 = ck ->
  (forall c, R c = rk -> c = k1 \/ ~ In c (data_columns recs)) ->
  (forall c, R c = ck -> c = k2 \/ ~ In c (data_columns recs)) ->
  groupby_size_unstack
    (mkFrame (map R (data_columns recs))
             (tabulate (data_columns recs) data_cell
                       (filter is_primary recs))) rk ck
  = Ok (unstack_counts (groups k1 k2 recs)).
Proof.
  intros H1 H2 E1 E2 U1 U2.
  rewrite groupby_tabulate.
  rewrite <- E1 at 1. rewrite <- E2 at 1.
  rewrite !has_label_image by (apply shape_has_column; assumption).
  cbn [andb negb]. rewrite andb_false_r.
  rewrite (the_column_unique R rk (data_columns recs) k1);
    [| apply data_columns_NoDup | apply shape_has_column; exact H1 | exact E1
     | intros c Hc Ec; destruct (U1 c Ec); [assumption | contradiction]].
  rewrite (the_column_unique R ck (data_columns recs) k2);
    [| apply data_columns_NoDup | apply shape_has_column; exact H2 | exact E2
     | intros c Hc Ec; destruct (U2 c Ec); [assumption | contradiction]].
  cbn [Py.bind].
  assert (F : forall k, k = "dataset_type" \/ k = "group_name" \/ k = "status" ->
              map (fun x => data_cell x k) (filter is_primary recs)
              = map (fun x => Str (text k x)) (filter is_primary recs)).
  { intros k Hk. apply map_ext_in. intros r Hr.
    apply filter_In in Hr. destruct Hr as [Hr _].
    unfold data_cell.
    assert (N : (k =? "dataset_status") = false)
      by (destruct Hk as [-> | [-> | ->]]; reflexivity).
    rewrite N. apply shape_is_str; assumption. }
  rewrite (F k1 H1), (F k2 H2).
  assert (G : forall k, forallb hashable
                (map (fun x => Str (text k x)) (filter is_primary recs)) = true).
  { intro k. apply forallb_forall. intros c Hc. apply in_map_iff in Hc.
    destruct Hc as [r [<- _]]. reflexivity. }
  rewrite !G. cbn [andb]. f_equal. f_equal.
  rewrite combine_map_map. unfold groups, observed. clear F G.
  induction (filter is_primary recs) as [|r t IH]; simpl; [reflexivity|].
  f_equal. exact IH.
Qed.

Lemma shape_pivot_group_by_type :
  groupby_size_unstack
    (rename names_1 (mkFrame (data_columns recs)
                             (tabulate (data_columns recs) data_cell
                                       (filter is_primary recs))))
    "Group Name" "Dataset Type"
  = Ok (unstack_counts (groups "group_name" "dataset_type" recs)).
Proof.
  unfold rename. cbn [columns rows].
  apply shape_pivot; auto.
  - intros c Hc. destruct (names_1_group_name_inv c Hc) as [-> | ->];
      [left; reflexivity | right; apply shape_no_column; auto].
  - intros c Hc. destruct (names_1_dataset_type_inv c Hc) as [-> | ->];
      [left; reflexivity | right; apply shape_no_column; auto].
Qed.

Lemma shape_pivot_type_by_group :
  groupby_size_unstack
    (rename names_1 (mkFrame (data_columns recs)
                             (tabulate (data_columns recs) data_cell
                                       (filter is_primary recs))))
    "Dataset Type" "Group Name"
  = Ok (unstack_counts (groups "dataset_type" "group_name" recs)).
Proof.
  unfold rename. cbn [columns rows].
  apply shape_pivot; auto.
  - intros c Hc. destruct (names_1_dataset_type_inv c Hc) as [-> | ->];
      [left; reflexivity | right; apply shape_no_column; auto].
  - intros c Hc. destruct (names_1_group_name_inv c Hc) as [-> | ->];
      [left; reflexivity | right; apply shape_no_column; auto].
Qed.

Lemma shape_pivot_type_by_status :
  groupby_size_unstack
    (rename names_3 (mkFrame (data_columns recs)
                             (tabulate (data_columns recs) data_cell
                                       (filter is_primary recs))))
    "Dataset Type" "Status"
  = Ok (unstack_counts (groups "dataset_type" "status" recs)).
Proof.
  unfold rename. cbn [columns rows].
  apply shape_pivot; auto.
  - intros c Hc. destruct (names_3_dataset_type_inv c Hc) as [-> | ->];
      [left; reflexivity | right; apply shape_no_column; auto].
  - intros c Hc. destruct (names_3_status_inv c Hc) as [-> | ->];
      [left; reflexivity | right; apply shape_no_column; auto].
Qed.

(** The three pivots of the script, in terms of the records. *)
Lemma shape_pivots :
  pivots (fetch_ok recs)
  = Ok (unstack_counts (groups "group_name" "dataset_type" recs),
        unstack_counts (groups "dataset_type" "group_name" recs),
        unstack_counts (groups "dataset_type" "status" recs)).
Proof.
  unfold pivots. rewrite shape_filtered. cbn [Py.bind].
  rewrite rename_1_1, rename_3_1.
  rewrite shape_pivot_group_by_type. cbn [Py.bind].
  rewrite shape_pivot_type_by_group. cbn [Py.bind].
  rewrite shape_pivot_type_by_status. reflexivity.
Qed.

End Records.

(* ------------------------------------------------------------------ *)
(** ** The cells of a pivot *)

Lemma filter_map_comm {A B} (p : B -> bool) (f : A -> B) (l : list A) :
  filter p (map f l) = map f (filter (fun x => p (f x)) l).
Proof.
  induction l as [|a t IH]; simpl; [reflexivity|].
  destruct (p (f a)); simpl; rewrite IH; reflexivity.
Qed.

Lemma count_pair_matching (rk ck r c : string) (input : list record) :
  count_pair r c (map (fun x => (text rk x, text ck x)) input)
  = matching rk ck r c input.
Proof.
  unfold count_pair, matching. rewrite filter_map_comm, length_map.
  reflexivity.
Qed.

Lemma unstack_counts_exact (rk ck : string) (input : list record) :
  exact_counts (unstack_counts (map (fun x => (text rk x, text ck x)) input))
               rk ck input.
Proof.
  unfold exact_counts.
  split; [apply unstack_counts_dense|].
  split; [rewrite unstack_counts_index; apply sort_labels_NoDup, uniq_NoDup|].
  split; [rewrite unstack_counts_columns; apply sort_labels_NoDup, uniq_NoDup|].
  split; [|split].
  - intro r. rewrite unstack_counts_index, sort_labels_In, uniq_In.
    rewrite map_map. simpl. rewrite in_map_iff.
    split; intros [x H]; exists x; tauto.
  - intro c. rewrite unstack_counts_columns, sort_labels_In, uniq_In.
    rewrite map_map. simpl. rewrite in_map_iff.
    split; intros [x H]; exists x; tauto.
  - intros r c Hr Hc. rewrite (unstack_counts_lookup _ r c Hr Hc).
    rewrite count_pair_matching. split; [reflexivity|].
    unfold matching. lia.
Qed.

(* ------------------------------------------------------------------ *)
(** ** The tables handed to the charts *)

Lemma unstack_counts_ascending pairs :
  columns_ascending (unstack_counts pairs) /\
  index_ascending (unstack_counts pairs).
Proof.
  unfold columns_ascending, index_ascending.
  rewrite unstack_counts_index, unstack_counts_columns.
  split; apply sort_uniq_ascending.
Qed.

Lemma grand_total_perm (t t' : Table) :
  Permutation (trows t) (trows t') -> grand_total t = grand_total t'.
Proof.
  intro P. unfold grand_total, row_sums.
  apply sum_cells_perm, Permutation_map. exact P.
Qed.

Lemma dense_perm (t t' : Table) :
  tcolumns t = tcolumns t' -> Permutation (trows t) (trows t') ->
  dense t' -> dense t.
Proof.
  unfold dense. intros Hc P H. rewrite Hc.
  rewrite Forall_forall in *. intros row Hrow. apply H.
  apply (Permutation_in _ P). exact Hrow.
Qed.

Section Charts.

Context {sorter : RowSort}.

Lemma ranked_columns_ascending pairs :
  columns_ascending (ranked (unstack_counts pairs)).
Proof.
  unfold ranked. apply sort_index_columns_sorted.
  rewrite rank_by_total_columns. apply NoDup_filter.
  rewrite unstack_counts_columns. apply sort_labels_NoDup, uniq_NoDup.
Qed.

(** Without a clash on "Total", lines 88-93 only reorder the rows, into
    descending order of their sum. *)
Lemma ranked_spec pairs :
  ~ In "Total" (map snd pairs) ->
  tcolumns (ranked (unstack_counts pairs)) = tcolumns (unstack_counts pairs) /\
  Permutation (trows (ranked (unstack_counts pairs)))
              (trows (unstack_counts pairs)) /\
  rows_by_total_desc (ranked (unstack_counts pairs)).
Proof.
  intro Hn.
  assert (Hn' : ~ In "Total" (tcolumns (unstack_counts pairs))).
  { rewrite unstack_counts_columns, sort_labels_In, uniq_In. exact Hn. }
  destruct (rank_by_total_spec (unstack_counts pairs) Hn'
              (unstack_counts_dense pairs)) as [Hc [P S]].
  assert (E : ranked (unstack_counts pairs)
              = rank_by_total (unstack_counts pairs)).
  { unfold ranked. apply sort_index_columns_ascending.
    - unfold columns_ascending. rewrite Hc.
      apply (proj1 (unstack_counts_ascending pairs)).
    - apply (dense_perm _ (unstack_counts pairs) Hc P).
      apply unstack_counts_dense. }
  rewrite E. split; [exact Hc|]. split; [exact P | exact S].
Qed.

Lemma unranked_spec pairs :
  sort_index_columns (unstack_counts pairs) = unstack_counts pairs.
Proof.
  apply sort_index_columns_ascending.
  - apply (proj1 (unstack_counts_ascending pairs)).
  - apply unstack_counts_dense.
Qed.

Variable recs : list record.
Hypothesis nonempty : recs <> [].
Hypothesis shape : forallb dataset_record recs = true.

(** The three tables of the report, in terms of the records. *)
Lemma shape_report :
  report (fetch_ok recs)
  = Ok (ranked (unstack_counts (groups "group_name" "dataset_type" recs)),
        unstack_counts (groups "dataset_type" "group_name" recs),
        ranked (unstack_counts (groups "dataset_type" "status" recs))).
Proof.
  rewrite report_by_views, (shape_filtered recs nonempty shape).
  cbn [Py.bind]. unfold view_group_by_type, view_type_by_group,
                 view_type_by_status. cbn [snd].
  rewrite (shape_pivot_group_by_type recs nonempty shape). cbn [Py.bind].
  rewrite (shape_pivot_type_by_group recs nonempty shape). cbn [Py.bind].
  rewrite (shape_pivot_type_by_status recs nonempty shape). cbn [Py.bind].
  rewrite unranked_spec. reflexivity.
Qed.

Lemma never_total_groups (rk ck : string) :
  never_total ck recs -> ~ In "Total" (map snd (groups rk ck recs)).
Proof.
  intros H Hin. unfold groups in Hin. rewrite map_map in Hin. simpl in Hin.
  apply in_map_iff in Hin. destruct Hin as [r [E Hr]].
  apply filter_In in Hr. destruct Hr as [Hr Hp].
  exact (H r Hr Hp E).
Qed.

Lemma groups_length (rk ck : string) :
  length (groups rk ck recs) = length (filter is_primary recs).
Proof. unfold groups. apply length_map. Qed.

End Charts.

(* ------------------------------------------------------------------ *)
(** ** Reordering the fetched records *)

Lemma get_data_cases (recs : list record) :
  get_data (fetch_ok recs)
  = if existsb (has_key "dataset_type") recs
    then if forallb classifiable (map (fun r => field "dataset_type" r) recs)
         then Ok (mkFrame (data_columns recs)
                          (tabulate (data_columns recs) data_cell recs))
         else Raise TypeError
    else Ok empty_frame.
Proof.
  destruct (existsb (has_key "dataset_type") recs) eqn:Hkey.
  - destruct (forallb classifiable _) eqn:Hcls.
    + apply get_data_ok; assumption.
    + rewrite get_data_fetch_ok, getitem_DataFrame_of, Hkey.
      simpl Py.bind. rewrite apply_determine_type, Hcls. reflexivity.
  - rewrite get_data_fetch_ok, getitem_DataFrame_of, Hkey. reflexivity.
Qed.

Lemma filtered_cases (recs : list record) :
  filtered (fetch_ok recs)
  = if existsb (has_key "dataset_type") recs
    then if forallb classifiable (map (fun r => field "dataset_type" r) recs)
         then Ok (mkFrame (data_columns recs)
                          (tabulate (data_columns recs) data_cell
                                    (filter is_primary recs)))
         else Raise TypeError
    else Raise (KeyError "dataset_status").
Proof.
  unfold filtered. rewrite get_data_cases.
  destruct (existsb (has_key "dataset_type") recs); [|reflexivity].
  destruct (forallb classifiable _); [|reflexivity].
  cbn [Py.bind]. apply primary_tabulate.
Qed.

Lemma filtered_cases_perm (recs recs' : list record) :
  Permutation recs recs' ->
  existsb (has_key "dataset_type") recs
  = existsb (has_key "dataset_type") recs' /\
  forallb classifiable (map (fun r => field "dataset_type" r) recs)
  = forallb classifiable (map (fun r => field "dataset_type" r) recs').
Proof.
  intro P. split.
  - apply existsb_perm. exact P.
  - apply forallb_perm, Permutation_map. exact P.
Qed.

Lemma pivot_records_perm (names : list (string * string)) (rk ck : string)
      (recs recs' : list record) :
  Permutation recs recs' ->
  groupby_size_unstack
    (rename names (mkFrame (data_columns recs)
                           (tabulate (data_columns recs) data_cell
                                     (filter is_primary recs)))) rk ck
  = groupby_size_unstack
      (rename names (mkFrame (data_columns recs')
                             (tabulate (data_columns recs') data_cell
                                       (filter is_primary recs')))) rk ck.
Proof.
  intro P. unfold rename. cbn [columns rows].
  apply groupby_tabulate_perm.
  - apply data_columns_perm. exact P.
  - apply filter_perm. exact P.
Qed.

(** C6. The report depends on the fetched records only as a multiset:
    for any reordering of them the script ends the same way, and when it
    builds its tables, the pivots and the tables given to the charts are
    the same - cell by cell, hence row total by row total, and (group keys
    being sorted before the rows are ranked) in the same row order too. *)
Theorem report_ignores_record_order :
  forall (sorter : RowSort) (recs recs' : list record),
    Permutation recs recs' ->
    pivots (fetch_ok recs) = pivots (fetch_ok recs') /\
    report (fetch_ok recs) = report (fetch_ok recs').
Proof.
  intros sorter recs recs' P.
  destruct (filtered_cases_perm recs recs' P) as [Ek Ec].
  split.
  - unfold pivots. rewrite !filtered_cases, <- Ek, <- Ec.
    destruct (existsb (has_key "dataset_type") recs); [|reflexivity].
    destruct (forallb classifiable _); [|reflexivity].
    cbn [Py.bind]. rewrite !rename_1_1, !rename_3_1.
    rewrite (pivot_records_perm names_1 "Group Name" "Dataset Type" _ _ P).
    rewrite (pivot_records_perm names_1 "Dataset Type" "Group Name" _ _ P).
    rewrite (pivot_records_perm names_3 "Dataset Type" "Status" _ _ P).
    reflexivity.
  - rewrite !report_by_views, !filtered_cases, <- Ek, <- Ec.
    destruct (existsb (has_key "dataset_type") recs); [|reflexivity].
    destruct (forallb classifiable _); [|reflexivity].
    cbn [Py.bind].
    unfold view_group_by_type, view_type_by_group, view_type_by_status.
    cbn [snd].
    rewrite (pivot_records_perm names_1 "Group Name" "Dataset Type" _ _ P).
    rewrite (pivot_records_perm names_1 "Dataset Type" "Group Name" _ _ P).
    rewrite (pivot_records_perm names_3 "Dataset Type" "Status" _ _ P).
    reflexivity.
Qed.

(* ------------------------------------------------------------------ *)
(** ** get_list_of_unique_status *)

Lemma statuses_of_history (x : cell) :
  is_history x = true -> exists l, statuses_of x = Ok l.
Proof.
  destruct x as [| |s|h]; simpl; try discriminate.
  induction h as [|d t IH]; simpl; intro H.
  - exists []. reflexivity.
  - destruct (dict_get "status" d) as [st|]; [|discriminate].
    simpl in H. destruct (IH H) as [l E].
    exists (st :: l). simpl. rewrite E. reflexivity.
Qed.

Lemma all_statuses_of (col : list cell) :
  forallb is_history col = true -> exists ls, mapM statuses_of col = Ok ls.
Proof.
  induction col as [|x t IH]; simpl; intro H.
  - exists []. reflexivity.
  - apply andb_true_iff in H. destruct H as [Hx Ht].
    destruct (statuses_of_history x Hx) as [l E].
    destruct (IH Ht) as [ls Es].
    exists (l :: ls). rewrite E. simpl. rewrite Es. reflexivity.
Qed.

(** C9. Whatever frame it is given, [get_list_of_unique_status] never
    returns a list: when it returns, it returns [None].  On a frame with a
    [status_history] column of status histories it does return, and the
    list it has built, with "HuBMAP ID" inserted in front, is lost: the
    value returned is that of [list.insert]. *)
Theorem get_list_of_unique_status_is_None :
  forall df : DataFrame,
    (forall v, get_list_of_unique_status df = Ok v -> v = PyNone) /\
    (forall col,
        getitem df "status_history" = Ok col ->
        forallb is_history col = true ->
        get_list_of_unique_status df = Ok PyNone /\
        exists statuses,
          get_list_of_unique_status_run df
          = Ok ("HuBMAP ID" :: statuses, PyNone)).
Proof.
  intro df. split.
  - intros v. unfold get_list_of_unique_status, get_list_of_unique_status_run.
    destruct (getitem df "status_history") as [col|e]; simpl; [|discriminate].
    destruct (mapM statuses_of col) as [ls|e]; simpl; [|discriminate].
    intro H. injection H as <-. reflexivity.
  - intros col Hcol Hh.
    destruct (all_statuses_of col Hh) as [ls E].
    unfold get_list_of_unique_status, get_list_of_unique_status_run.
    rewrite Hcol. simpl. rewrite E. simpl.
    split; [reflexivity|]. eexists. reflexivity.
Qed.

(* ------------------------------------------------------------------ *)
(** ** The statements on sample data *)

Lemma get_list_of_unique_status_on_sample :
  get_list_of_unique_status
    (mkFrame ["hubmap_id"; "status_history"]
       [[Str "HBM1"; Hist [[("status", "New")]; [("status", "QA")]]];
        [Str "HBM2"; Hist [[("status", "New")]]]])
  = Ok PyNone /\
  get_list_of_unique_status_run
    (mkFrame ["hubmap_id"; "status_history"]
       [[Str "HBM1"; Hist [[("status", "New")]; [("status", "QA")]]];
        [Str "HBM2"; Hist [[("status", "New")]]]])
  = Ok (["HuBMAP ID"; "New"; "QA"], PyNone).
Proof. split; reflexivity. Qed.

Lemma report_on_empty_frame_witness :
  get_data (Got (mkResponse 500 None)) = Ok empty_frame /\
  @report stable_sort (Got (mkResponse 500 None))
  = Raise (KeyError "dataset_status") /\
  @report stable_sort (fetch_ok []) = Raise (KeyError "dataset_status").
Proof.
  split; [reflexivity|].
  split; apply (report_on_empty_frame stable_sort); reflexivity.
Defined.

(** The records of the specification's example: the second one is
    derived. *)
Lemma report_on_example :
  @report stable_sort (fetch_ok example_records)
  = Ok (mkTable ["RNAseq"] [("CODCC", [1%Z]); ("TMC", [1%Z])],
        mkTable ["CODCC"; "TMC"] [("RNAseq", [1%Z; 1%Z])],
        mkTable ["Published"] [("RNAseq", [2%Z])]).
Proof. vm_compute. reflexivity. Qed.

Lemma report_ignores_record_order_witness :
  Permutation example_records (rev example_records) /\
  pivots (fetch_ok example_records) = pivots (fetch_ok (rev example_records)) /\
  @report stable_sort (fetch_ok example_records)
  = @report stable_sort (fetch_ok (rev example_records)).
Proof.
  split; [apply Permutation_rev|].
  apply (report_ignores_record_order stable_sort example_records
           (rev example_records)).
  apply Permutation_rev.
Defined.


(** Rows of equal total: two sorts that both meet the contract of
    [sort_values] return them in different orders; and the stable one
    returns them in ascending label order (CODCC before TMC), not in the
    order in which the records first showed them (TMC before CODCC). *)
Lemma ties_are_left_to_the_sort :
  @report stable_sort
    (fetch_ok [dataset "ATAC" "TMC" "New"; dataset "RNAseq" "CODCC" "New"])
  = Ok (mkTable ["ATAC"; "RNAseq"]
                [("CODCC", [0%Z; 1%Z]); ("TMC", [1%Z; 0%Z])],
        mkTable ["CODCC"; "TMC"]
                [("ATAC", [0%Z; 1%Z]); ("RNAseq", [1%Z; 0%Z])],
        mkTable ["New"] [("ATAC", [1%Z]); ("RNAseq", [1%Z])]) /\
  @report mirror_sort
    (fetch_ok [dataset "ATAC" "TMC" "New"; dataset "RNAseq" "CODCC" "New"])
  = Ok (mkTable ["ATAC"; "RNAseq"]
                [("TMC", [1%Z; 0%Z]); ("CODCC", [0%Z; 1%Z])],
        mkTable ["CODCC"; "TMC"]
                [("ATAC", [0%Z; 1%Z]); ("RNAseq", [1%Z; 0%Z])],
        mkTable ["New"] [("RNAseq", [1%Z]); ("ATAC", [1%Z])]).
Proof. split; vm_compute; reflexivity. Qed.

(** A dataset type that is itself called "Total": the column the script
    adds for sorting overwrites the pivot's column of that name, and
    dropping it afterwards removes the dataset type from the first
    table. *)
Lemma a_column_named_Total_is_lost :
  pivots (fetch_ok [dataset "Total" "TMC" "New"])
  = Ok (mkTable ["Total"] [("TMC", [1%Z])],
        mkTable ["TMC"] [("Total", [1%Z])],
        mkTable ["New"] [("Total", [1%Z])]) /\
  @report stable_sort (fetch_ok [dataset "Total" "TMC" "New"])
  = Ok (mkTable [] [("TMC", [])],
        mkTable ["TMC"] [("Total", [1%Z])],
        mkTable ["New"] [("Total", [1%Z])]).
Proof. split; vm_compute; reflexivity. Qed.

(** A primary record without [group_name], among records that have one:
    [groupby] drops the row from the groups of the first two pivots. *)
Lemma a_record_without_group_is_not_counted :
  pivots (fetch_ok [dataset "RNAseq" "TMC" "New";
                    [("dataset_type", Str "ATAC"); ("status", Str "New")]])
  = Ok (mkTable ["RNAseq"] [("TMC", [1%Z])],
        mkTable ["TMC"] [("RNAseq", [1%Z])],
        mkTable ["New"] [("ATAC", [1%Z]); ("RNAseq", [1%Z])]).
Proof. vm_compute. reflexivity. Qed.

(** With columns but no primary row, the views build empty tables: the
    failure on the empty frame is that of line 61, not of the
    aggregation. *)
Lemma report_without_primary_rows :
  @report stable_sort (fetch_ok [dataset "RNAseq[QA]" "TMC" "New"])
  = Ok (mkTable [] [], mkTable [] [], mkTable [] []).
Proof. vm_compute. reflexivity. Qed.

(* ================================================================== *)
(** * Further properties of the script *)

(** ** What leaves [get_data] *)

Lemma error_status_test (r : Response) :
  ((400 <=? status_code r) && (status_code r <? 600))%Z = true
  <-> error_status r.
Proof.
  unfold error_status. rewrite andb_true_iff, Z.leb_le, Z.ltb_lt. tauto.
Qed.

Lemma get_data_got (r : Response) :
  get_data (Got r)
  = if ((400 <=? status_code r) && (status_code r <? 600))%Z
    then Ok empty_frame
    else match json r with
         | None => Ok empty_frame
         | Some j => match dict_get "data" j with
                     | None => Ok empty_frame
                     | Some recs => get_data (fetch_ok recs)
                     end
         end.
Proof.
  destruct ((400 <=? status_code r) && (status_code r <? 600))%Z eqn:E.
  - apply get_data_error_status, error_status_test. exact E.
  - destruct (json r) as [j|] eqn:J; [|apply get_data_malformed_body; exact J].
    destruct (dict_get "data" j) as [recs|] eqn:D;
      [|eapply get_data_missing_data_key; eassumption].
    rewrite get_data_fetch_ok.
    unfold get_data, get_data_try, requests_get, raise_for_status,
      response_json.
    cbn [Py.bind]. rewrite E. cbn [Py.bind]. rewrite J. cbn [Py.bind].
    rewrite D. reflexivity.
Qed.

Lemma unclassifiable_value (recs : list record) :
  (exists x, In x recs /\
             (field "dataset_type" x = NaN \/ field "dataset_type" x = Null)) ->
  forallb classifiable (map (fun r => field "dataset_type" r) recs) = false.
Proof.
  intros [x [Hin Hx]].
  destruct (forallb classifiable _) eqn:E; [|reflexivity].
  rewrite forallb_forall in E.
  specialize (E (field "dataset_type" x) (in_map _ _ _ Hin)).
  destruct Hx as [Hx | Hx]; rewrite Hx in E; discriminate.
Qed.

(** X1. A record whose [dataset_type] is null, or is missing while some
    other record has one, stops the whole report: whatever the (non-error)
    status and the other members of the body, the classifier's [TypeError]
    is caught by neither handler of [get_data] and ends the script
    uncaught. *)
Theorem null_dataset_type_ends_the_script :
  forall (sorter : RowSort) (r : Response) j (recs : list record),
    ~ error_status r ->
    json r = Some j ->
    dict_get "data" j = Some recs ->
    existsb (has_key "dataset_type") recs = true ->
    (exists x, In x recs /\
               (field "dataset_type" x = NaN \/
                field "dataset_type" x = Null)) ->
    get_data (Got r) = Raise TypeError /\
    report (Got r) = Raise TypeError.
Proof.
  intros sorter r j recs Hn Hj Hd Hkey Hbad.
  assert (E : get_data (Got r) = Raise TypeError).
  { rewrite get_data_got.
    destruct ((400 <=? status_code r) && (status_code r <? 600))%Z eqn:S;
      [exfalso; apply Hn, error_status_test; exact S|].
    rewrite Hj, Hd, get_data_cases, Hkey, (unclassifiable_value recs Hbad).
    reflexivity. }
  split; [exact E|]. unfold report. rewrite E. reflexivity.
Qed.

Lemma null_dataset_type_ends_the_script_witness :
  ~ error_status
      (mkResponse 200
         (Some [("data", [dataset "RNAseq" "TMC" "New";
                          [("dataset_type", Null); ("group_name", Str "TMC");
                           ("status", Str "New")]])])) /\
  @report stable_sort
    (Got (mkResponse 200
            (Some [("data", [dataset "RNAseq" "TMC" "New";
                             [("dataset_type", Null);
                              ("group_name", Str "TMC");
                              ("status", Str "New")]])])))
  = Raise TypeError.
Proof.
  assert (H : ~ error_status
                (mkResponse 200
                   (Some [("data", [dataset "RNAseq" "TMC" "New";
                                    [("dataset_type", Null);
                                     ("group_name", Str "TMC");
                                     ("status", Str "New")]])]))).
  { unfold error_status. simpl. lia. }
  split; [exact H|].
  apply (null_dataset_type_ends_the_script stable_sort _ _ _ H eq_refl
           eq_refl eq_refl).
  eexists. split; [right; left; reflexivity|]. right. reflexivity.
Defined.

(** ** The frame [get_data] returns *)

Lemma getitem_data (recs xs : list record) (k : string) :
  In k (data_columns recs) ->
  getitem (mkFrame (data_columns recs)
                   (tabulate (data_columns recs) data_cell xs)) k
  = Ok (map (fun r => data_cell r k) xs).
Proof.
  intro Hin.
  rewrite <- (map_id_eq (data_columns recs)) at 1.
  rewrite getitem_the_column.
  rewrite (the_column_unique (fun c => c) k (data_columns recs) k);
    [reflexivity | apply data_columns_NoDup | exact Hin | reflexivity
     | intros c _ E; exact E].
Qed.

Lemma tabulate_well_formed {X} cols (F : X -> string -> cell) xs :
  well_formed (mkFrame cols (tabulate cols F xs)).
Proof.
  unfold well_formed, tabulate. simpl. apply Forall_forall.
  intros row Hrow. apply in_map_iff in Hrow. destruct Hrow as [x [<- _]].
  apply length_map.
Qed.

(** X2. When some record has a [dataset_type] and every value under that
    key is text (or a list), [get_data] returns a frame with one row per
    record, in order, and a cell under every column; its columns are the
    keys of the records, each once, and "dataset_status"; the column
    "dataset_status" holds the label of each record's dataset type -
    replacing whatever the records carried under that name - and every
    other column holds the records' values, [NaN] where a record lacks
    the key. *)
Theorem get_data_frame :
  forall recs : list record,
    existsb (has_key "dataset_type") recs = true ->
    forallb classifiable (map (fun r => field "dataset_type" r) recs) = true ->
    exists data : DataFrame,
      get_data (fetch_ok recs) = Ok data /\
      length (rows data) = length recs /\
      well_formed data /\
      NoDup (columns data) /\
      (forall k, In k (columns data) <->
                 k = "dataset_status" \/ existsb (has_key k) recs = true) /\
      getitem data "dataset_status"
      = Ok (map (fun r => Str (label_of (field "dataset_type" r))) recs) /\
      (forall k, k <> "dataset_status" -> In k (columns data) ->
                 getitem data k = Ok (map (fun r => field k r) recs)).
Proof.
  intros recs Hkey Hcls.
  exists (mkFrame (data_columns recs)
                  (tabulate (data_columns recs) data_cell recs)).
  split; [apply get_data_ok; assumption|].
  split; [unfold tabulate; simpl; apply length_map|].
  split; [apply tabulate_well_formed|].
  split; [apply data_columns_NoDup|].
  split; [intro k; apply data_columns_In|].
  split.
  - rewrite getitem_data by (apply data_columns_In; left; reflexivity).
    reflexivity.
  - intros k Hk Hin. simpl in Hin. rewrite (getitem_data _ _ _ Hin).
    f_equal. apply map_ext. intro r. unfold data_cell.
    apply String.eqb_neq in Hk. rewrite Hk. reflexivity.
Qed.

Lemma get_data_frame_witness :
  existsb (has_key "dataset_type") example_records = true /\
  forallb classifiable
          (map (fun r => field "dataset_type" r) example_records) = true /\
  exists data : DataFrame,
    get_data (fetch_ok example_records) = Ok data /\
    length (rows data) = length example_records /\
    well_formed data /\
    NoDup (columns data) /\
    (forall k, In k (columns data) <->
               k = "dataset_status" \/
               existsb (has_key k) example_records = true) /\
    getitem data "dataset_status"
    = Ok (map (fun r => Str (label_of (field "dataset_type" r)))
              example_records) /\
    (forall k, k <> "dataset_status" -> In k (columns data) ->
               getitem data k = Ok (map (fun r => field k r) example_records)).
Proof.
  split; [reflexivity|]. split; [reflexivity|].
  apply (get_data_frame example_records); reflexivity.
Defined.

(** ** The filter of line 61 *)

Lemma filter_filter {A} (p : A -> bool) (l : list A) :
  filter p (filter p l) = filter p l.
Proof.
  apply filter_all. intros x Hx. apply filter_In in Hx. tauto.
Qed.

Lemma primary_rows (data : DataFrame) :
  count_label "dataset_status" (columns data) = 1 ->
  primary data
  = Ok (mkFrame (columns data)
                (filter (primary_row (columns data)) (rows data))).
Proof.
  intro Hc. unfold primary, getitem. rewrite Hc. cbn [Py.bind].
  unfold mask_rows, series_eq. rewrite map_map.
  f_equal. f_equal.
  rewrite <- (map_id_eq (rows data)) at 1.
  rewrite (mask_filter (fun row => row)), map_id_eq. reflexivity.
Qed.

Lemma primary_needs_column (data : DataFrame) (df : DataFrame) :
  primary data = Ok df -> count_label "dataset_status" (columns data) = 1.
Proof.
  unfold primary, getitem.
  destruct (count_label "dataset_status" (columns data)) as [|[|n]];
    simpl; try discriminate. reflexivity.
Qed.

(** X3. The filter of line 61 keeps the header and keeps, in their order,
    exactly the rows whose "dataset_status" is "Primary"; applied to its
    own result it changes nothing, so filtering [data] again at line 190
    yields the frame line 61 yielded. *)
Theorem primary_filter :
  forall data df : DataFrame,
    primary data = Ok df ->
    columns df = columns data /\
    rows df = filter (primary_row (columns data)) (rows data) /\
    (forall row, In row (rows df) <->
                 In row (rows data) /\ primary_row (columns data) row = true) /\
    primary df = Ok df.
Proof.
  intros data df H.
  assert (Hc := primary_needs_column data df H).
  rewrite (primary_rows data Hc) in H. injection H as <-.
  cbn [columns rows].
  split; [reflexivity|]. split; [reflexivity|].
  split; [intro row; apply filter_In|].
  rewrite primary_rows by exact Hc. cbn [columns rows].
  rewrite filter_filter. reflexivity.
Qed.

Lemma primary_filter_witness :
  primary (mkFrame ["dataset_type"; "dataset_status"]
                   [[Str "RNAseq"; Str "Primary"];
                    [Str "RNAseq[QA]"; Str "Derived"]])
  = Ok (mkFrame ["dataset_type"; "dataset_status"]
                [[Str "RNAseq"; Str "Primary"]]) /\
  primary (mkFrame ["dataset_type"; "dataset_status"]
                   [[Str "RNAseq"; Str "Primary"]])
  = Ok (mkFrame ["dataset_type"; "dataset_status"]
                [[Str "RNAseq"; Str "Primary"]]).
Proof.
  split; [reflexivity|].
  apply (primary_filter
           (mkFrame ["dataset_type"; "dataset_status"]
                    [[Str "RNAseq"; Str "Primary"];
                     [Str "RNAseq[QA]"; Str "Derived"]])
           (mkFrame ["dataset_type"; "dataset_status"]
                    [[Str "RNAseq"; Str "Primary"]])).
  reflexivity.
Defined.

(** ** get_list_of_unique_status: failures and the list it builds *)

Lemma mapM_Forall2 {A B} (f : A -> result B) (l : list A) (ys : list B) :
  mapM f l = Ok ys -> Forall2 (fun x y => f x = Ok y) l ys.
Proof.
  revert ys. induction l as [|x t IH]; simpl; intros ys H.
  - injection H as <-. constructor.
  - destruct (f x) as [y|e] eqn:E; simpl in H; [|discriminate].
    destruct (mapM f t) as [ys'|e] eqn:Et; simpl in H; [|discriminate].
    injection H as <-. constructor; [exact E | apply IH; reflexivity].
Qed.

Lemma history_statuses (h : list (list (string * string))) :
  forallb (fun d => match dict_get "status" d with
                    | Some _ => true
                    | None => false
                    end) h = false ->
  statuses_of (Hist h) = Raise (KeyError "status").
Proof.
  simpl. induction h as [|d t IH]; simpl; [discriminate|].
  destruct (dict_get "status" d) as [st|]; simpl; [|reflexivity].
  intro H. rewrite (IH H). reflexivity.
Qed.

Lemma statuses_of_readable (x : cell) :
  (readable x = true -> exists l, statuses_of x = Ok l) /\
  (readable x = false ->
   statuses_of x = Raise (KeyError "status") \/ statuses_of x = Raise TypeError).
Proof.
  destruct x as [| |s|h].
  - split; [discriminate | right; reflexivity].
  - split; [discriminate | right; reflexivity].
  - destruct s; simpl; split; try discriminate.
    + exists []. reflexivity.
    + right. reflexivity.
  - split.
    + apply statuses_of_history.
    + intro H. left. apply history_statuses. exact H.
Qed.

Lemma all_statuses_readable (col : list cell) :
  (forallb readable col = true -> exists ls, mapM statuses_of col = Ok ls) /\
  (forallb readable col = false ->
   mapM statuses_of col = Raise (KeyError "status") \/
   mapM statuses_of col = Raise TypeError).
Proof.
  induction col as [|x t [IHok IHbad]]; simpl.
  - split; [exists []; reflexivity | discriminate].
  - destruct (statuses_of_readable x) as [Hok Hbad].
    destruct (readable x) eqn:R; simpl.
    + destruct (Hok eq_refl) as [l E]. rewrite E. simpl. split.
      * intro Ht. destruct (IHok Ht) as [ls Es]. rewrite Es.
        exists (l :: ls). reflexivity.
      * intro Ht. destruct (IHbad Ht) as [Es | Es]; rewrite Es; auto.
    + split; [discriminate|]. intros _.
      destruct (Hbad eq_refl) as [E | E]; rewrite E; auto.
Qed.

(** X4. [get_list_of_unique_status] fails with [KeyError] on a frame
    without a "status_history" column.  With the column, it returns
    (always [None]) when every cell is a list of entries that each have a
    "status" - or an empty string - and otherwise it raises: a [KeyError]
    for an entry without "status", a [TypeError] for a cell that is a
    missing value, [None] or a non-empty string. *)
Theorem get_list_of_unique_status_failures :
  forall df : DataFrame,
    (count_label "status_history" (columns df) = 0 ->
     get_list_of_unique_status df = Raise (KeyError "status_history")) /\
    (forall col,
        getitem df "status_history" = Ok col ->
        (forallb readable col = true ->
         get_list_of_unique_status df = Ok PyNone) /\
        (forallb readable col = false ->
         get_list_of_unique_status df = Raise (KeyError "status") \/
         get_list_of_unique_status df = Raise TypeError)).
Proof.
  intro df. split.
  - intro H. unfold get_list_of_unique_status, get_list_of_unique_status_run,
               getitem. rewrite H. reflexivity.
  - intros col Hcol.
    unfold get_list_of_unique_status, get_list_of_unique_status_run.
    rewrite Hcol. cbn [Py.bind].
    destruct (all_statuses_readable col) as [Hok Hbad]. split; intro H.
    + destruct (Hok H) as [ls E]. rewrite E. reflexivity.
    + destruct (Hbad H) as [E | E]; rewrite E; auto.
Qed.

Lemma statuses_of_In (x : cell) (l : list string) (s : string) :
  statuses_of x = Ok l ->
  (In s l <-> exists h d, x = Hist h /\ In d h /\ dict_get "status" d = Some s).
Proof.
  destruct x as [| |str|h]; simpl; try discriminate.
  - destruct str; [|discriminate]. intro H. injection H as <-.
    split; [contradiction|]. intros [h [d [E _]]]. discriminate.
  - intro H. apply mapM_Forall2 in H.
    split.
    + intro Hin. exists h. revert Hin.
      induction H as [|d y t ys Hd Ht IH]; simpl; [contradiction|].
      intros [<- | Hin].
      * exists d. split; [reflexivity|]. split; [left; reflexivity|].
        destruct (dict_get "status" d); congruence.
      * destruct (IH Hin) as [d' [_ [Hd' Hs]]].
        exists d'. split; [reflexivity|]. split; [right; exact Hd' | exact Hs].
    + intros [h' [d [E [Hd Hs]]]]. injection E as <-.
      induction H as [|d0 y t ys Hd0 Ht IH]; simpl in *; [contradiction|].
      destruct Hd as [-> | Hd].
      * left. rewrite Hs in Hd0. congruence.
      * right. apply IH. exact Hd.
Qed.

(** X5. On a frame whose "status_history" cells can all be read, the list
    the helper has built when it returns starts with "HuBMAP ID" and then
    holds, each exactly once, the statuses that occur in some entry of
    some history - the list a caller would expect to receive. *)
Theorem get_list_of_unique_status_list :
  forall (df : DataFrame) (col : list cell),
    getitem df "status_history" = Ok col ->
    forallb readable col = true ->
    exists statuses : list string,
      get_list_of_unique_status_run df
      = Ok ("HuBMAP ID" :: statuses, PyNone) /\
      NoDup statuses /\
      (forall s, In s statuses <->
                 exists h d, In (Hist h) col /\ In d h /\
                             dict_get "status" d = Some s).
Proof.
  intros df col Hcol Hr.
  destruct (proj1 (all_statuses_readable col) Hr) as [ls E].
  exists (uniq (concat ls)).
  split.
  - unfold get_list_of_unique_status_run. rewrite Hcol. cbn [Py.bind].
    rewrite E. reflexivity.
  - split; [apply uniq_NoDup|].
    intro s. rewrite uniq_In, in_concat.
    apply mapM_Forall2 in E. split.
    + intros [l [Hl Hs]].
      clear Hcol Hr. induction E as [|x y t ys Hx Ht IH];
        simpl in *; [contradiction|].
      destruct Hl as [<- | Hl].
      * destruct (proj1 (statuses_of_In x y s Hx) Hs) as [h [d [-> [Hd Hst]]]].
        exists h, d. auto.
      * destruct (IH Hl) as [h [d [Hh [Hd Hst]]]].
        exists h, d. auto.
    + intros [h [d [Hh [Hd Hst]]]].
      clear Hcol Hr. induction E as [|x y t ys Hx Ht IH];
        simpl in *; [contradiction|].
      destruct Hh as [-> | Hh].
      * exists y. split; [left; reflexivity|].
        apply (statuses_of_In (Hist h) y s Hx). exists h, d. auto.
      * destruct (IH Hh) as [l [Hl Hs]]. exists l. auto.
Qed.

Lemma get_list_of_unique_status_list_witness :
  getitem (mkFrame ["hubmap_id"; "status_history"]
             [[Str "HBM1"; Hist [[("status", "New")]; [("status", "QA")]]];
              [Str "HBM2"; Hist [[("status", "New")]]]]) "status_history"
  = Ok [Hist [[("status", "New")]; [("status", "QA")]];
        Hist [[("status", "New")]]] /\
  forallb readable [Hist [[("status", "New")]; [("status", "QA")]];
                    Hist [[("status", "New")]]] = true /\
  exists statuses : list string,
    get_list_of_unique_status_run
      (mkFrame ["hubmap_id"; "status_history"]
         [[Str "HBM1"; Hist [[("status", "New")]; [("status", "QA")]]];
          [Str "HBM2"; Hist [[("status", "New")]]]])
    = Ok ("HuBMAP ID" :: statuses, PyNone) /\
    NoDup statuses /\
    (forall s, In s statuses <->
               exists h d,
                 In (Hist h) [Hist [[("status", "New")]; [("status", "QA")]];
                              Hist [[("status", "New")]]] /\
                 In d h /\ dict_get "status" d = Some s).
Proof.
  split; [reflexivity|]. split; [reflexivity|].
  apply (get_list_of_unique_status_list
           (mkFrame ["hubmap_id"; "status_history"]
              [[Str "HBM1"; Hist [[("status", "New")]; [("status", "QA")]]];
               [Str "HBM2"; Hist [[("status", "New")]]]]));
    reflexivity.
Defined.

(** ** The renamings *)

Lemma names_3_elsewhere (c : string) :
  c <> "dataset_type" -> c <> "group_name" -> c <> "status" ->
  rename_label names_3 c = c.
Proof. intros H1 H2 H3. label_cases c; congruence. Qed.

(** X6. The three [rename] calls compose into the last one: repeating
    the renaming of lines 80-82 at line 108 changes nothing, and after
    lines 144-151 the frame is the filtered frame with "dataset_type",
    "group_name" and "status" relabelled, every other label and every row
    left as it was. *)
Theorem renames_compose :
  forall df : DataFrame,
    rename names_1 (rename names_1 df) = rename names_1 df /\
    rename names_3 (rename names_1 (rename names_1 df)) = rename names_3 df /\
    rows (rename names_3 df) = rows df /\
    length (columns (rename names_3 df)) = length (columns df) /\
    (forall c, c <> "dataset_type" -> c <> "group_name" -> c <> "status" ->
               rename_label names_3 c = c).
Proof.
  intro df.
  split; [apply rename_1_1|].
  split; [rewrite rename_1_1; apply rename_3_1|].
  split; [reflexivity|].
  split; [apply length_map | exact names_3_elsewhere].
Qed.

(** ** Records without a group name *)

Lemma the_column_missing (R : string -> string) name cols :
  (forall c, In c cols -> R c <> name) ->
  the_column R name cols = Raise (KeyError name).
Proof.
  intro H. unfold the_column. rewrite filter_none; [reflexivity|].
  intros c Hc. apply String.eqb_neq. apply H. exact Hc.
Qed.

Lemma has_label_missing (R : string -> string) name cols :
  (forall c, In c cols -> R c <> name) -> has_label name (map R cols) = false.
Proof.
  intro H. apply existsb_label_false. rewrite in_map_iff.
  intros [c [E Hc]]. exact (H c Hc E).
Qed.

(** X7. When the fetched records can be classified but none of them has
    a "group_name" (nor a "Group Name") key, the first aggregation fails
    and the script ends on an uncaught exception: a [KeyError] for
    "Group Name" - except when exactly two records are primary, where
    [groupby] takes its two keys for the group values of the two rows and
    [unstack] raises a [ValueError]. *)
Theorem report_without_group_name :
  forall (sorter : RowSort) (recs : list record),
    existsb (has_key "dataset_type") recs = true ->
    forallb classifiable (map (fun r => field "dataset_type" r) recs) = true ->
    existsb (has_key "group_name") recs = false ->
    existsb (has_key "Group Name") recs = false ->
    report (fetch_ok recs)
    = if Nat.eqb (length (filter is_primary recs)) 2
      then Raise ValueError
      else Raise (KeyError "Group Name").
Proof.
  intros sorter recs Hkey Hcls Hg HG.
  assert (Hno : forall c, In c (data_columns recs) ->
                          rename_label names_1 c <> "Group Name").
  { intros c Hc E. apply data_columns_In in Hc.
    destruct (names_1_group_name_inv c E) as [-> | ->];
      destruct Hc as [Hc | Hc]; try discriminate; congruence. }
  rewrite report_by_views, filtered_cases, Hkey, Hcls. cbn [Py.bind].
  unfold view_group_by_type. cbn [snd]. unfold rename. cbn [columns rows].
  rewrite groupby_tabulate, (has_label_missing _ _ _ Hno).
  cbn [andb negb]. rewrite andb_true_r.
  destruct (Nat.eqb (length (filter is_primary recs)) 2); [reflexivity|].
  rewrite the_column_missing by exact Hno. reflexivity.
Qed.

Lemma report_without_group_name_witness :
  (existsb (has_key "dataset_type")
           [[("dataset_type", Str "RNAseq"); ("status", Str "New")]] = true /\
   @report stable_sort
     (fetch_ok [[("dataset_type", Str "RNAseq"); ("status", Str "New")]])
   = Raise (KeyError "Group Name")) /\
  (existsb (has_key "dataset_type")
           [[("dataset_type", Str "RNAseq"); ("status", Str "New")];
            [("dataset_type", Str "ATAC"); ("status", Str "New")]] = true /\
   @report stable_sort
     (fetch_ok [[("dataset_type", Str "RNAseq"); ("status", Str "New")];
                [("dataset_type", Str "ATAC"); ("status", Str "New")]])
   = Raise ValueError).
Proof.
  split.
  - split; [reflexivity|].
    apply (report_without_group_name stable_sort
             [[("dataset_type", Str "RNAseq"); ("status", Str "New")]]);
      reflexivity.
  - split; [reflexivity|].
    apply (report_without_group_name stable_sort
             [[("dataset_type", Str "RNAseq"); ("status", Str "New")];
              [("dataset_type", Str "ATAC"); ("status", Str "New")]]);
      reflexivity.
Defined.

(** ** Records that are all derived *)

Lemma sort_desc_nil {sorter : RowSort} key : sort_desc key [] = [].
Proof.
  apply Permutation_nil. symmetry. apply sort_desc_perm.
Qed.

Lemma ranked_empty {sorter : RowSort} : ranked (mkTable [] []) = mkTable [] [].
Proof.
  unfold ranked, rank_by_total, sort_values_desc, set_column, row_sums.
  cbn [trows tcolumns map combine existsb app].
  rewrite sort_desc_nil. reflexivity.
Qed.

(** X8. When every fetched dataset record is derived, the filtered frame
    has its columns and no row, and each view builds a table with no row
    and no column: the report goes on with three empty tables. *)
Theorem report_all_derived :
  forall (sorter : RowSort) (recs : list record),
    recs <> [] ->
    forallb dataset_record recs = true ->
    filter is_primary recs = [] ->
    pivots (fetch_ok recs) = Ok (mkTable [] [], mkTable [] [], mkTable [] []) /\
    report (fetch_ok recs) = Ok (mkTable [] [], mkTable [] [], mkTable [] []).
Proof.
  intros sorter recs Hne Hshape Hnone.
  rewrite (shape_pivots recs Hne Hshape), (shape_report recs Hne Hshape).
  unfold groups. rewrite Hnone. cbn [map].
  change (unstack_counts []) with (mkTable [] []).
  rewrite ranked_empty. split; reflexivity.
Qed.

Lemma report_all_derived_witness :
  [dataset "RNAseq[QA]" "TMC" "New"] <> [] /\
  forallb dataset_record [dataset "RNAseq[QA]" "TMC" "New"] = true /\
  filter is_primary [dataset "RNAseq[QA]" "TMC" "New"] = [] /\
  pivots (fetch_ok [dataset "RNAseq[QA]" "TMC" "New"])
  = Ok (mkTable [] [], mkTable [] [], mkTable [] []) /\
  @report stable_sort (fetch_ok [dataset "RNAseq[QA]" "TMC" "New"])
  = Ok (mkTable [] [], mkTable [] [], mkTable [] []).
Proof.
  split; [discriminate|]. split; [reflexivity|]. split; [reflexivity|].
  apply (report_all_derived stable_sort [dataset "RNAseq[QA]" "TMC" "New"]);
    [discriminate | reflexivity | reflexivity].
Defined.

(** ** Lines 88-90 on any table *)

(** X9. Whatever the pivot, adding "Total", sorting on it and dropping it
    keeps every row label and every column not labelled "Total", and
    leaves no column labelled "Total": a dataset type (or a status) that
    is itself called "Total" never reaches the chart. *)
Theorem rank_by_total_drops_Total :
  forall (sorter : RowSort) (t : Table),
    ~ In "Total" (tcolumns (rank_by_total t)) /\
    (forall c, c <> "Total" ->
               (In c (tcolumns (rank_by_total t)) <-> In c (tcolumns t))) /\
    Permutation (index (rank_by_total t)) (index t).
Proof.
  intros sorter t.
  rewrite rank_by_total_columns.
  split; [|split].
  - rewrite filter_In, negb_true_iff, String.eqb_neq. tauto.
  - intros c Hc. rewrite filter_In, negb_true_iff, String.eqb_neq. tauto.
  - unfold index, rank_by_total, drop_columns, sort_values_desc, set_column.
    cbn [trows tcolumns]. rewrite map_map. cbn [fst].
    rewrite (Permutation_map fst (sort_desc_perm _ _)).
    unfold row_sums. rewrite combine_map_r, !map_map. cbn [fst].
    reflexivity.
Qed.

(** ** Ordering the columns *)

Lemma find_relabelled (g : string * list Z -> list Z) (r : string)
      (rws : list (string * list Z)) :
  find (fun row => fst row =? r) (map (fun row => (fst row, g row)) rws)
  = option_map (fun row => (fst row, g row))
               (find (fun row => fst row =? r) rws).
Proof.
  induction rws as [|row t IH]; simpl; [reflexivity|].
  destruct (fst row =? r); [reflexivity | exact IH].
Qed.

Lemma existsb_sort_labels (c : string) (cols : list string) :
  existsb (fun x => x =? c) (sort_labels cols)
  = existsb (fun x => x =? c) cols.
Proof.
  destruct (existsb (fun x => x =? c) cols) eqn:E.
  - apply existsb_label, sort_labels_In, existsb_label. exact E.
  - apply existsb_label_false. rewrite sort_labels_In. intro H.
    apply existsb_label in H. congruence.
Qed.

(** X10. [sort_index(axis=1)] on a table with distinct column labels puts
    the columns in ascending order and moves each cell with its column:
    the rows keep their order and every cell, looked up by row and column
    label, is what it was. *)
Theorem sort_index_columns_keeps_cells :
  forall t : Table,
    NoDup (tcolumns t) ->
    columns_ascending (sort_index_columns t) /\
    index (sort_index_columns t) = index t /\
    (forall r c, lookup_cell (sort_index_columns t) r c = lookup_cell t r c).
Proof.
  intros t Hnd.
  split; [apply sort_index_columns_sorted; exact Hnd|].
  split; [apply sort_index_columns_index|].
  intros r c. unfold lookup_cell, sort_index_columns. cbn [trows tcolumns].
  rewrite find_relabelled.
  destruct (find (fun row => fst row =? r) (trows t)) as [row|];
    [|reflexivity].
  cbn [option_map snd]. rewrite existsb_sort_labels.
  destruct (existsb (fun x => x =? c) (tcolumns t)) eqn:E; [|reflexivity].
  f_equal. apply cell_at_tabulated.
  - apply sort_labels_NoDup. exact Hnd.
  - apply sort_labels_In, existsb_label. exact E.
Qed.

Lemma sort_index_columns_keeps_cells_witness :
  NoDup ["TMC"; "CODCC"] /\
  sort_index_columns (mkTable ["TMC"; "CODCC"] [("RNAseq", [2%Z; 1%Z])])
  = mkTable ["CODCC"; "TMC"] [("RNAseq", [1%Z; 2%Z])] /\
  forall r c,
    lookup_cell (sort_index_columns
                   (mkTable ["TMC"; "CODCC"] [("RNAseq", [2%Z; 1%Z])])) r c
    = lookup_cell (mkTable ["TMC"; "CODCC"] [("RNAseq", [2%Z; 1%Z])]) r c.
Proof.
  assert (H : NoDup ["TMC"; "CODCC"]).
  { constructor; [simpl; intros [E | []]; discriminate|].
    constructor; [simpl; tauto | constructor]. }
  split; [exact H|]. split; [reflexivity|].
  apply (sort_index_columns_keeps_cells
           (mkTable ["TMC"; "CODCC"] [("RNAseq", [2%Z; 1%Z])]) H).
Defined.

(** ** The totals the rows are ranked on *)

Lemma row_sum_marginal (r : string) (cl : list string)
      (pairs : list (string * string)) :
  NoDup cl ->
  (forall p, In p pairs -> In (snd p) cl) ->
  sum_cells (map (fun c => count_pair r c pairs) cl)
  = Z.of_nat (length (filter (fun p => fst p =? r) pairs)).
Proof.
  intros Hc. induction pairs as [|p ps IH]; intros Hin.
  - apply (sum_cells_zero cl).
  - rewrite (sum_cells_ext _
               (fun c => ((if ((fst p =? r) && (snd p =? c))%string
                           then 1 else 0)
                          + count_pair r c ps)%Z))
      by (intros; apply count_pair_cons).
    rewrite sum_cells_plus, IH by (intros q Hq; apply Hin; right; exact Hq).
    simpl filter. destruct (fst p =? r); simpl andb.
    + rewrite sum_indicator; [|exact Hc | apply Hin; left; reflexivity].
      simpl length. lia.
    + rewrite sum_cells_zero. reflexivity.
Qed.

Lemma unstack_counts_row_total (rk ck r : string) (input : list record) :
  In r (index (unstack_counts (map (fun x => (text rk x, text ck x)) input))) ->
  row_total (unstack_counts (map (fun x => (text rk x, text ck x)) input)) r
  = Some (Z.of_nat (length (filter (fun x => text rk x =? r) input))).
Proof.
  rewrite unstack_counts_index. intro Hr.
  unfold row_total, unstack_counts. cbn [trows].
  rewrite (find_row _ r _ Hr). cbn [option_map snd]. f_equal.
  rewrite row_sum_marginal.
  - rewrite filter_map_comm, length_map. reflexivity.
  - apply sort_labels_NoDup, uniq_NoDup.
  - intros p Hp. rewrite sort_labels_In, uniq_In. apply in_map. exact Hp.
Qed.

(** X11. For dataset records, the sum of a row of a pivot - the "Total"
    of line 88 and of line 157, on which the rows are ranked - is the
    number of primary records that have the row's value: the primary
    datasets of that group in the first pivot, of that dataset type in
    the other two. *)
Theorem row_totals_count_records :
  forall recs : list record,
    recs <> [] ->
    forallb dataset_record recs = true ->
    exists p1 p2 p3 : Table,
      pivots (fetch_ok recs) = Ok (p1, p2, p3) /\
      (forall r, In r (index p1) ->
         row_total p1 r
         = Some (Z.of_nat (length (filter (fun x => text "group_name" x =? r)
                                          (filter is_primary recs))))) /\
      (forall r, In r (index p2) ->
         row_total p2 r
         = Some (Z.of_nat (length (filter (fun x => text "dataset_type" x =? r)
                                          (filter is_primary recs))))) /\
      (forall r, In r (index p3) ->
         row_total p3 r
         = Some (Z.of_nat (length (filter (fun x => text "dataset_type" x =? r)
                                          (filter is_primary recs))))).
Proof.
  intros recs Hne Hshape.
  eexists _, _, _. split; [apply shape_pivots; assumption|].
  unfold groups.
  split; [|split]; intros r Hr; apply unstack_counts_row_total; exact Hr.
Qed.

Lemma row_totals_count_records_witness :
  example_records <> [] /\
  forallb dataset_record example_records = true /\
  exists p1 p2 p3 : Table,
    pivots (fetch_ok example_records) = Ok (p1, p2, p3) /\
    (forall r, In r (index p1) ->
       row_total p1 r
       = Some (Z.of_nat (length (filter (fun x => text "group_name" x =? r)
                                        (filter is_primary example_records))))) /\
    (forall r, In r (index p2) ->
       row_total p2 r
       = Some (Z.of_nat (length (filter (fun x => text "dataset_type" x =? r)
                                        (filter is_primary example_records))))) /\
    (forall r, In r (index p3) ->
       row_total p3 r
       = Some (Z.of_nat (length (filter (fun x => text "dataset_type" x =? r)
                                        (filter is_primary example_records))))).
Proof.
  split; [discriminate|]. split; [reflexivity|].
  apply (row_totals_count_records example_records);
    [discriminate | reflexivity].
Defined.

(** ** The last block of the script *)

Lemma combine_repeat {A B} (l : list A) (v : B) :
  combine l (repeat v (length l)) = map (fun x => (x, v)) l.
Proof. induction l; simpl; congruence. Qed.

Lemma select_overwrite {C} (name : string) (v : C) (cols : list string)
      (row : list C) :
  length row = length cols ->
  select name cols
         (map (fun p => if fst p =? name then v else snd p) (combine cols row))
  = repeat v (count_label name cols).
Proof.
  unfold select, count_label. revert row.
  induction cols as [|a t IH]; intros [|x row] H; simpl in *;
    try discriminate; [reflexivity|].
  destruct (a =? name); simpl; [f_equal|]; apply IH; lia.
Qed.

Lemma select_appended {C} (name : string) (v : C) (cols : list string)
      (row : list C) :
  length row = length cols -> ~ In name cols ->
  select name (cols ++ [name]) (row ++ [v]) = [v].
Proof.
  intros Hlen Hn. unfold select.
  rewrite combine_append by (symmetry; exact Hlen).
  rewrite filter_app, filter_none.
  - simpl. rewrite String.eqb_refl. reflexivity.
  - intros p Hp. apply String.eqb_neq. intro E.
    apply Hn. rewrite <- E. eapply fst_in_combine. exact Hp.
Qed.

Lemma count_label_positive (name : string) (cols : list string) :
  existsb (fun c => c =? name) cols = true ->
  exists n, count_label name cols = S n.
Proof.
  unfold count_label. induction cols as [|a t IH]; simpl; [discriminate|].
  destruct (a =? name); simpl; [intros _; eexists; reflexivity | exact IH].
Qed.

(** The cells a row has under [name] once [df[name] = v] has run. *)
Lemma select_set_in_row {C} (name : string) (v : C) (cols : list string)
      (row : list C) :
  length row = length cols ->
  exists n,
    select name
           (if existsb (fun c => c =? name) cols then cols else cols ++ [name])
           (set_in_row name cols row v)
    = repeat v (S n).
Proof.
  intro Hlen. unfold set_in_row.
  destruct (existsb (fun c => c =? name) cols) eqn:E.
  - destruct (count_label_positive name cols E) as [n Hn].
    exists n. rewrite select_overwrite by exact Hlen. rewrite Hn. reflexivity.
  - exists 0. apply select_appended; [exact Hlen|].
    intro H. apply existsb_label in H. congruence.
Qed.

Lemma get_data_well_formed (net : fetched) (data : DataFrame) :
  get_data net = Ok data -> well_formed data.
Proof.
  assert (Hempty : well_formed empty_frame) by constructor.
  assert (Hrecs : forall recs, get_data (fetch_ok recs) = Ok data ->
                               well_formed data).
  { intros recs. rewrite get_data_cases.
    destruct (existsb (has_key "dataset_type") recs);
      [|intro H; injection H as <-; exact Hempty].
    destruct (forallb classifiable _); [|discriminate].
    intro H. injection H as <-. apply tabulate_well_formed. }
  destruct net as [|r].
  - intro H. injection H as <-. exact Hempty.
  - rewrite get_data_got.
    destruct ((400 <=? status_code r) && (status_code r <? 600))%Z;
      [intro H; injection H as <-; exact Hempty|].
    destruct (json r) as [j|]; [|intro H; injection H as <-; exact Hempty].
    destruct (dict_get "data" j) as [recs|];
      [apply Hrecs | intro H; injection H as <-; exact Hempty].
Qed.

Lemma primary_well_formed (data df : DataFrame) :
  primary data = Ok df -> well_formed data -> well_formed df.
Proof.
  intros H Hw.
  assert (Hc := primary_needs_column data df H).
  rewrite (primary_rows data Hc) in H. injection H as <-.
  unfold well_formed in *. cbn [columns rows].
  rewrite Forall_forall in *. intros row Hrow.
  apply filter_In in Hrow. apply Hw. tauto.
Qed.

(** Lines 190-203 on a frame that line 61 accepts. *)
Lemma status_change_spec (data df : DataFrame) :
  primary data = Ok df -> well_formed data ->
  exists d,
    status_change data = Ok d /\
    length (rows d) = length (rows df) /\
    In "Status Change" (columns d) /\
    Forall (fun row => exists n,
                select "Status Change" (columns d) row = repeat Null (S n))
           (rows d).
Proof.
  intros H Hw. assert (Hwf := primary_well_formed data df H Hw).
  unfold status_change. rewrite H. cbn [Py.bind].
  unfold setitem, rename. cbn [columns rows].
  rewrite repeat_length, Nat.eqb_refl.
  eexists. split; [reflexivity|]. cbn [columns rows].
  rewrite combine_repeat, map_map. cbn [fst snd].
  split; [apply length_map|]. split.
  - destruct (existsb (fun c => c =? "Status Change")
                      (map (rename_label names_4) (columns df))) eqn:E.
    + apply existsb_label. exact E.
    + apply in_or_app. right. left. reflexivity.
  - apply Forall_forall. intros row Hrow.
    apply in_map_iff in Hrow. destruct Hrow as [row0 [<- Hrow0]].
    apply select_set_in_row. rewrite length_map.
    unfold well_formed in Hwf. rewrite Forall_forall in Hwf.
    apply Hwf. exact Hrow0.
Qed.


Lemma script_on_example :
  @script stable_sort (fetch_ok example_records)
  = Ok (mkTable ["RNAseq"] [("CODCC", [1%Z]); ("TMC", [1%Z])],
        mkTable ["CODCC"; "TMC"] [("RNAseq", [1%Z; 1%Z])],
        mkTable ["Published"] [("RNAseq", [2%Z])],
        mkFrame ["Dataset Type"; "Group Name"; "status"; "dataset_status";
                 "Status Change"]
                [[Str "RNAseq"; Str "TMC"; Str "Published"; Str "Primary";
                  Null];
                 [Str "RNAseq"; Str "CODCC"; Str "Published"; Str "Primary";
                  Null]]).
Proof. vm_compute. reflexivity. Qed.

(** ** No empty bar *)

Lemma matching_positive (rk ck : string) (x : record) (input : list record) :
  In x input -> (1 <= matching rk ck (text rk x) (text ck x) input)%Z.
Proof.
  intro Hin. unfold matching.
  assert (Hx : In x (filter (fun y => (text rk y =? text rk x)
                                      && (text ck y =? text ck x)) input)).
  { apply filter_In. split; [exact Hin|]. rewrite !String.eqb_refl. reflexivity. }
  destruct (filter _ input); [contradiction | simpl length; lia].
Qed.

Lemma exact_counts_no_empty_line (t : Table) (rk ck : string)
      (input : list record) :
  exact_counts t rk ck input ->
  (forall r, In r (index t) ->
     exists c n, In c (tcolumns t) /\
                 lookup_cell t r c = Some n /\ (1 <= n)%Z) /\
  (forall c, In c (tcolumns t) ->
     exists r n, In r (index t) /\
                 lookup_cell t r c = Some n /\ (1 <= n)%Z).
Proof.
  intros [_ [_ [_ [Hr [Hc Hcell]]]]]. split.
  - intros r Hin. destruct (proj1 (Hr r) Hin) as [x [Hx <-]].
    assert (Hcol : In (text ck x) (tcolumns t))
      by (apply Hc; exists x; auto).
    exists (text ck x), (matching rk ck (text rk x) (text ck x) input).
    split; [exact Hcol|]. split; [apply Hcell; assumption|].
    apply matching_positive. exact Hx.
  - intros c Hin. destruct (proj1 (Hc c) Hin) as [x [Hx <-]].
    assert (Hrow : In (text rk x) (index t))
      by (apply Hr; exists x; auto).
    exists (text rk x), (matching rk ck (text rk x) (text ck x) input).
    split; [exact Hrow|]. split; [apply Hcell; assumption|].
    apply matching_positive. exact Hx.
Qed.

Lemma pivot_cells_exact (recs : list record) :
  recs <> [] ->
  forallb dataset_record recs = true ->
  exists p1 p2 p3 : Table,
    pivots (fetch_ok recs) = Ok (p1, p2, p3) /\
    exact_counts p1 "group_name" "dataset_type" (filter is_primary recs) /\
    exact_counts p2 "dataset_type" "group_name" (filter is_primary recs) /\
    exact_counts p3 "dataset_type" "status" (filter is_primary recs).
Proof.
  intros Hne Hshape.
  eexists _, _, _. split; [apply shape_pivots; assumption|].
  unfold groups.
  split; [apply unstack_counts_exact|].
  split; apply unstack_counts_exact.
Qed.

(** X13. For dataset records, no pivot has a row or a column of zeros:
    every row label has a column under which it counts at least one
    primary record, and every column label a row - the fill value 0 only
    ever fills combinations, never a whole bar or a whole series. *)
Theorem pivots_have_no_empty_line :
  forall recs : list record,
    recs <> [] ->
    forallb dataset_record recs = true ->
    exists p1 p2 p3 : Table,
      pivots (fetch_ok recs) = Ok (p1, p2, p3) /\
      no_empty_line p1 /\ no_empty_line p2 /\ no_empty_line p3.
Proof.
  intros recs Hne Hshape.
  destruct (pivot_cells_exact recs Hne Hshape)
    as [p1 [p2 [p3 [E [H1 [H2 H3]]]]]].
  exists p1, p2, p3. split; [exact E|].
  split; [|split]; eapply exact_counts_no_empty_line; eassumption.
Qed.

Lemma pivots_have_no_empty_line_witness :
  example_records <> [] /\
  forallb dataset_record example_records = true /\
  exists p1 p2 p3 : Table,
    pivots (fetch_ok example_records) = Ok (p1, p2, p3) /\
    no_empty_line p1 /\ no_empty_line p2 /\ no_empty_line p3.
Proof.
  split; [discriminate|]. split; [reflexivity|].
  apply (pivots_have_no_empty_line example_records);
    [discriminate | reflexivity].
Defined.

(* ================================================================== *)
(** * The tables of the report, for any fetched records *)

(** ** The groups against the records *)

Lemma observed_In (keys : list (cell * cell)) (r c : string) :
  In (r, c) (observed keys) <-> In (Str r, Str c) keys.
Proof.
  unfold observed. rewrite in_flat_map. split.
  - intros [[x y] [Hin H]].
    destruct x as [| |a|h]; try contradiction.
    destruct y as [| |b|h']; try contradiction.
    destruct H as [E | []]. injection E as -> ->. exact Hin.
  - intro Hin. exists (Str r, Str c). split; [exact Hin | left; reflexivity].
Qed.

Lemma observed_count (keys : list (cell * cell)) (r c : string) :
  count_pair r c (observed keys) = pair_count r c keys.
Proof.
  unfold count_pair, pair_count. f_equal.
  induction keys as [|[x y] t IH]; [reflexivity|]. simpl.
  destruct x as [| |a|h]; try exact IH.
  destruct y as [| |b|h']; simpl; try rewrite andb_false_r; try exact IH.
  destruct ((a =? r) && (b =? c)); simpl; rewrite IH; reflexivity.
Qed.

Lemma observed_length (keys : list (cell * cell)) :
  length (observed keys) = length (filter both_text keys).
Proof.
  unfold both_text.
  induction keys as [|[x y] t IH]; [reflexivity|]. simpl.
  destruct x as [| |a|h]; try exact IH.
  destruct y as [| |b|h']; simpl; try exact IH.
  rewrite IH. reflexivity.
Qed.

Lemma observed_kept (keys : list (cell * cell)) :
  length (filter (fun p => negb (snd p =? "Total")) (observed keys))
  = length (filter kept_pair keys).
Proof.
  unfold kept_pair, both_text.
  induction keys as [|[x y] t IH]; [reflexivity|]. simpl.
  destruct x as [| |a|h]; try exact IH.
  destruct y as [| |b|h']; simpl; try exact IH.
  destruct (b =? "Total"); simpl; rewrite IH; reflexivity.
Qed.

Lemma observed_row_count (keys : list (cell * cell)) (r : string) :
  Z.of_nat (length (filter (fun p => fst p =? r) (observed keys)))
  = row_count r keys.
Proof.
  unfold row_count. f_equal.
  induction keys as [|[x y] t IH]; [reflexivity|]. simpl.
  destruct x as [| |a|h]; try exact IH.
  destruct y as [| |b|h']; simpl; try rewrite andb_false_r; try exact IH.
  rewrite andb_true_r.
  destruct (a =? r); simpl; rewrite IH; reflexivity.
Qed.

(** ** Summing a row of the grid *)

Lemma row_sum (cl : list string) (r : string)
      (pairs : list (string * string)) :
  NoDup cl ->
  (forall p, In p pairs -> In (snd p) cl) ->
  sum_cells (map (fun c => count_pair r c pairs) cl)
  = Z.of_nat (length (filter (fun p => fst p =? r) pairs)).
Proof.
  intros Hc. induction pairs as [|p ps IH]; intros Hin.
  - apply (sum_cells_zero cl).
  - rewrite (sum_cells_ext _
               (fun c => ((if ((fst p =? r) && (snd p =? c))%string
                           then 1 else 0)
                          + count_pair r c ps)%Z))
      by (intros; apply count_pair_cons).
    rewrite sum_cells_plus.
    rewrite IH by (intros q Hq; apply Hin; right; exact Hq).
    simpl filter. destruct (fst p =? r); simpl andb.
    + rewrite sum_indicator; [|exact Hc | apply Hin; left; reflexivity].
      simpl length. lia.
    + rewrite sum_cells_zero. lia.
Qed.

Lemma count_pair_kept (r c : string) (pairs : list (string * string)) :
  c <> "Total" ->
  count_pair r c (filter (fun p => negb (snd p =? "Total")) pairs)
  = count_pair r c pairs.
Proof.
  intro Hc. unfold count_pair. f_equal. f_equal.
  induction pairs as [|p ps IH]; [reflexivity|]. simpl.
  destruct (String.eqb_spec (snd p) "Total") as [E | _]; simpl.
  - rewrite IH.
    destruct (String.eqb_spec (snd p) c) as [E' | _]; [congruence|].
    rewrite andb_false_r. reflexivity.
  - rewrite IH. reflexivity.
Qed.

(** ** Rows found by their label *)

Lemma find_label_unique {B} (l : list (string * B)) (x : string * B) :
  NoDup (map fst l) -> In x l ->
  find (fun row => fst row =? fst x) l = Some x.
Proof.
  induction l as [|a t IH]; simpl; [tauto|].
  intros Hnd Hin. inversion Hnd as [|? ? Hnin Hnd']; subst.
  destruct Hin as [-> | Hin].
  - rewrite String.eqb_refl. reflexivity.
  - destruct (String.eqb_spec (fst a) (fst x)) as [E | _].
    + exfalso. apply Hnin. rewrite E. apply in_map. exact Hin.
    + apply IH; assumption.
Qed.

Lemma find_label_none {B} (l : list (string * B)) (r : string) :
  ~ In r (map fst l) -> find (fun row => fst row =? r) l = None.
Proof.
  induction l as [|a t IH]; simpl; [reflexivity|].
  intro H. destruct (String.eqb_spec (fst a) r) as [E | _]; [tauto|].
  apply IH. tauto.
Qed.

Lemma find_label_perm {B} (l l' : list (string * B)) (r : string) :
  Permutation l l' -> NoDup (map fst l) ->
  find (fun row => fst row =? r) l' = find (fun row => fst row =? r) l.
Proof.
  intros P Hnd.
  assert (Hnd' : NoDup (map fst l'))
    by (eapply Permutation_NoDup; [apply Permutation_map; exact P | exact Hnd]).
  destruct (in_dec string_dec r (map fst l)) as [Hin | Hnin].
  - apply in_map_iff in Hin. destruct Hin as [x [<- Hx]].
    rewrite (find_label_unique l x Hnd Hx).
    apply find_label_unique; [exact Hnd'|].
    apply (Permutation_in _ P). exact Hx.
  - rewrite (find_label_none l r Hnin). apply find_label_none.
    intro H. apply Hnin.
    apply (Permutation_in _ (Permutation_map fst (Permutation_sym P))).
    exact H.
Qed.

Lemma row_total_of_row (p : Table) (row : string * list Z) :
  NoDup (index p) -> In row (trows p) ->
  pivot_total p (fst row) = sum_cells (snd row).
Proof.
  intros Hnd Hin. unfold pivot_total, row_total.
  rewrite (find_label_unique (trows p) row Hnd Hin). reflexivity.
Qed.

(** The total line 88 takes for a row of a pivot is the number of grouped
    records of that row. *)
Lemma pivot_total_count (pairs : list (string * string)) (r : string) :
  pivot_total (unstack_counts pairs) r
  = Z.of_nat (length (filter (fun p => fst p =? r) pairs)).
Proof.
  unfold pivot_total, row_total, unstack_counts. cbn [trows].
  destruct (in_dec string_dec r (sort_labels (uniq (map fst pairs))))
    as [Hin | Hnin].
  - rewrite (find_row _ r _ Hin). cbn [option_map snd].
    apply row_sum.
    + apply sort_labels_NoDup, uniq_NoDup.
    + intros p Hp. rewrite sort_labels_In, uniq_In. apply in_map. exact Hp.
  - rewrite find_label_none
      by (rewrite map_map; cbn [fst]; rewrite map_id; exact Hnin).
    cbn [option_map].
    rewrite filter_none; [reflexivity|].
    intros p Hp. apply String.eqb_neq. intros <-. apply Hnin.
    rewrite sort_labels_In, uniq_In. apply in_map. exact Hp.
Qed.

(** ** Lines 88-90, with or without a column labelled "Total" *)

Lemma set_column_rows (t : Table) :
  trows (set_column t "Total" (row_sums t))
  = map (total_set (tcolumns t)) (trows t).
Proof.
  unfold set_column, row_sums. cbn [trows].
  rewrite combine_map_r, map_map. reflexivity.
Qed.

Lemma overwritten_elsewhere (cols : list string) (g : string -> Z) (v : Z) :
  map snd
    (filter (fun p => negb (fst p =? "Total"))
       (combine cols
          (map (fun p => if fst p =? "Total" then v else snd p)
               (combine cols (map g cols)))))
  = map g (filter (fun c => negb (c =? "Total")) cols).
Proof.
  rewrite combine_map_r, map_map. cbn [fst snd].
  rewrite combine_map_r.
  induction cols as [|a cols IH]; [reflexivity|]. simpl.
  destruct (a =? "Total"); simpl; rewrite IH; reflexivity.
Qed.

Lemma total_dropped_tabulated (cols : list string) (r : string)
      (g : string -> Z) :
  total_dropped cols (r, map g cols)
  = (r, map g (filter (fun c => negb (c =? "Total")) cols)).
Proof.
  unfold total_dropped, set_in_row. cbn [fst snd]. f_equal.
  destruct (existsb (fun c => c =? "Total") cols) eqn:E.
  - apply overwritten_elsewhere.
  - rewrite combine_append by (symmetry; apply length_map).
    rewrite filter_app. cbn [combine filter fst]. rewrite String.eqb_refl.
    cbn [negb]. rewrite app_nil_r, combine_map_r.
    assert (Hn : ~ In "Total" cols)
      by (intro H; apply existsb_label in H; congruence).
    rewrite !filter_all.
    + rewrite map_map. reflexivity.
    + intros c Hc. apply negb_true_iff, String.eqb_neq. congruence.
    + intros p Hp. apply in_map_iff in Hp. destruct Hp as [c [<- Hc]].
      cbn [fst]. apply negb_true_iff, String.eqb_neq. congruence.
Qed.

Section AnyPivot.

Context {sorter : RowSort}.

Lemma rank_by_total_rows (t : Table) :
  Permutation (trows (rank_by_total t))
              (map (total_dropped (tcolumns t)) (trows t)).
Proof.
  unfold rank_by_total, drop_columns, sort_values_desc.
  cbn [trows tcolumns].
  rewrite (Permutation_map _ (sort_desc_perm _ _)).
  rewrite set_column_rows, map_map. reflexivity.
Qed.

Lemma rank_by_total_index (t : Table) :
  Permutation (index (rank_by_total t)) (index t).
Proof.
  unfold index. rewrite (Permutation_map fst (rank_by_total_rows t)).
  rewrite map_map. reflexivity.
Qed.

(** The rows come out in descending order of the sums they had in the
    pivot. *)
Lemma rank_by_total_sorted (t : Table) :
  dense t -> NoDup (index t) ->
  StronglySorted (fun a b => (pivot_total t b <= pivot_total t a)%Z)
                 (index (rank_by_total t)).
Proof.
  intros Hd Hnd. unfold dense in Hd. rewrite Forall_forall in Hd.
  unfold index, rank_by_total, drop_columns, sort_values_desc.
  cbn [trows tcolumns]. rewrite map_map. cbn [fst].
  set (cols' := tcolumns (set_column t "Total" (row_sums t))).
  set (key := fun r : string * list Z => cell_at cols' "Total" (snd r)).
  apply StronglySorted_map_in
    with (R := fun a b => (key b <= key a)%Z); [|apply sort_desc_sorted].
  assert (Hkey : forall x,
             In x (sort_desc key (trows (set_column t "Total" (row_sums t)))) ->
             key x = pivot_total t (fst x)).
  { intros x Hx. apply (Permutation_in _ (sort_desc_perm _ _)) in Hx.
    rewrite set_column_rows in Hx. apply in_map_iff in Hx.
    destruct Hx as [row [<- Hrow]].
    unfold total_set. cbn [fst snd].
    rewrite (row_total_of_row t row Hnd Hrow).
    unfold key, cell_at, cols', set_column. cbn [tcolumns fst snd].
    destruct (select_set_in_row "Total" (sum_cells (snd row)) (tcolumns t)
                (snd row) (Hd row Hrow)) as [n E].
    rewrite E. reflexivity. }
  intros a b Ha Hb Hab. rewrite <- (Hkey a Ha), <- (Hkey b Hb). exact Hab.
Qed.

(** Lines 88-93 on a pivot: the grid over the columns other than "Total",
    its rows in some other order. *)
Lemma ranked_grid (pairs : list (string * string)) :
  tcolumns (ranked (unstack_counts pairs))
  = filter (fun c => negb (c =? "Total")) (sort_labels (uniq (map snd pairs)))
  /\
  Permutation
    (trows (ranked (unstack_counts pairs)))
    (trows (grid (sort_labels (uniq (map fst pairs)))
                 (filter (fun c => negb (c =? "Total"))
                         (sort_labels (uniq (map snd pairs))))
                 pairs))
  /\
  index (ranked (unstack_counts pairs))
  = index (rank_by_total (unstack_counts pairs)).
Proof.
  assert (Hrows : Permutation
            (trows (rank_by_total (unstack_counts pairs)))
            (trows (grid (sort_labels (uniq (map fst pairs)))
                         (filter (fun c => negb (c =? "Total"))
                                 (sort_labels (uniq (map snd pairs))))
                         pairs))).
  { rewrite rank_by_total_rows. unfold unstack_counts, grid.
    cbn [trows tcolumns]. rewrite map_map.
    erewrite map_ext; [reflexivity|].
    intro r. apply total_dropped_tabulated. }
  assert (Hcols : tcolumns (rank_by_total (unstack_counts pairs))
                  = filter (fun c => negb (c =? "Total"))
                           (sort_labels (uniq (map snd pairs)))).
  { rewrite rank_by_total_columns, unstack_counts_columns. reflexivity. }
  assert (E : ranked (unstack_counts pairs)
              = rank_by_total (unstack_counts pairs)).
  { unfold ranked. apply sort_index_columns_ascending.
    - unfold columns_ascending. rewrite Hcols.
      apply StronglySorted_filter.
      apply (proj1 (unstack_counts_ascending pairs)).
    - unfold dense. rewrite Forall_forall. intros row Hrow.
      apply (Permutation_in _ Hrows) in Hrow.
      unfold grid in Hrow. cbn [trows] in Hrow.
      apply in_map_iff in Hrow. destruct Hrow as [r [<- _]].
      cbn [snd]. rewrite Hcols. apply length_map. }
  rewrite E. split; [exact Hcols|]. split; [exact Hrows | reflexivity].
Qed.

End AnyPivot.

(** ** A grid whose rows have been reordered *)

Section Reordered.

Variables (t : Table) (rl cl : list string) (pairs : list (string * string)).
Hypothesis columns_of : tcolumns t = cl.
Hypothesis rows_of : Permutation (trows t) (trows (grid rl cl pairs)).
Hypothesis distinct_rows : NoDup rl.
Hypothesis distinct_columns : NoDup cl.

Lemma grid_index : index (grid rl cl pairs) = rl.
Proof. unfold index, grid. cbn [trows]. rewrite map_map. apply map_id. Qed.

Lemma reordered_index : Permutation (index t) rl.
Proof.
  rewrite <- grid_index. unfold index. apply Permutation_map. exact rows_of.
Qed.

Lemma reordered_dense : dense t.
Proof.
  unfold dense. rewrite Forall_forall. intros row Hrow.
  apply (Permutation_in _ rows_of) in Hrow.
  unfold grid in Hrow. cbn [trows] in Hrow.
  apply in_map_iff in Hrow. destruct Hrow as [r [<- _]].
  cbn [snd]. rewrite columns_of. apply length_map.
Qed.

Lemma reordered_lookup (r c : string) :
  In r rl -> In c cl -> lookup_cell t r c = Some (count_pair r c pairs).
Proof.
  intros Hr Hc. unfold lookup_cell.
  rewrite (find_label_perm (trows (grid rl cl pairs)) (trows t) r).
  - unfold grid. cbn [trows]. rewrite (find_row _ r _ Hr).
    rewrite columns_of.
    assert (E : existsb (fun x => x =? c) cl = true)
      by (apply existsb_label; exact Hc).
    rewrite E. cbn [snd]. f_equal.
    apply cell_at_tabulated; assumption.
  - symmetry. exact rows_of.
  - fold (index (grid rl cl pairs)). rewrite grid_index. exact distinct_rows.
Qed.

Lemma reordered_grand_total :
  grand_total t
  = sum_cells (map (fun r => sum_cells (map (fun c => count_pair r c pairs) cl))
                   rl).
Proof.
  rewrite (grand_total_perm t (grid rl cl pairs) rows_of).
  unfold grand_total, row_sums, grid. cbn [trows]. rewrite map_map.
  reflexivity.
Qed.

End Reordered.

(** ** The table a chart is given, against the values grouped on *)

Lemma unstack_counts_matrix (keys : list (cell * cell)) :
  count_matrix (unstack_counts (observed keys)) keys any_label.
Proof.
  unfold count_matrix.
  split; [apply unstack_counts_dense|].
  split; [rewrite unstack_counts_index; apply sort_labels_NoDup, uniq_NoDup|].
  split; [rewrite unstack_counts_columns; apply sort_labels_NoDup, uniq_NoDup|].
  split; [|split].
  - intro r. rewrite unstack_counts_index, sort_labels_In, uniq_In.
    rewrite in_map_iff. split.
    + intros [[r' c] [E Hin]]. simpl in E. subst r'.
      exists c. apply observed_In. exact Hin.
    + intros [c Hin]. exists (r, c). split; [reflexivity|].
      apply observed_In. exact Hin.
  - intros c. rewrite unstack_counts_columns, sort_labels_In, uniq_In.
    rewrite in_map_iff. split.
    + intros [[r c'] [E Hin]]. simpl in E. subst c'.
      split; [exact I|]. exists r. apply observed_In. exact Hin.
    + intros [_ [r Hin]]. exists (r, c). split; [reflexivity|].
      apply observed_In. exact Hin.
  - intros r c Hr Hc. rewrite (unstack_counts_lookup _ r c Hr Hc).
    rewrite observed_count. split; [reflexivity|].
    unfold pair_count. lia.
Qed.

Lemma unstack_counts_total (keys : list (cell * cell)) :
  grand_total (unstack_counts (observed keys))
  = Z.of_nat (length (filter both_text keys)).
Proof. rewrite unstack_counts_grand_total, observed_length. reflexivity. Qed.

Lemma kept_label (c : string) (l : list string) :
  In c (filter (fun x => negb (x =? "Total")) l) <-> not_total c /\ In c l.
Proof.
  rewrite filter_In, negb_true_iff, String.eqb_neq. unfold not_total. tauto.
Qed.

Lemma labels_NoDup (l : list string) : NoDup (sort_labels (uniq l)).
Proof. apply sort_labels_NoDup, uniq_NoDup. Qed.

Lemma kept_labels_NoDup (l : list string) :
  NoDup (filter (fun c => negb (c =? "Total")) (sort_labels (uniq l))).
Proof. apply NoDup_filter, labels_NoDup. Qed.

Lemma first_values (keys : list (cell * cell)) (r : string) :
  In r (sort_labels (uniq (map fst (observed keys))))
  <-> exists c, In (Str r, Str c) keys.
Proof.
  rewrite sort_labels_In, uniq_In, in_map_iff. split.
  - intros [[r' c] [E Hin]]. simpl in E. subst r'.
    exists c. apply observed_In. exact Hin.
  - intros [c Hin]. exists (r, c). split; [reflexivity|].
    apply observed_In. exact Hin.
Qed.

Lemma second_values (keys : list (cell * cell)) (c : string) :
  In c (sort_labels (uniq (map snd (observed keys))))
  <-> exists r, In (Str r, Str c) keys.
Proof.
  rewrite sort_labels_In, uniq_In, in_map_iff. split.
  - intros [[r c'] [E Hin]]. simpl in E. subst c'.
    exists r. apply observed_In. exact Hin.
  - intros [r Hin]. exists (r, c). split; [reflexivity|].
    apply observed_In. exact Hin.
Qed.

Section RankedTable.

Context {sorter : RowSort}.

Variable keys : list (cell * cell).

Lemma ranked_matrix :
  count_matrix (ranked (unstack_counts (observed keys))) keys not_total.
Proof.
  destruct (ranked_grid (observed keys)) as [Hcols [Hrows _]].
  pose proof (reordered_index _ _ _ _ Hrows) as Hidx.
  unfold count_matrix.
  split; [apply (reordered_dense _ _ _ _ Hcols Hrows)|].
  split; [apply (Permutation_NoDup (Permutation_sym Hidx)), labels_NoDup|].
  split; [rewrite Hcols; apply kept_labels_NoDup|].
  assert (Hr : forall r,
             In r (index (ranked (unstack_counts (observed keys))))
             <-> In r (sort_labels (uniq (map fst (observed keys))))).
  { intro r. split; intro H.
    - apply (Permutation_in _ Hidx). exact H.
    - apply (Permutation_in _ (Permutation_sym Hidx)). exact H. }
  split; [|split].
  - intro r. rewrite Hr. apply first_values.
  - intro c. rewrite Hcols, kept_label, second_values. reflexivity.
  - intros r c Hin Hc. rewrite Hcols in Hc. apply Hr in Hin.
    rewrite (reordered_lookup _ _ _ _ Hcols Hrows
               (labels_NoDup _) (kept_labels_NoDup _) r c Hin Hc).
    rewrite observed_count.
    split; [reflexivity | unfold pair_count; lia].
Qed.

Lemma ranked_total :
  grand_total (ranked (unstack_counts (observed keys)))
  = Z.of_nat (length (filter kept_pair keys)).
Proof.
  destruct (ranked_grid (observed keys)) as [Hcols [Hrows _]].
  rewrite (reordered_grand_total _ _ _ _ Hrows).
  rewrite <- observed_kept.
  rewrite <- (grid_sum (sort_labels (uniq (map fst (observed keys))))
                (filter (fun c => negb (c =? "Total"))
                        (sort_labels (uniq (map snd (observed keys)))))
                (filter (fun p => negb (snd p =? "Total")) (observed keys))
                (labels_NoDup _) (kept_labels_NoDup _)).
  - apply sum_cells_ext. intros r _. apply sum_cells_ext. intros c Hc.
    symmetry. apply count_pair_kept.
    apply kept_label in Hc. apply Hc.
  - intros p Hp. apply filter_In in Hp. destruct Hp as [Hp Hk].
    split.
    + rewrite sort_labels_In, uniq_In. apply in_map. exact Hp.
    + apply filter_In. split; [|exact Hk].
      rewrite sort_labels_In, uniq_In. apply in_map. exact Hp.
Qed.

Lemma ranked_by_count :
  rows_by_count_desc (ranked (unstack_counts (observed keys))) keys.
Proof.
  unfold rows_by_count_desc.
  destruct (ranked_grid (observed keys)) as [_ [_ Hidx]]. rewrite Hidx.
  pose proof (rank_by_total_sorted (unstack_counts (observed keys))
                (unstack_counts_dense (observed keys))) as S.
  assert (Hnd : NoDup (index (unstack_counts (observed keys))))
    by (rewrite unstack_counts_index; apply labels_NoDup).
  specialize (S Hnd).
  eapply StronglySorted_map_in with (f := fun x => x) in S.
  - rewrite map_id in S. exact S.
  - intros a b _ _ H. cbv beta.
    rewrite <- !observed_row_count, <- !pivot_total_count. exact H.
Qed.

Lemma ranked_by_total :
  no_total_column keys ->
  rows_by_total_desc (ranked (unstack_counts (observed keys))).
Proof.
  intro Hn. apply ranked_spec.
  intro H. apply in_map_iff in H. destruct H as [[r c] [E Hin]].
  simpl in E. subst c. apply observed_In in Hin. exact (Hn r Hin).
Qed.

End RankedTable.

(** ** The keys the views group on *)

Lemma the_column_inv (R : string -> string) (name : string)
      (cols : list string) (k : string) :
  the_column R name cols = Ok k ->
  In k cols /\ R k = name /\ (forall c, In c cols -> R c = name -> c = k).
Proof.
  unfold the_column.
  destruct (filter (fun c => R c =? name) cols) as [|a [|b l]] eqn:E;
    try discriminate.
  intro H. injection H as ->.
  assert (Hk : In k (filter (fun c => R c =? name) cols))
    by (rewrite E; left; reflexivity).
  apply filter_In in Hk. destruct Hk as [Hin Hk].
  apply String.eqb_eq in Hk.
  split; [exact Hin|]. split; [exact Hk|].
  intros c Hc Ec.
  assert (H : In c (filter (fun c => R c =? name) cols))
    by (apply filter_In; split; [exact Hc | apply String.eqb_eq; exact Ec]).
  rewrite E in H. destruct H as [H | []]. symmetry. exact H.
Qed.

Lemma the_column_key_of (R : string -> string) (old name : string)
      (recs : list record) (k : string) :
  the_column R name (data_columns recs) = Ok k ->
  R old = name ->
  (forall c, R c = name -> c = old \/ c = name) ->
  old <> "dataset_status" ->
  k = key_of old name recs.
Proof.
  intros H Eold Hinv Hold.
  destruct (the_column_inv _ _ _ _ H) as [Hin [Ek Huniq]].
  unfold key_of. destruct (existsb (has_key old) recs) eqn:E.
  - symmetry. apply Huniq; [|exact Eold].
    apply data_columns_In. right. exact E.
  - destruct (Hinv k Ek) as [-> | ->]; [|reflexivity].
    apply data_columns_In in Hin. destruct Hin as [Hin | Hin]; congruence.
Qed.

Lemma key_of_cases (old new : string) (recs : list record) :
  key_of old new recs = old \/ key_of old new recs = new.
Proof. unfold key_of. destruct (existsb (has_key old) recs); auto. Qed.

Lemma key_cells_of (k1 k2 : string) (xs : list record) :
  k1 <> "dataset_status" -> k2 <> "dataset_status" ->
  combine (map (fun x => data_cell x k1) xs) (map (fun x => data_cell x k2) xs)
  = key_cells k1 k2 xs.
Proof.
  intros H1 H2. rewrite combine_map_map. unfold key_cells.
  apply map_ext. intro x. unfold data_cell.
  apply String.eqb_neq in H1. apply String.eqb_neq in H2.
  rewrite H1, H2. reflexivity.
Qed.

(** A pivot of the filtered frame, for records of any shape: when
    [groupby] goes through, it has grouped on the two keys that bear the
    labels. *)
Lemma pivot_of_records (R : string -> string) (rk ck old1 old2 : string)
      (recs : list record) (t : Table) :
  groupby_size_unstack
    (mkFrame (map R (data_columns recs))
             (tabulate (data_columns recs) data_cell
                       (filter is_primary recs))) rk ck
  = Ok t ->
  R old1 = rk -> (forall c, R c = rk -> c = old1 \/ c = rk) ->
  old1 <> "dataset_status" -> rk <> "dataset_status" ->
  R old2 = ck -> (forall c, R c = ck -> c = old2 \/ c = ck) ->
  old2 <> "dataset_status" -> ck <> "dataset_status" ->
  t = unstack_counts
        (observed (key_cells (key_of old1 rk recs) (key_of old2 ck recs)
                             (filter is_primary recs))).
Proof.
  intros H E1 I1 N1 N1' E2 I2 N2 N2'.
  rewrite groupby_tabulate in H.
  destruct (Nat.eqb (length (filter is_primary recs)) 2
            && negb (has_label rk (map R (data_columns recs))
                     && has_label ck (map R (data_columns recs))));
    [discriminate|].
  destruct (the_column R rk (data_columns recs)) as [k1|] eqn:C1;
    [|discriminate].
  destruct (the_column R ck (data_columns recs)) as [k2|] eqn:C2;
    [|discriminate].
  cbn [Py.bind] in H.
  destruct (forallb hashable _ && forallb hashable _); [|discriminate].
  injection H as <-.
  rewrite (the_column_key_of R old1 rk recs k1 C1 E1 I1 N1).
  rewrite (the_column_key_of R old2 ck recs k2 C2 E2 I2 N2).
  rewrite key_cells_of; [reflexivity| |].
  - destruct (key_of_cases old1 rk recs) as [-> | ->]; assumption.
  - destruct (key_of_cases old2 ck recs) as [-> | ->]; assumption.
Qed.

Section AnyRecords.

Context {sorter : RowSort}.

(** The three tables of the report, whenever the script gets as far as
    building them, in terms of the records. *)
Lemma report_of_records (recs : list record) (t1 t2 t3 : Table) :
  report (fetch_ok recs) = Ok (t1, t2, t3) ->
  t1 = ranked (unstack_counts
                 (observed (key_cells (key_of "group_name" "Group Name" recs)
                                      "dataset_type"
                                      (filter is_primary recs)))) /\
  t2 = unstack_counts
         (observed (key_cells "dataset_type"
                              (key_of "group_name" "Group Name" recs)
                              (filter is_primary recs))) /\
  t3 = ranked (unstack_counts
                 (observed (key_cells "dataset_type"
                                      (key_of "status" "Status" recs)
                                      (filter is_primary recs)))).
Proof.
  rewrite report_by_views, filtered_cases.
  destruct (existsb (has_key "dataset_type") recs) eqn:Ety; [|discriminate].
  destruct (forallb classifiable _); [|discriminate].
  cbn [Py.bind].
  unfold view_group_by_type, view_type_by_group, view_type_by_status.
  cbn [snd]. unfold rename. cbn [columns rows].
  destruct (groupby_size_unstack _ "Group Name" "Dataset Type")
    as [p1|] eqn:G1; [|discriminate].
  cbn [Py.bind].
  destruct (groupby_size_unstack _ "Dataset Type" "Group Name")
    as [p2|] eqn:G2; [|discriminate].
  cbn [Py.bind].
  destruct (groupby_size_unstack _ "Dataset Type" "Status")
    as [p3|] eqn:G3; [|discriminate].
  cbn [Py.bind]. intro H. injection H as <- <- <-.
  assert (Kty : forall new, key_of "dataset_type" new recs = "dataset_type")
    by (intro new; unfold key_of; rewrite Ety; reflexivity).
  apply (pivot_of_records _ _ _ "group_name" "dataset_type") in G1;
    [| reflexivity | apply names_1_group_name_inv | discriminate | discriminate
     | reflexivity | apply names_1_dataset_type_inv | discriminate
     | discriminate].
  apply (pivot_of_records _ _ _ "dataset_type" "group_name") in G2;
    [| reflexivity | apply names_1_dataset_type_inv | discriminate
     | discriminate | reflexivity | apply names_1_group_name_inv
     | discriminate | discriminate].
  apply (pivot_of_records _ _ _ "dataset_type" "status") in G3;
    [| reflexivity | apply names_3_dataset_type_inv | discriminate
     | discriminate | reflexivity | apply names_3_status_inv
     | discriminate | discriminate].
  rewrite Kty in G1, G2, G3. subst p1 p2 p3.
  rewrite unranked_spec. repeat split.
Qed.

End AnyRecords.

(** ** Records the views can group *)

Lemma dataset_record_groupable (r : record) :
  dataset_record r = true -> groupable_record r = true.
Proof.
  unfold dataset_record, groupable_record.
  rewrite !andb_true_iff. intros [[[[[H1 H2] H3] H4] H5] H6].
  repeat split; try assumption.
  - destruct (field "group_name" r); simpl in *; congruence.
  - destruct (field "status" r); simpl in *; congruence.
Qed.

Lemma dataset_records_groupable (recs : list record) :
  recs <> [] -> forallb dataset_record recs = true -> groupable recs = true.
Proof.
  intros Hne Hshape. unfold groupable.
  rewrite !andb_true_iff. split; [split|].
  - apply forallb_forall. intros r Hr. apply dataset_record_groupable.
    rewrite forallb_forall in Hshape. apply Hshape. exact Hr.
  - apply key_somewhere; [exact Hne|].
    intros r Hr. rewrite (shape_is_str recs Hshape "group_name") by auto.
    reflexivity.
  - apply key_somewhere; [exact Hne|].
    intros r Hr. rewrite (shape_is_str recs Hshape "status") by auto.
    reflexivity.
Qed.

Lemma dataset_records_primary_grouped (recs : list record) :
  forallb dataset_record recs = true -> primary_grouped recs = true.
Proof.
  intro Hshape. unfold primary_grouped. apply forallb_forall.
  intros r Hr. apply filter_In in Hr. destruct Hr as [Hr _].
  rewrite (shape_is_str recs Hshape "group_name") by auto.
  rewrite (shape_is_str recs Hshape "status") by auto. reflexivity.
Qed.

Section Groupable.

Variable recs : list record.
Hypothesis can_group : groupable recs = true.

Lemma groupable_each (r : record) :
  In r recs ->
  is_str (field "dataset_type" r) = true /\
  hashable (field "group_name" r) = true /\
  hashable (field "status" r) = true /\
  has_key "Dataset Type" r = false /\
  has_key "Group Name" r = false /\
  has_key "Status" r = false.
Proof.
  intro Hr. pose proof can_group as G. unfold groupable in G.
  rewrite !andb_true_iff in G. destruct G as [[H _] _].
  rewrite forallb_forall in H. specialize (H r Hr).
  unfold groupable_record in H.
  rewrite !andb_true_iff, !negb_true_iff in H. tauto.
Qed.

Lemma groupable_has_key (k : string) :
  k = "dataset_type" \/ k = "group_name" \/ k = "status" ->
  existsb (has_key k) recs = true.
Proof.
  pose proof can_group as G. unfold groupable in G.
  rewrite !andb_true_iff in G. destruct G as [[_ Hg] Hs].
  intros [-> | [-> | ->]]; [|exact Hg | exact Hs].
  apply existsb_exists in Hg. destruct Hg as [r [Hr _]].
  apply existsb_exists. exists r. split; [exact Hr|].
  apply field_present.
  destruct (groupable_each r Hr) as [H _].
  destruct (field "dataset_type" r); simpl in H; congruence.
Qed.

Lemma groupable_has_column (k : string) :
  k = "dataset_type" \/ k = "group_name" \/ k = "status" ->
  In k (data_columns recs).
Proof.
  intro Hk. apply data_columns_In. right. apply groupable_has_key. exact Hk.
Qed.

Lemma groupable_no_column (k : string) :
  k = "Dataset Type" \/ k = "Group Name" \/ k = "Status" ->
  ~ In k (data_columns recs).
Proof.
  intros Hk Hin. apply data_columns_In in Hin.
  destruct Hin as [E | E].
  - destruct Hk as [-> | [-> | ->]]; discriminate.
  - rewrite no_key_anywhere in E; [discriminate|].
    intros r Hr.
    destruct (groupable_each r Hr) as [_ [_ [_ [A [B C]]]]].
    destruct Hk as [-> | [-> | ->]]; assumption.
Qed.

Lemma groupable_hashable (k : string) :
  k = "dataset_type" \/ k = "group_name" \/ k = "status" ->
  forallb hashable (map (fun x => data_cell x k) (filter is_primary recs))
  = true.
Proof.
  intro Hk. apply forallb_forall. intros c Hc.
  apply in_map_iff in Hc. destruct Hc as [r [<- Hr]].
  apply filter_In in Hr. destruct Hr as [Hr _].
  destruct (groupable_each r Hr) as [A [B [C _]]].
  unfold data_cell.
  assert (N : (k =? "dataset_status") = false)
    by (destruct Hk as [-> | [-> | ->]]; reflexivity).
  rewrite N.
  destruct Hk as [-> | [-> | ->]]; try assumption.
  destruct (field "dataset_type" r); simpl in A; try discriminate;
    reflexivity.
Qed.

Lemma groupable_filtered :
  filtered (fetch_ok recs)
  = Ok (mkFrame (data_columns recs)
                (tabulate (data_columns recs) data_cell
                          (filter is_primary recs))).
Proof.
  apply filtered_ok.
  - apply groupable_has_key. auto.
  - apply forallb_forall. intros c Hc. apply in_map_iff in Hc.
    destruct Hc as [r [<- Hr]].
    destruct (groupable_each r Hr) as [A _].
    destruct (field "dataset_type" r); simpl in A; try discriminate;
      reflexivity.
Qed.

(** A pivot of the filtered frame, under a renaming that sends exactly
    the fields [k1] and [k2] to the labels grouped on. *)
Lemma groupable_pivot (R : string -> string) (rk ck k1 k2 : string) :
  k1 = "dataset_type" \/ k1 = "group_name" \/ k1 = "status" ->
  k2 = "dataset_type" \/ k2 = "group_name" \/ k2 = "status" ->
  R k1 = rk -> R k2 = ck ->
  (forall c, R c = rk -> c = k1 \/ ~ In c (data_columns recs)) ->
  (forall c, R c = ck -> c = k2 \/ ~ In c (data_columns recs)) ->
  groupby_size_unstack
    (mkFrame (map R (data_columns recs))
             (tabulate (data_columns recs) data_cell
                       (filter is_primary recs))) rk ck
  = Ok (unstack_counts
          (observed (key_cells k1 k2 (filter is_primary recs)))).
Proof.
  intros H1 H2 E1 E2 U1 U2.
  rewrite groupby_tabulate.
  rewrite <- E1 at 1. rewrite <- E2 at 1.
  rewrite !has_label_image by (apply groupable_has_column; assumption).
  cbn [andb negb]. rewrite andb_false_r.
  rewrite (the_column_unique R rk (data_columns recs) k1);
    [| apply data_columns_NoDup | apply groupable_has_column; exact H1
     | exact E1
     | intros c Hc Ec; destruct (U1 c Ec); [assumption | contradiction]].
  rewrite (the_column_unique R ck (data_columns recs) k2);
    [| apply data_columns_NoDup | apply groupable_has_column; exact H2
     | exact E2
     | intros c Hc Ec; destruct (U2 c Ec); [assumption | contradiction]].
  cbn [Py.bind].
  rewrite (groupable_hashable k1 H1), (groupable_hashable k2 H2).
  cbn [andb]. rewrite key_cells_of; [reflexivity| |].
  - destruct H1 as [-> | [-> | ->]]; discriminate.
  - destruct H2 as [-> | [-> | ->]]; discriminate.
Qed.

Lemma groupable_pivot_group_by_type :
  groupby_size_unstack
    (rename names_1 (mkFrame (data_columns recs)
                             (tabulate (data_columns recs) data_cell
                                       (filter is_primary recs))))
    "Group Name" "Dataset Type"
  = Ok (unstack_counts
          (observed (key_cells "group_name" "dataset_type"
                               (filter is_primary recs)))).
Proof.
  unfold rename. cbn [columns rows].
  apply groupable_pivot; auto.
  - intros c Hc. destruct (names_1_group_name_inv c Hc) as [-> | ->];
      [left; reflexivity | right; apply groupable_no_column; auto].
  - intros c Hc. destruct (names_1_dataset_type_inv c Hc) as [-> | ->];
      [left; reflexivity | right; apply groupable_no_column; auto].
Qed.

Lemma groupable_pivot_type_by_group :
  groupby_size_unstack
    (rename names_1 (mkFrame (data_columns recs)
                             (tabulate (data_columns recs) data_cell
                                       (filter is_primary recs))))
    "Dataset Type" "Group Name"
  = Ok (unstack_counts
          (observed (key_cells "dataset_type" "group_name"
                               (filter is_primary recs)))).
Proof.
  unfold rename. cbn [columns rows].
  apply groupable_pivot; auto.
  - intros c Hc. destruct (names_1_dataset_type_inv c Hc) as [-> | ->];
      [left; reflexivity | right; apply groupable_no_column; auto].
  - intros c Hc. destruct (names_1_group_name_inv c Hc) as [-> | ->];
      [left; reflexivity | right; apply groupable_no_column; auto].
Qed.

Lemma groupable_pivot_type_by_status :
  groupby_size_unstack
    (rename names_3 (mkFrame (data_columns recs)
                             (tabulate (data_columns recs) data_cell
                                       (filter is_primary recs))))
    "Dataset Type" "Status"
  = Ok (unstack_counts
          (observed (key_cells "dataset_type" "status"
                               (filter is_primary recs)))).
Proof.
  unfold rename. cbn [columns rows].
  apply groupable_pivot; auto.
  - intros c Hc. destruct (names_3_dataset_type_inv c Hc) as [-> | ->];
      [left; reflexivity | right; apply groupable_no_column; auto].
  - intros c Hc. destruct (names_3_status_inv c Hc) as [-> | ->];
      [left; reflexivity | right; apply groupable_no_column; auto].
Qed.

Context {sorter : RowSort}.

(** On records the views can group the three tables are built, and the
    keys grouped on are the documented fields. *)
Lemma report_of_groupable_records :
  (exists t1 t2 t3, report (fetch_ok recs) = Ok (t1, t2, t3)) /\
  key_of "group_name" "Group Name" recs = "group_name" /\
  key_of "status" "Status" recs = "status".
Proof.
  split.
  - rewrite report_by_views, groupable_filtered. cbn [Py.bind].
    unfold view_group_by_type, view_type_by_group, view_type_by_status.
    cbn [snd].
    rewrite groupable_pivot_group_by_type. cbn [Py.bind].
    rewrite groupable_pivot_type_by_group. cbn [Py.bind].
    rewrite groupable_pivot_type_by_status. cbn [Py.bind].
    eauto.
  - unfold key_of. rewrite !groupable_has_key by auto. split; reflexivity.
Qed.

End Groupable.

(** Where every primary record holds text under both keys, every primary
    record is grouped. *)
Lemma primary_grouped_both (recs : list record) (k1 k2 : string) :
  groupable recs = true -> primary_grouped recs = true ->
  k1 = "dataset_type" \/ k1 = "group_name" \/ k1 = "status" ->
  k2 = "dataset_type" \/ k2 = "group_name" \/ k2 = "status" ->
  forall x, In x (filter is_primary recs) ->
            field k1 x = Str (text k1 x) /\ field k2 x = Str (text k2 x).
Proof.
  intros Hg Hp H1 H2 x Hx.
  unfold primary_grouped in Hp. rewrite forallb_forall in Hp.
  specialize (Hp x Hx). apply andb_true_iff in Hp. destruct Hp as [A B].
  apply filter_In in Hx. destruct Hx as [Hx _].
  destruct (groupable_each recs Hg x Hx) as [C _].
  assert (F : forall k, k = "dataset_type" \/ k = "group_name" \/ k = "status" ->
                        field k x = Str (text k x)).
  { intros k [-> | [-> | ->]]; apply is_str_field; assumption. }
  split; apply F; assumption.
Qed.

Lemma primary_records_grouped (recs : list record) (k1 k2 : string) :
  groupable recs = true -> primary_grouped recs = true ->
  k1 = "dataset_type" \/ k1 = "group_name" \/ k1 = "status" ->
  k2 = "dataset_type" \/ k2 = "group_name" \/ k2 = "status" ->
  filter both_text (key_cells k1 k2 (filter is_primary recs))
  = key_cells k1 k2 (filter is_primary recs).
Proof.
  intros Hg Hp H1 H2. apply filter_all. intros k Hk.
  unfold key_cells in Hk. apply in_map_iff in Hk.
  destruct Hk as [x [<- Hx]].
  destruct (primary_grouped_both recs k1 k2 Hg Hp H1 H2 x Hx) as [A B].
  unfold both_text. cbn [fst snd]. rewrite A, B. reflexivity.
Qed.

Lemma primary_records_kept (recs : list record) (k1 k2 : string) :
  groupable recs = true -> primary_grouped recs = true ->
  k1 = "dataset_type" \/ k1 = "group_name" \/ k1 = "status" ->
  k2 = "dataset_type" \/ k2 = "group_name" \/ k2 = "status" ->
  never_total k2 recs ->
  filter kept_pair (key_cells k1 k2 (filter is_primary recs))
  = key_cells k1 k2 (filter is_primary recs).
Proof.
  intros Hg Hp H1 H2 Hn. apply filter_all. intros k Hk.
  unfold key_cells in Hk. apply in_map_iff in Hk.
  destruct Hk as [x [<- Hx]].
  destruct (primary_grouped_both recs k1 k2 Hg Hp H1 H2 x Hx) as [A B].
  apply filter_In in Hx. destruct Hx as [Hx Hprim].
  unfold kept_pair, both_text. cbn [fst snd].
  rewrite A, B. cbn [is_str andb cell_is].
  apply negb_true_iff, String.eqb_neq. exact (Hn x Hx Hprim).
Qed.

Lemma key_cells_length (k1 k2 : string) (xs : list record) :
  length (key_cells k1 k2 xs) = length xs.
Proof. apply length_map. Qed.

(** ** The order of the tables *)



(** ** The cells of the tables *)




(** ** The sums of the tables *)



